(** * Bitcoin dashboard: review charts and view router

    A shallow embedding of the browser-side core of the dashboard:

    - [static/js/REVIEW_BTC_VS_GOLD.js] (module [Gold]; the silver module is
      the same code up to the data path, the colours and the identifiers),
    - the BTC-vs-fiat review module (module [Fiat]),
    - [static/js/router.js] (module [Router]).

    JavaScript values are modelled the way the code uses them: a [Date] is
    its time value (an integer number of milliseconds, or NaN for an invalid
    date), a [Number] is an IEEE 754 binary64 value ([spec_float] at
    precision 53), [null] is [None], an exception is the [Throw] outcome. *)

From Stdlib Require Import String Ascii List Bool ZArith QArith Lia.
From Stdlib Require Import Floats.SpecFloat.
From Stdlib Require Import DecimalString Sorting.Sorted Sorting.Permutation.
Import ListNotations.

Local Open Scope string_scope.
Local Open Scope Z_scope.

(** ** JavaScript values *)

Module JS.

(** Exceptions the modelled code can raise. *)
Inductive error : Type :=
| TypeError                       (* e.g. destructuring [undefined] *)
| SyntaxError                     (* [JSON.parse] on a malformed line *)
| NetworkError                    (* the reason of a rejected [fetch] *)
| Error (message : string).       (* [throw new Error(message)] *)

(** The result of running a piece of code: a value or a thrown exception. *)
Inductive outcome (A : Type) : Type :=
| Return (a : A)
| Throw (e : error).
Arguments Return {A} a.
Arguments Throw {A} e.

(** [Number]: binary64. *)
Definition number : Type := spec_float.
Definition prec : Z := 53.
Definition emax : Z := 1024.

Definition NaN : number := S754_nan.
Definition num_of_Z (z : Z) : number := binary_normalize prec emax z 0 false.
Definition sub : number -> number -> number := SFsub prec emax.
Definition mul : number -> number -> number := SFmul prec emax.
Definition div : number -> number -> number := SFdiv prec emax.
(** [a === b] and [a >= b] on numbers (false as soon as one side is NaN). *)
Definition strict_eq (a b : number) : bool := SFeqb a b.
Definition geb (a b : number) : bool := SFleb b a.

(** Truthiness, per type. *)
Definition truthy_number (n : number) : bool :=
  match n with
  | S754_nan | S754_zero _ => false
  | _ => true
  end.

Definition truthy_string (s : string) : bool :=
  match s with
  | EmptyString => false
  | String _ _ => true
  end.

(** A nullable field: [null] is falsy, otherwise the payload decides. *)
Definition truthy_opt {A : Type} (t : A -> bool) (v : option A) : bool :=
  match v with
  | None => false
  | Some a => t a
  end.

(** A zero of either sign ([0 === -0] in JavaScript). *)
Definition is_zero (n : number) : Prop := exists s, n = S754_zero s.

Definition is_finite (n : number) : bool :=
  match n with
  | S754_zero _ | S754_finite _ _ _ => true
  | _ => false
  end.

(** Sequencing of code that may throw. *)
Definition bind {A B : Type} (m : outcome A) (k : A -> outcome B) : outcome B :=
  match m with
  | Return a => k a
  | Throw e => Throw e
  end.

(** [xs.map(f)] where [f] may throw: the first exception aborts the map. *)
Fixpoint map_throwing {A B : Type} (f : A -> outcome B) (xs : list A)
  : outcome (list B) :=
  match xs with
  | [] => Return []
  | a :: xs' =>
      bind (f a) (fun b => bind (map_throwing f xs') (fun bs => Return (b :: bs)))
  end.

(** [obj[key]] on an object literal used as a table: the entry of the own
    property named [key], [None] when there is none.  The names an object
    literal inherits from [Object.prototype] ([constructor], [toString],
    ...) are no entries of the table; what the code does with them is said
    where the table is read. *)
Fixpoint get {A : Type} (key : string) (obj : list (string * A)) : option A :=
  match obj with
  | [] => None
  | (k, v) :: obj' => if (k =? key)%string then Some v else get key obj'
  end.

(** [a === b] where [b] is a nullable number ([null] equals no number). *)
Definition strict_eq_nullable (a : number) (b : option number) : bool :=
  match b with
  | Some n => strict_eq a n
  | None => false
  end.

(** [s.trim()] and [s.split('\n')] on byte strings; white space is the ASCII
    white space (tab, line feed, vertical tab, form feed, carriage return,
    space). *)
Definition is_space (c : ascii) : bool :=
  let n := nat_of_ascii c in
  ((9 <=? n) && (n <=? 13) || (n =? 32))%nat.

Fixpoint trim_start (s : string) : string :=
  match s with
  | String c s' => if is_space c then trim_start s' else s
  | EmptyString => EmptyString
  end.

Fixpoint trim_end (s : string) : string :=
  match s with
  | EmptyString => EmptyString
  | String c s' =>
      match trim_end s' with
      | EmptyString => if is_space c then EmptyString else String c EmptyString
      | r => String c r
      end
  end.

Definition trim (s : string) : string := trim_end (trim_start s).

Definition is_newline (c : ascii) : bool := (nat_of_ascii c =? 10)%nat.

Fixpoint split_lines (s : string) : list string :=
  match s with
  | EmptyString => [EmptyString]
  | String c s' =>
      match split_lines s' with
      | [] => []
      | l :: ls =>
          if is_newline c then EmptyString :: l :: ls else String c l :: ls
      end
  end.

(** An [async] function over module-level state [S]: it runs from a state to
    an outcome and the state it leaves behind.  Calls are modelled as running
    one after the other (a call starts when the previous one has settled). *)
Definition task (S A : Type) : Type := S -> outcome A * S.

Definition resolve {S A : Type} (a : A) : task S A := fun st => (Return a, st).

Definition reject {S A : Type} (e : error) : task S A := fun st => (Throw e, st).

Definition then_ {S A B : Type} (m : task S A) (k : A -> task S B) : task S B :=
  fun st =>
    match m st with
    | (Return a, st') => k a st'
    | (Throw e, st') => (Throw e, st')
    end.

(** Lifting of synchronous code that may throw. *)
Definition sync {S A : Type} (m : outcome A) : task S A := fun st => (m, st).

End JS.

Notation "x <- m ;; k" := (JS.bind m (fun x => k))
  (at level 61, m at next level, right associativity).
Notation "'await' x <- m ;; k" := (JS.then_ m (fun x => k))
  (at level 61, x name, m at next level, right associativity).

(** ** Dates *)

Module Date.

(** Time value of a [Date] object: milliseconds since the epoch, [None] for
    an invalid date (time value NaN). *)
Definition t : Type := option Z.

Definition msPerDay : Z := 86400000.
Definition maxTime : Z := 8640000000000000.

(** [new Date(number)]: the time value is clipped to the representable
    range; outside of it the date is invalid. *)
Definition TimeClip (v : Z) : t :=
  if (Z.abs v <=? maxTime) then Some v else None.

(** [d.getTime()] is the identity on the model; arithmetic on a NaN time
    value stays NaN. *)
Definition plus (d : t) (k : Z) : option Z := option_map (fun v => v + k) d.

Definition of_number (v : option Z) : t :=
  match v with
  | Some z => TimeClip z
  | None => None
  end.

(** Relational operators on dates compare time values; any comparison with
    an invalid date is false. *)
Definition geb (a b : t) : bool :=
  match a, b with
  | Some x, Some y => y <=? x
  | _, _ => false
  end.

Definition leb (a b : t) : bool :=
  match a, b with
  | Some x, Some y => x <=? y
  | _, _ => false
  end.

Definition gtb (a b : t) : bool :=
  match a, b with
  | Some x, Some y => y <? x
  | _, _ => false
  end.

(** Day number (days since the epoch) of a time value. *)
Definition Day (v : Z) : Z := v / msPerDay.

(** Year of a day number in the proleptic Gregorian calendar. *)
Definition year_of_days (days : Z) : Z :=
  let z := days + 719468 in
  let era := z / 146097 in
  let doe := z - era * 146097 in
  let yoe := (doe - doe / 1460 + doe / 36524 - doe / 146096) / 365 in
  let doy := doe - (365 * yoe + yoe / 4 - yoe / 100) in
  let mp := (5 * doy + 2) / 153 in
  let m := if mp <? 10 then mp + 3 else mp - 9 in
  yoe + era * 400 + (if m <=? 2 then 1 else 0).

Definition YearFromTime (v : Z) : Z := year_of_days (Day v).

(** [d.getUTCFullYear()]: NaN on an invalid date. *)
Definition getUTCFullYear (d : t) : JS.number :=
  match d with
  | Some v => JS.num_of_Z (YearFromTime v)
  | None => JS.NaN
  end.

(** Day number of a civil date. *)
Definition days_from_civil (y m d : Z) : Z :=
  let y' := if m <=? 2 then y - 1 else y in
  let era := y' / 400 in
  let yoe := y' - era * 400 in
  let doy := (153 * (if 2 <? m then m - 3 else m + 9) + 2) / 5 + d - 1 in
  let doe := yoe * 365 + yoe / 4 - yoe / 100 + doy in
  era * 146097 + doe - 719468.

Definition digit (c : ascii) : option Z :=
  let n := Z.of_nat (nat_of_ascii c) in
  if (48 <=? n) && (n <=? 57) then Some (n - 48) else None.

Fixpoint digits (acc : Z) (s : string) : option Z :=
  match s with
  | EmptyString => Some acc
  | String c s' =>
      match digit c with
      | Some d => digits (10 * acc + d) s'
      | None => None
      end
  end.

Definition is_leap (y : Z) : bool :=
  ((y mod 4 =? 0) && negb (y mod 100 =? 0)) || (y mod 400 =? 0).

Definition days_in_month (y m : Z) : Z :=
  if m =? 2 then (if is_leap y then 29 else 28)
  else if (m =? 4) || (m =? 6) || (m =? 9) || (m =? 11) then 30
  else 31.

(** A reference instance of [new Date(string)] for the date-only form
    [YYYY-MM-DD] of the ECMAScript date-time string format, which is read as
    midnight UTC of that day.  Every other string is an invalid date here;
    the modules below do not depend on this instance, they take the host's
    parser as a parameter. *)
Definition parse_iso (s : string) : t :=
  if negb (String.length s =? 10)%nat then None else
  match digits 0 (substring 0 4 s), digits 0 (substring 5 2 s),
        digits 0 (substring 8 2 s) with
  | Some y, Some m, Some d =>
      if (substring 4 1 s =? "-")%string && (substring 7 1 s =? "-")%string
         && (1 <=? m) && (m <=? 12) && (1 <=? d) && (d <=? days_in_month y m)
      then TimeClip (days_from_civil y m d * msPerDay)
      else None
  | _, _, _ => None
  end.

End Date.

(** ** The network and the payload *)

Module Net.

(** What [await fetch(path)] delivers: a rejected promise, or a response
    with its [ok] flag and its body text. *)
Inductive fetch_result : Type :=
| Rejected
| Response (ok : bool) (text : string).

(** One record of a series file, [{"date": ..., "value": ...}]. *)
Record json_point : Type := { date : string; value : JS.number }.

End Net.

(** ** BTC vs gold (and, identically, BTC vs silver) *)

Module Gold.

Import JS.

(** A chart point [{x: Date, y: number}]. *)
Record point : Type := { x : Date.t; y : number }.
Definition series : Type := list point.

(** [reviewGoldState]. *)
Record state : Type := {
  timeMode : string;               (* all | year | halving | custom *)
  year : option number;
  halvingCycle : option string;
  logScale : bool;
  customStart : option string;
  customEnd : option string
}.

Definition reviewGoldState : state :=
  {| timeMode := "all"; year := None; halvingCycle := None; logScale := true;
     customStart := None; customEnd := None |}.

Definition HALVING_RANGES : list (string * (string * option string)) :=
  [ ("2009_2012", ("2009-01-03", Some "2012-11-28"));
    ("2012_2016", ("2012-11-28", Some "2016-07-09"));
    ("2016_2020", ("2016-07-09", Some "2020-05-11"));
    ("2020_2024", ("2020-05-11", Some "2024-04-20"));
    ("2024_now", ("2024-04-20", None)) ].

(** The two date inputs of [bindControls]:
    [reviewGoldState.customStart = e.target.value] and the same for the end. *)
Definition set_customStart (v : option string) (st : state) : state :=
  {| timeMode := timeMode st; year := year st; halvingCycle := halvingCycle st;
     logScale := logScale st; customStart := v; customEnd := customEnd st |}.

Definition set_customEnd (v : option string) (st : state) : state :=
  {| timeMode := timeMode st; year := year st; halvingCycle := halvingCycle st;
     logScale := logScale st; customStart := customStart st; customEnd := v |}.

(** [clampDateOrder(start,end)] on two [Date] objects.  The guard
    [!start || !end] of the source never fires on objects (an object, even an
    invalid date, is truthy), so only the comparison remains. *)
Definition clampDateOrder (start end_ : Date.t) : Date.t * Date.t :=
  if Date.gtb start end_ then (end_, start) else (start, end_).

(** [diffYears(start,end)]: the quotient is taken exactly; NaN as soon as one
    date is invalid.  For integer millisecond spans the binary64 rounding of
    the quotient cannot reach 1 or 5 from below (the nearest spans differ from
    them by more than 3e-11), so the comparisons below are those of the code. *)
Definition diffYears (start end_ : Date.t) : option Q :=
  match start, end_ with
  | Some s, Some e =>
      Some (inject_Z (e - s) / inject_Z (1000 * 60 * 60 * 24 * 365))%Q
  | _, _ => None
  end.

(** [years < n], false on NaN. *)
Definition years_lt (years : option Q) (n : Z) : bool :=
  match years with
  | Some q => negb (Qle_bool (inject_Z n) q)
  | None => false
  end.

(** The axis description: the time unit and which tick formatter is used. *)
Inductive time_unit : Type := month | quarter | year_unit.

Inductive tick_callback : Type :=
| quarter_and_year          (* `Q${q} ${d.getUTCFullYear()}` *)
| short_month               (* toLocaleString('en-US',{month:'short'}) *)
| short_month_year2         (* {month:'short',year:'2-digit'} *)
| quarter_and_year2         (* `Q${q} '${yy}` *)
| full_year.                (* String(d.getUTCFullYear()) *)

Record timeScaleConfig : Type :=
  { unit : time_unit; callback : option tick_callback }.

Definition getTimeScaleConfig (st : state) (data : series) : timeScaleConfig :=
  match data with
  | [] => {| unit := month; callback := None |}
  | p0 :: _ =>
      let start := x p0 in
      let end_ := x (last data p0) in
      let years := diffYears start end_ in
      if (timeMode st =? "all")%string then
        {| unit := quarter; callback := Some quarter_and_year |}
      else if (timeMode st =? "year")%string then
        {| unit := month; callback := Some short_month |}
      else if (timeMode st =? "halving")%string then
        {| unit := month; callback := Some short_month_year2 |}
      else if (timeMode st =? "custom")%string then
        if years_lt years 1 then
          {| unit := month; callback := Some short_month |}
        else if years_lt years 5 then
          {| unit := quarter; callback := Some quarter_and_year2 |}
        else
          {| unit := year_unit; callback := Some full_year |}
      else {| unit := month; callback := None |}
  end.

Section Host.

(** The host's [new Date(string)] and [JSON.parse] on one record line
    ([None]: the line is not valid JSON and [JSON.parse] throws). *)
Variable Date_parse : string -> Date.t.
Variable JSON_parse : string -> option Net.json_point.

(** [filterData()], with the module-level [goldData] and [reviewGoldState]
    as arguments.  Reading [HALVING_RANGES] at a name that is no key gives
    [undefined], and at a name inherited from [Object.prototype] a function
    or a plain object; none of them is iterable, so the destructuring throws
    a [TypeError] in both cases. *)
Definition filterData (goldData : series) (st : state) : outcome series :=
  let out := goldData in
  let out :=
    if (timeMode st =? "year")%string && truthy_opt truthy_number (year st)
    then filter (fun p =>
           strict_eq_nullable (Date.getUTCFullYear (x p)) (year st)) out
    else out in
  out <-
    (if (timeMode st =? "halving")%string
        && truthy_opt truthy_string (halvingCycle st)
     then
       match halvingCycle st with
       | None => Return out
       | Some cycle =>
           match get cycle HALVING_RANGES with
           | None => Throw TypeError     (* [s,e] = undefined *)
           | Some (s, e) =>
               let start := Date_parse s in
               let end_ :=
                 if truthy_opt truthy_string e
                 then option_map Date_parse e else None in
               Return (filter (fun p =>
                   Date.geb (x p) start
                   && match end_ with
                      | None => true
                      | Some en => Date.leb (x p) en
                      end) out)
           end
       end
     else Return out) ;;
  let out :=
    if (timeMode st =? "custom")%string
       && truthy_opt truthy_string (customStart st)
       && truthy_opt truthy_string (customEnd st)
    then
      match customStart st, customEnd st with
      | Some cs, Some ce =>
          let start := Date_parse cs in
          let end_ := Date_parse ce in
          let '(start, end_) := clampDateOrder start end_ in
          let end_ := Date.of_number (Date.plus end_ (86400000 - 1)) in
          filter (fun p => Date.geb (x p) start && Date.leb (x p) end_) out
      | _, _ => out
      end
    else out in
  Return out.

(** [calculatePerformance(data)]; [None] is the [null] result. *)
Definition calculatePerformance (data : series) : option number :=
  match data with
  | [] => None
  | p0 :: _ =>
      let s := y p0 in
      let e := y (last data p0) in
      Some (mul (div (sub e s) s) (num_of_Z 100))
  end.

(** What [afterDraw] paints: the sign prefix, the value handed to
    [toFixed(1)], and the fill colour. *)
Record overlay : Type :=
  { sign : string; perf : number; fillStyle : string }.

(** [performanceOverlayPlugin.afterDraw(chart)]: [Return None] when nothing
    is drawn. *)
Definition afterDraw (goldData : series) (st : state)
  : outcome (option overlay) :=
  data <- filterData goldData st ;;
  match data with
  | [] => Return None
  | _ :: _ =>
      match calculatePerformance data with
      | None => Return None
      | Some pf =>
          Return (Some {| sign := if geb pf (num_of_Z 0) then "+" else "";
                          perf := pf;
                          fillStyle := if geb pf (num_of_Z 0)
                                       then "#16c784" else "#ea3943" |})
      end
  end.

(** Module-level mutable state: the cache [goldData], the [initialized] flag,
    and a log of the retrievals issued so far (newest last). *)
Record page : Type := {
  goldData : option series;
  initialized : bool;
  requests : list string
}.

Definition init_page : page :=
  {| goldData := None; initialized := false; requests := [] |}.

Definition DATA_PATH : string :=
  "/data/review/btc_vs_gold/btc_vs_gold_all.jsonl".

(** [await fetch(path)] against the network [net]; the retrieval is logged. *)
Definition fetch (net : string -> Net.fetch_result) (path : string)
  : task page (bool * string) :=
  fun pg =>
    let pg' := {| goldData := goldData pg; initialized := initialized pg;
                  requests := (requests pg ++ [path])%list |} in
    match net path with
    | Net.Rejected => (Throw NetworkError, pg')
    | Net.Response ok text => (Return (ok, text), pg')
    end.

Definition parse_line (l : string) : outcome Net.json_point :=
  match JSON_parse l with
  | Some p => Return p
  | None => Throw SyntaxError
  end.

(** [loadJSONL(path)]. *)
Definition loadJSONL (net : string -> Net.fetch_result) (path : string)
  : task page series :=
  await res <- fetch net path ;;
  let '(ok, text) := res in
  if negb ok then reject (Error path) else
  let txt := trim text in
  sync (ps <- map_throwing parse_line (split_lines txt) ;;
        Return (map (fun p => {| x := Date_parse (Net.date p);
                                 y := Net.value p |}) ps)).

Definition set_goldData (d : series) : task page Datatypes.unit :=
  fun pg => (Return tt, {| goldData := Some d; initialized := initialized pg;
                           requests := requests pg |}).

Definition set_initialized (b : bool) : task page Datatypes.unit :=
  fun pg => (Return tt, {| goldData := goldData pg; initialized := b;
                           requests := requests pg |}).

(** [ensureLoaded()]: an array, even an empty one, is truthy, so [!goldData]
    holds exactly while the cache is [null]. *)
Definition ensureLoaded (net : string -> Net.fetch_result)
  : task page Datatypes.unit :=
  fun pg =>
    match goldData pg with
    | None => (await d <- loadJSONL net DATA_PATH ;; set_goldData d) pg
    | Some _ => (Return tt, pg)
    end.

(** [loadReviewBtcVsGold()], restricted to the series store: filling the
    year selector, binding the controls and painting the chart act on the
    document and on the chart object only. *)
Definition loadReviewBtcVsGold (net : string -> Net.fetch_result)
  : task page Datatypes.unit :=
  fun pg =>
    if negb (initialized pg)
    then (await _ <- ensureLoaded net ;; set_initialized true) pg
    else (Return tt, pg).

End Host.

End Gold.

(** ** BTC vs fiat *)

Module Fiat.

Import JS.

(** A point [{date: Date, value: number}]. *)
Record point : Type := { date : Date.t; value : number }.
Definition series : Type := list point.

(** [reviewChartState]: the six fields of the source. *)
Record state : Type := {
  assetClass : string;
  fiat : string;                   (* 'usd' | 'eur' | 'jpy' *)
  timeMode : string;               (* 'all' | 'year' | 'halving' *)
  year : option number;
  halvingCycle : option string;
  logScale : bool
}.

Definition reviewChartState : state :=
  {| assetClass := "fiat"; fiat := "usd"; timeMode := "all"; year := None;
     halvingCycle := None; logScale := true |}.

(** [dataCache]. *)
Record cache : Type := {
  usd : option series;
  eur : option series;
  jpy : option series
}.

Definition HALVING_RANGES : list (string * (string * option string)) :=
  [ ("2009_2012", ("2009-01-03", Some "2012-11-28"));
    ("2012_2016", ("2012-11-28", Some "2016-07-09"));
    ("2016_2020", ("2016-07-09", Some "2020-05-11"));
    ("2020_2024", ("2020-05-11", Some "2024-04-20"));
    ("2024_now", ("2024-04-20", None)) ].

Definition USD_PATH : string :=
  "/data/review/bitcoin_value/btc_vs_fiat/usd/btc_vs_usd_all.jsonl".
Definition EUR_PATH : string :=
  "/data/review/bitcoin_value/btc_vs_fiat/eur/btc_vs_eur_all.jsonl".
Definition JPY_PATH : string :=
  "/data/review/bitcoin_value/btc_vs_fiat/jpy/btc_vs_jpy_all.jsonl".

(** Module-level mutable state, with the log of retrievals (newest last). *)
Record page : Type := {
  dataCache : cache;
  initialized : bool;
  requests : list string
}.

Definition init_page : page :=
  {| dataCache := {| usd := None; eur := None; jpy := None |};
     initialized := false; requests := [] |}.

Section Host.

Variable Date_parse : string -> Date.t.
Variable JSON_parse : string -> option Net.json_point.

Definition fetch (net : string -> Net.fetch_result) (path : string)
  : task page (bool * string) :=
  fun pg =>
    let pg' := {| dataCache := dataCache pg; initialized := initialized pg;
                  requests := (requests pg ++ [path])%list |} in
    match net path with
    | Net.Rejected => (Throw NetworkError, pg')
    | Net.Response ok text => (Return (ok, text), pg')
    end.

Definition parse_line (l : string) : outcome Net.json_point :=
  match JSON_parse l with
  | Some p => Return p
  | None => Throw SyntaxError
  end.

(** [loadJSONL(path)]. *)
Definition loadJSONL (net : string -> Net.fetch_result) (path : string)
  : task page series :=
  await res <- fetch net path ;;
  let '(ok, text) := res in
  if negb ok then reject (Error ("Failed to load " ++ path)) else
  sync (ps <- map_throwing parse_line (split_lines (trim text)) ;;
        Return (map (fun p => {| date := Date_parse (Net.date p);
                                 value := Net.value p |}) ps)).

Definition set_cache (c : cache) : task page unit :=
  fun pg => (Return tt, {| dataCache := c; initialized := initialized pg;
                           requests := requests pg |}).

Definition set_initialized (b : bool) : task page unit :=
  fun pg => (Return tt, {| dataCache := dataCache pg; initialized := b;
                           requests := requests pg |}).

Definition ensure_usd (net : string -> Net.fetch_result) : task page unit :=
  fun pg =>
    match usd (dataCache pg) with
    | None =>
        (await d <- loadJSONL net USD_PATH ;;
         fun pg' => set_cache {| usd := Some d; eur := eur (dataCache pg');
                                 jpy := jpy (dataCache pg') |} pg') pg
    | Some _ => (Return tt, pg)
    end.

Definition ensure_eur (net : string -> Net.fetch_result) : task page unit :=
  fun pg =>
    match eur (dataCache pg) with
    | None =>
        (await d <- loadJSONL net EUR_PATH ;;
         fun pg' => set_cache {| usd := usd (dataCache pg'); eur := Some d;
                                 jpy := jpy (dataCache pg') |} pg') pg
    | Some _ => (Return tt, pg)
    end.

Definition ensure_jpy (net : string -> Net.fetch_result) : task page unit :=
  fun pg =>
    match jpy (dataCache pg) with
    | None =>
        (await d <- loadJSONL net JPY_PATH ;;
         fun pg' => set_cache {| usd := usd (dataCache pg');
                                 eur := eur (dataCache pg'); jpy := Some d |} pg') pg
    | Some _ => (Return tt, pg)
    end.

(** [ensureDataLoaded()]: the three guarded loads, in source order. *)
Definition ensureDataLoaded (net : string -> Net.fetch_result)
  : task page unit :=
  await _ <- ensure_usd net ;;
  await _ <- ensure_eur net ;;
  ensure_jpy net.

(** [loadReviewBtcVsFiat()], restricted to the series store. *)
Definition loadReviewBtcVsFiat (net : string -> Net.fetch_result)
  : task page unit :=
  fun pg =>
    if negb (initialized pg)
    then (await _ <- ensureDataLoaded net ;; set_initialized true) pg
    else (Return tt, pg).

(** [filterData(raw)], with [reviewChartState] as an argument. *)
Definition filterData (raw : series) (st : state) : outcome series :=
  let out := raw in
  let out :=
    if (timeMode st =? "year")%string && truthy_opt truthy_number (year st)
    then filter (fun p =>
           strict_eq_nullable (Date.getUTCFullYear (date p)) (year st)) out
    else out in
  if (timeMode st =? "halving")%string
     && truthy_opt truthy_string (halvingCycle st)
  then
    match halvingCycle st with
    | None => Return out
    | Some cycle =>
        match get cycle HALVING_RANGES with
        | None => Throw TypeError     (* [s, e] = undefined *)
        | Some (s, e) =>
            let start := Date_parse s in
            let end_ :=
              if truthy_opt truthy_string e
              then option_map Date_parse e else None in
            Return (filter (fun p =>
                Date.geb (date p) start
                && match end_ with
                   | None => true
                   | Some en => Date.leb (date p) en
                   end) out)
        end
    end
  else Return out.

End Host.

End Fiat.

(** ** The view router *)

Module Router.

(** Values of the optional fields of a route and of [dataset] reads. *)
Inductive value : Type :=
| undefined
| null
| str (s : string).

Definition strict_eq (a b : value) : bool :=
  match a, b with
  | undefined, undefined => true
  | null, null => true
  | str s, str s' => (s =? s')%string
  | _, _ => false
  end.

Definition truthy (v : value) : bool :=
  match v with
  | str s => JS.truthy_string s
  | _ => false
  end.

(** Interpolation of a value in a template literal. *)
Definition to_string (v : value) : string :=
  match v with
  | undefined => "undefined"
  | null => "null"
  | str s => s
  end.

Record route : Type := { tab : string; subtab : value; subsubtab : value }.

Definition leaf (t : string) (s : string) : route :=
  {| tab := t; subtab := str s; subsubtab := undefined |}.

Definition deep (t : string) (s ss : string) : route :=
  {| tab := t; subtab := str s; subsubtab := str ss |}.

(** [ROUTES], in source order (the order of [Object.entries]: no key is an
    array index). *)
Definition ROUTES : list (string * route) :=
  [ ("", {| tab := "home"; subtab := null; subsubtab := undefined |});
    ("revolution/history", leaf "revolution" "REVOLUTION_HISTORY");
    ("revolution/pioneers", leaf "revolution" "REVOLUTION_PIONEERS");
    ("revolution/whitepaper", leaf "revolution" "REVOLUTION_WHITEPAPER");
    ("network/structure", leaf "network" "NETWORK_STRUCTURE");
    ("network/technology", leaf "network" "NETWORK_TECHNOLOGY");
    ("network/nodes", leaf "network" "NETWORK_NODES");
    ("network/miners", leaf "network" "NETWORK_MINER");
    ("metrics/price", leaf "metrics" "METRICS_BTC_USD_EUR");
    ("metrics/difficulty", leaf "metrics" "METRICS_BTC_DIFFICULTY");
    ("metrics/difficulty/1y",
      deep "metrics" "METRICS_BTC_DIFFICULTY" "METRICS_BTC_DIFFICULTY_1Y");
    ("metrics/difficulty/5y",
      deep "metrics" "METRICS_BTC_DIFFICULTY" "METRICS_BTC_DIFFICULTY_5Y");
    ("metrics/difficulty/10y",
      deep "metrics" "METRICS_BTC_DIFFICULTY" "METRICS_BTC_DIFFICULTY_10Y");
    ("metrics/difficulty/ever",
      deep "metrics" "METRICS_BTC_DIFFICULTY" "METRICS_BTC_DIFFICULTY_EVER");
    ("metrics/tx-volume", leaf "metrics" "METRICS_BTC_TX_VOLUME");
    ("metrics/tx-volume/1h",
      deep "metrics" "METRICS_BTC_TX_VOLUME" "METRICS_BTC_TX_VOLUME_1H");
    ("metrics/tx-volume/24h",
      deep "metrics" "METRICS_BTC_TX_VOLUME" "METRICS_BTC_TX_VOLUME_24H");
    ("metrics/tx-volume/1w",
      deep "metrics" "METRICS_BTC_TX_VOLUME" "METRICS_BTC_TX_VOLUME_1W");
    ("metrics/tx-volume/1m",
      deep "metrics" "METRICS_BTC_TX_VOLUME" "METRICS_BTC_TX_VOLUME_1M");
    ("metrics/tx-volume/1y",
      deep "metrics" "METRICS_BTC_TX_VOLUME" "METRICS_BTC_TX_VOLUME_1J");
    ("metrics/tx-amount", leaf "metrics" "METRICS_BTC_TX_AMOUNT");
    ("metrics/tx-amount/mempool",
      deep "metrics" "METRICS_BTC_TX_AMOUNT" "METRICS_BTC_TX_AMOUNT_NOW");
    ("metrics/tx-amount/24h",
      deep "metrics" "METRICS_BTC_TX_AMOUNT" "METRICS_BTC_TX_AMOUNT_24H");
    ("metrics/tx-amount/1w",
      deep "metrics" "METRICS_BTC_TX_AMOUNT" "METRICS_BTC_TX_AMOUNT_1W");
    ("metrics/tx-amount/1m",
      deep "metrics" "METRICS_BTC_TX_AMOUNT" "METRICS_BTC_TX_AMOUNT_1M");
    ("metrics/tx-amount/1y",
      deep "metrics" "METRICS_BTC_TX_AMOUNT" "METRICS_BTC_TX_AMOUNT_1Y");
    ("metrics/tx-amount/halving",
      deep "metrics" "METRICS_BTC_TX_AMOUNT" "METRICS_BTC_TX_AMOUNT_HALVING");
    ("metrics/tx-amount/ever",
      deep "metrics" "METRICS_BTC_TX_AMOUNT" "METRICS_BTC_TX_AMOUNT_EVER");
    ("metrics/tx-fees", leaf "metrics" "METRICS_BTC_TX_FEES");
    ("metrics/tx-fees/24h",
      deep "metrics" "METRICS_BTC_TX_FEES" "METRICS_BTC_TX_FEES_24H");
    ("metrics/tx-fees/1w",
      deep "metrics" "METRICS_BTC_TX_FEES" "METRICS_BTC_TX_FEES_1W");
    ("metrics/tx-fees/1m",
      deep "metrics" "METRICS_BTC_TX_FEES" "METRICS_BTC_TX_FEES_1M");
    ("metrics/tx-fees/1y",
      deep "metrics" "METRICS_BTC_TX_FEES" "METRICS_BTC_TX_FEES_1J");
    ("metrics/hashrate", leaf "metrics" "METRICS_BTC_HASHRATE");
    ("metrics/hashrate/1y",
      deep "metrics" "METRICS_BTC_HASHRATE" "METRICS_BTC_HASHRATE_1Y");
    ("metrics/hashrate/5y",
      deep "metrics" "METRICS_BTC_HASHRATE" "METRICS_BTC_HASHRATE_5Y");
    ("metrics/hashrate/10y",
      deep "metrics" "METRICS_BTC_HASHRATE" "METRICS_BTC_HASHRATE_10Y");
    ("metrics/hashrate/ever",
      deep "metrics" "METRICS_BTC_HASHRATE" "METRICS_BTC_HASHRATE_EVER");
    ("review/btc-fiat", leaf "review" "REVIEW_BTC_VS_FIAT");
    ("review/btc-gold", leaf "review" "REVIEW_BTC_VS_GOLD");
    ("review/btc-silver", leaf "review" "REVIEW_BTC_VS_SILVER");
    ("review/tx-volume", leaf "review" "REVIEW_BTC_TX_VOLUME");
    ("review/tx-amount", leaf "review" "REVIEW_BTC_TX_AMOUNT");
    ("review/tx-fees", leaf "review" "REVIEW_BTC_TX_FEES");
    ("explorer/transaction", leaf "explorer" "EXPLORER_TXID");
    ("explorer/address", leaf "explorer" "EXPLORER_ADDRESS");
    ("explorer/wallet", leaf "explorer" "EXPLORER_WALLET");
    ("treasuries/companies", leaf "treasuries" "TREASURIES_COMPANIES");
    ("treasuries/institutions", leaf "treasuries" "TREASURIES_INSTITUTIONS");
    ("treasuries/countries", leaf "treasuries" "TREASURIES_COUNTRIES");
    ("market-cap/crypto", leaf "market_cap" "MARKET_CAP_COINS");
    ("market-cap/companies", leaf "market_cap" "MARKET_CAP_COMPANIES");
    ("market-cap/currencies", leaf "market_cap" "MARKET_CAP_CURRENCIES");
    ("market-cap/commodities", leaf "market_cap" "MARKET_CAP_COMMODITIES");
    ("indicators/pi-cycle-top", leaf "indicators" "INDICATORS_PI_CYCLE_TOP");
    ("indicators/golden-ratio", leaf "indicators" "INDICATORS_GOLDEN_RATIO");
    ("indicators/rainbow", leaf "indicators" "INDICATORS_RAINBOW_CHART");
    ("indicators/mayer-multiple", leaf "indicators" "INDICATORS_MAYER_MULTIPLE");
    ("indicators/stock-to-flow", leaf "indicators" "INDICATORS_STOCK_TO_FLOW");
    ("indicators/btc-vs-m2", leaf "indicators" "INDICATORS_BTC_M2");
    ("indicators/sp500-vs-btc", leaf "indicators" "INDICATORS_S&P500_BTC");
    ("info/status", leaf "info" "INFO_STATUS");
    ("info/traffic", leaf "info" "INFO_DASHBOARD_TRAFFIC");
    ("info/imprint", leaf "info" "INFO_IMPRESSUM") ].

(** *** The document *)

(** A DOM node as the router sees it: its classes and its [data-*]
    attributes, keyed by [dataset] property name. *)
Record node : Type := {
  classList : list string;
  dataset : list (string * string)
}.

(** An element together with its chain of ancestors, parent first. *)
Record element : Type := { self : node; ancestors : list node }.

(** The elements of the page, in document order. *)
Definition document : Type := list element.

Definition has_class (c : string) (n : node) : bool :=
  existsb (String.eqb c) (classList n).

Definition data (key : string) (n : node) : value :=
  match JS.get key (dataset n) with
  | Some v => str v
  | None => undefined
  end.

(** The selectors of the source. *)
Definition sel_tabButton (n : node) : bool := has_class "tabButton" n.
Definition sel_subTabButton (n : node) : bool := has_class "subTabButton" n.
Definition sel_has_subsubtab (n : node) : bool :=
  match data "subsubtab" n with undefined => false | _ => true end.
Definition sel_tab (t : string) (n : node) : bool :=
  has_class "tabButton" n && strict_eq (data "tab" n) (str t).
Definition sel_subtab (s : string) (n : node) : bool :=
  has_class "subTabButton" n && strict_eq (data "subtab" n) (str s).
Definition sel_subsubtab (ss : string) (n : node) : bool :=
  strict_eq (data "subsubtab" n) (str ss).

Definition querySelector (sel : node -> bool) (doc : document)
  : option element :=
  find (fun el => sel (self el)) doc.

Fixpoint closest_in (sel : node -> bool) (chain : list node) : option element :=
  match chain with
  | [] => None
  | n :: up =>
      if sel n then Some {| self := n; ancestors := up |}
      else closest_in sel up
  end.

(** [el.closest(selector)]: the element itself or its nearest matching
    ancestor. *)
Definition closest (sel : node -> bool) (el : element) : option element :=
  closest_in sel (self el :: ancestors el).

(** *** Browser state *)

(** An entry made by [history.pushState({ path }, "", "/" + path)]. *)
Record history_entry : Type := { state_path : string; url : string }.

(** A callback handed to [setTimeout] by [routeTo]. *)
Inductive callback : Type :=
| activate_subtab (subtab : string)
| activate_subsubtab (subsubtab : string).

(** Calls into the page's own tab logic, which is not part of the router:
    a click delivered to an element, and [showSubTab(subBtn)]. *)
Inductive ui_call : Type :=
| clicked (target : element)
| showSubTab (subBtn : element).

Record browser : Type := {
  ROUTER_ACTIVE : bool;                   (* window.__ROUTER_ACTIVE__ *)
  history : list history_entry;           (* pushes, newest last *)
  timers : list (Z * callback);           (* pending, soonest first *)
  ui : list ui_call                       (* newest last *)
}.

Definition fresh : browser :=
  {| ROUTER_ACTIVE := false; history := []; timers := []; ui := [] |}.

Definition set_ROUTER_ACTIVE (b : bool) (w : browser) : browser :=
  {| ROUTER_ACTIVE := b; history := history w; timers := timers w; ui := ui w |}.

Definition pushState (path : string) (w : browser) : browser :=
  {| ROUTER_ACTIVE := ROUTER_ACTIVE w;
     history := (history w ++ [{| state_path := path; url := "/" ++ path |}])%list;
     timers := timers w; ui := ui w |}.

Definition call_ui (c : ui_call) (w : browser) : browser :=
  {| ROUTER_ACTIVE := ROUTER_ACTIVE w; history := history w;
     timers := timers w; ui := (ui w ++ [c])%list |}.

Fixpoint insert_timer (delay : Z) (cb : callback) (q : list (Z * callback))
  : list (Z * callback) :=
  match q with
  | [] => [(delay, cb)]
  | (d, c) :: q' =>
      if delay <? d then (delay, cb) :: q else (d, c) :: insert_timer delay cb q'
  end.

Definition setTimeout (cb : callback) (delay : Z) (w : browser) : browser :=
  {| ROUTER_ACTIVE := ROUTER_ACTIVE w; history := history w;
     timers := insert_timer delay cb (timers w); ui := ui w |}.

(** *** Click listeners on the document *)

(** The reverse lookups [Object.entries(ROUTES).find(...)]. *)
Definition find_tab (t : value) : option (string * route) :=
  find (fun e => strict_eq (str (tab (snd e))) t) ROUTES.

Definition find_subtab (s : value) : option (string * route) :=
  find (fun e => strict_eq (subtab (snd e)) s) ROUTES.

Definition find_subsubtab (ss : value) : option (string * route) :=
  find (fun e => strict_eq (subsubtab (snd e)) ss) ROUTES.

Definition push_entry (entry : option (string * route)) (w : browser) : browser :=
  match entry with
  | Some (path, _) => pushState path w
  | None => w
  end.

(** Main tab click. *)
Definition on_tab_click (target : element) (w : browser) : browser :=
  match closest sel_tabButton target with
  | None => w
  | Some btn => push_entry (find_tab (data "tab" (self btn))) w
  end.

(** Subtab click. *)
Definition on_subtab_click (target : element) (w : browser) : browser :=
  match closest sel_subTabButton target with
  | None => w
  | Some btn => push_entry (find_subtab (data "subtab" (self btn))) w
  end.

(** Sub-subtab click. *)
Definition on_subsubtab_click (target : element) (w : browser) : browser :=
  match closest sel_has_subsubtab target with
  | None => w
  | Some btn =>
      if ROUTER_ACTIVE w then w
      else push_entry (find_subsubtab (data "subsubtab" (self btn))) w
  end.

(** A click on [target], by the user or through [target.click()]: the
    page's own listeners on the element run first, then the event bubbles to
    the three document listeners, in the order they were registered. *)
Definition click (target : element) (w : browser) : browser :=
  let w := call_ui (clicked target) w in
  let w := on_tab_click target w in
  let w := on_subtab_click target w in
  on_subsubtab_click target w.

(** *** Applying a path *)

(** [path.replace(/^\/|\/$/g, "")]: one leading and one trailing slash. *)
Definition strip_leading (s : string) : string :=
  match s with
  | String c s' => if (nat_of_ascii c =? 47)%nat then s' else s
  | EmptyString => EmptyString
  end.

Fixpoint strip_trailing (s : string) : string :=
  match s with
  | EmptyString => EmptyString
  | String c EmptyString =>
      if (nat_of_ascii c =? 47)%nat then EmptyString else s
  | String c s' => String c (strip_trailing s')
  end.

Definition clean (path : string) : string := strip_trailing (strip_leading path).

Section Page.

(** The page: its elements, and whether it defines [showSubTab]. *)
Variable doc : document.
Variable showSubTab_is_function : bool.

(** [routeTo(path)], up to its return; the delayed steps are left in
    [timers].  Paths that name a property inherited from [Object.prototype]
    are outside the model (they are no paths of the table). *)
Definition routeTo (path : string) (w : browser) : browser :=
  let cleanPath := clean path in
  match JS.get cleanPath ROUTES with
  | None => w
  | Some r =>
      let w := set_ROUTER_ACTIVE true w in
      match querySelector (sel_tab (tab r)) doc with
      | None => w
      | Some mainBtn =>
          let w := click mainBtn w in
          let w :=
            if truthy (subtab r)
            then setTimeout (activate_subtab (to_string (subtab r))) 60 w
            else w in
          if truthy (subsubtab r)
          then setTimeout (activate_subsubtab (to_string (subsubtab r))) 140 w
          else set_ROUTER_ACTIVE false w
      end
  end.

(** The bodies of the two delayed callbacks. *)
Definition run_callback (cb : callback) (w : browser) : browser :=
  match cb with
  | activate_subtab s =>
      match querySelector (sel_subtab s) doc with
      | Some subBtn =>
          if showSubTab_is_function then call_ui (showSubTab subBtn) w else w
      | None => w
      end
  | activate_subsubtab ss =>
      let w :=
        match querySelector (sel_subsubtab ss) doc with
        | Some btn => click btn w
        | None => w
        end in
      set_ROUTER_ACTIVE false w
  end.

(** The event loop runs the pending callbacks, soonest first; none of them
    sets a timer. *)
Definition run_timers (w : browser) : browser :=
  fold_left (fun w t => run_callback (snd t) w) (timers w)
    {| ROUTER_ACTIVE := ROUTER_ACTIVE w; history := history w;
       timers := []; ui := ui w |}.

(** A whole application of a path: [routeTo] and its delayed steps. *)
Definition applyPath (path : string) (w : browser) : browser :=
  run_timers (routeTo path w).

(** The [popstate] listener; [state] is [e.state?.path], [None] when it is
    [undefined] (the entries pushed by the listeners all carry a string). *)
Definition on_popstate (state : option string) (w : browser) : browser :=
  match state with
  | None => w
  | Some path => routeTo path w
  end.

(** The [DOMContentLoaded] listener, on [location.pathname]. *)
Definition on_DOMContentLoaded (pathname : string) (w : browser) : browser :=
  let path := clean pathname in
  match JS.get path ROUTES with
  | Some _ => routeTo path w
  | None => w
  end.

End Page.

(** A page offering one control per tab, subtab and sub-subtab of the
    table, all direct children of the body. *)
Definition control (classes : list string) (key val : string) : element :=
  {| self := {| classList := classes; dataset := [(key, val)] |};
     ancestors := [] |}.

Definition controls_of (r : route) : list element :=
  (control ["tabButton"] "tab" (tab r)
   :: match subtab r with
      | str s => [control ["subTabButton"] "subtab" s]
      | _ => []
      end
   ++ match subsubtab r with
      | str ss => [control ["subSubTabButton"] "subsubtab" ss]
      | _ => []
      end)%list.

Definition dashboard : document := flat_map (fun e => controls_of (snd e)) ROUTES.

(** *** Reverse lookup of a route *)

(** The reverse lookup a click performs for the route [r]: the listener of
    the deepest level that [r] specifies. *)
Definition reverse_lookup (r : route) : option (string * route) :=
  match subsubtab r with
  | str ss => find_subsubtab (str ss)
  | _ =>
      match subtab r with
      | str s => find_subtab (str s)
      | _ => find_tab (str (tab r))
      end
  end.

Definition route_eqb (a b : route) : bool :=
  (tab a =? tab b)%string && strict_eq (subtab a) (subtab b)
  && strict_eq (subsubtab a) (subsubtab b).

(** The reverse lookup in the words of the specification: the first entry
    whose whole triple matches. *)
Definition reverse_lookup_triple (r : route) : option (string * route) :=
  find (fun e => route_eqb (snd e) r) ROUTES.

End Router.

(** ** The page of the gold module: chart, controls, year selector *)

Module GoldView.

Import JS.

(** The chart instance, as far as [updateChart] configures and mutates it
    (styling constants of [buildDataset] and of the options are left out). *)
Record chart_instance : Type := {
  dataset : Gold.series;                     (* data.datasets[0].data *)
  x_unit : Gold.time_unit;                   (* scales.x.time.unit *)
  x_callback : option Gold.tick_callback;    (* scales.x.ticks.callback *)
  y_type : string;                           (* scales.y.type *)
  updates : nat                              (* calls of chart.update('none') *)
}.

(** The module variable [chart], with counters for [new Chart] and for the
    [dblclick] listeners put on the canvas. *)
Record view : Type := {
  chart : option chart_instance;
  charts_constructed : nat;
  dblclick_listeners : nat
}.

(** Which of the elements the module looks up exist on the page. *)
Record elements : Type := {
  canvas : bool;            (* REVIEW_BTC_VS_GOLD_CANVAS *)
  timeSel : bool;           (* review-gold-time-mode-select *)
  yearSel : bool;           (* review-gold-year-select *)
  halvingSel : bool;        (* review-gold-halving-select *)
  logToggle : bool;         (* review-gold-log-toggle *)
  yearCtrl : bool;          (* review-gold-year-control *)
  halvCtrl : bool;          (* review-gold-halving-control *)
  custCtrl : bool;          (* review-gold-custom-control *)
  startInput : bool;        (* review-gold-date-start *)
  endInput : bool           (* review-gold-date-end *)
}.

(** Whether each control group carries the class [review-control-hidden]. *)
Record visibility : Type := {
  yearCtrl_hidden : bool;
  halvCtrl_hidden : bool;
  custCtrl_hidden : bool
}.

(** Everything the module owns or writes. *)
Record app : Type := {
  page : Gold.page;                      (* goldData, initialized *)
  state : Gold.state;                    (* reviewGoldState *)
  shown : view;                          (* chart *)
  groups : visibility;
  yearSel_innerHTML : option string;     (* [None]: as delivered *)
  bound : bool                           (* [bindControls] has run *)
}.

Definition init_app (v : visibility) : app :=
  {| page := Gold.init_page; state := Gold.reviewGoldState;
     shown := {| chart := None; charts_constructed := 0;
                 dblclick_listeners := 0 |};
     groups := v; yearSel_innerHTML := None; bound := false |}.

Definition set_page (pg : Gold.page) (a : app) : app :=
  {| page := pg; state := state a; shown := shown a; groups := groups a;
     yearSel_innerHTML := yearSel_innerHTML a; bound := bound a |}.

Definition set_state (st : Gold.state) (a : app) : app :=
  {| page := page a; state := st; shown := shown a; groups := groups a;
     yearSel_innerHTML := yearSel_innerHTML a; bound := bound a |}.

Definition set_shown (v : view) (a : app) : app :=
  {| page := page a; state := state a; shown := v; groups := groups a;
     yearSel_innerHTML := yearSel_innerHTML a; bound := bound a |}.

Definition set_groups (g : visibility) (a : app) : app :=
  {| page := page a; state := state a; shown := shown a; groups := g;
     yearSel_innerHTML := yearSel_innerHTML a; bound := bound a |}.

Definition set_yearSel_innerHTML (h : string) (a : app) : app :=
  {| page := page a; state := state a; shown := shown a; groups := groups a;
     yearSel_innerHTML := Some h; bound := bound a |}.

Definition set_bound (a : app) : app :=
  {| page := page a; state := state a; shown := shown a; groups := groups a;
     yearSel_innerHTML := yearSel_innerHTML a; bound := true |}.

(** The field writes of the [onchange] handlers. *)
Definition set_timeMode (v : string) (st : Gold.state) : Gold.state :=
  {| Gold.timeMode := v; Gold.year := Gold.year st;
     Gold.halvingCycle := Gold.halvingCycle st; Gold.logScale := Gold.logScale st;
     Gold.customStart := Gold.customStart st; Gold.customEnd := Gold.customEnd st |}.

Definition set_year (v : number) (st : Gold.state) : Gold.state :=
  {| Gold.timeMode := Gold.timeMode st; Gold.year := Some v;
     Gold.halvingCycle := Gold.halvingCycle st; Gold.logScale := Gold.logScale st;
     Gold.customStart := Gold.customStart st; Gold.customEnd := Gold.customEnd st |}.

Definition set_halvingCycle (v : string) (st : Gold.state) : Gold.state :=
  {| Gold.timeMode := Gold.timeMode st; Gold.year := Gold.year st;
     Gold.halvingCycle := Some v; Gold.logScale := Gold.logScale st;
     Gold.customStart := Gold.customStart st; Gold.customEnd := Gold.customEnd st |}.

Definition set_logScale (v : bool) (st : Gold.state) : Gold.state :=
  {| Gold.timeMode := Gold.timeMode st; Gold.year := Gold.year st;
     Gold.halvingCycle := Gold.halvingCycle st; Gold.logScale := v;
     Gold.customStart := Gold.customStart st; Gold.customEnd := Gold.customEnd st |}.

(** *** The year selector *)

(** The UTC year of a point, [None] for NaN.  Years are integers of
    magnitude below 300000, exact in binary64, so the [Set] and the sign of
    [b - a] below are those of the integers. *)
Definition year_of (p : Gold.point) : option Z :=
  option_map Date.YearFromTime (Gold.x p).

Definition same_value (a b : option Z) : bool :=
  match a, b with
  | Some u, Some v => u =? v
  | None, None => true                  (* NaN is one value of a Set *)
  | _, _ => false
  end.

(** [[...new Set(xs)]]: the distinct values, in order of first occurrence. *)
Fixpoint distinct (seen xs : list (option Z)) : list (option Z) :=
  match xs with
  | [] => []
  | v :: xs' =>
      if existsb (same_value v) seen then distinct seen xs'
      else v :: distinct (v :: seen) xs'
  end.

(** The comparator [(a,b) => b - a]; a NaN result counts as 0. *)
Definition newest_first (a b : option Z) : Z :=
  match a, b with
  | Some u, Some v => v - u
  | _, _ => 0
  end.

(** [xs.sort(cmp)] as a stable insertion sort.  When [cmp] orders the
    elements consistently (here: no NaN among them) every conforming sort
    returns this list; otherwise the order is implementation-defined. *)
Fixpoint insert_sorted (cmp : option Z -> option Z -> Z) (v : option Z)
    (sorted : list (option Z)) : list (option Z) :=
  match sorted with
  | [] => [v]
  | w :: rest =>
      if cmp v w <=? 0 then v :: sorted else w :: insert_sorted cmp v rest
  end.

Definition sort (cmp : option Z -> option Z -> Z) (xs : list (option Z))
  : list (option Z) :=
  fold_right (insert_sorted cmp) [] xs.

(** The years offered by the selector. *)
Definition year_options (goldData : Gold.series) : list (option Z) :=
  sort newest_first (distinct [] (map year_of goldData)).

(** Interpolation of a year in the template literal. *)
Definition year_text (v : option Z) : string :=
  match v with
  | Some z => DecimalString.NilZero.string_of_int (Z.to_int z)
  | None => "NaN"
  end.

Definition quote : string := String (ascii_of_nat 34) EmptyString.

Definition option_html (v : option Z) : string :=
  ("<option value=" ++ quote ++ year_text v ++ quote ++ ">" ++ year_text v
   ++ "</option>")%string.

Section Host.

Variable Date_parse : string -> Date.t.
Variable JSON_parse : string -> option Net.json_point.
(** [Number(e.target.value)] of the year selector. *)
Variable Number : string -> number.
Variable doc : elements.

(** [populateYearSelect()]. *)
Definition populateYearSelect (a : app) : app :=
  match Gold.goldData (page a) with
  | None | Some [] => a
  | Some goldData =>
      if yearSel doc
      then set_yearSel_innerHTML
             (String.concat "" (map option_html (year_options goldData))) a
      else a
  end.

(** [bindControls()]: every control that exists gets its handler. *)
Definition bindControls (a : app) : app := set_bound a.

Definition y_axis (st : Gold.state) : string :=
  if Gold.logScale st then "logarithmic" else "linear".

(** [updateChart()]. *)
Definition updateChart (a : app) : outcome app :=
  if negb (canvas doc) then Return a else
  match Gold.goldData (page a) with
  | None => Return a
  | Some goldData =>
      data <- Gold.filterData Date_parse goldData (state a) ;;
      match data with
      | [] => Return a
      | _ :: _ =>
          let timeCfg := Gold.getTimeScaleConfig (state a) data in
          match chart (shown a) with
          | None =>
              Return (set_shown
                {| chart := Some {| dataset := data;
                                    x_unit := Gold.unit timeCfg;
                                    x_callback := Gold.callback timeCfg;
                                    y_type := y_axis (state a);
                                    updates := 0 |};
                   charts_constructed := S (charts_constructed (shown a));
                   dblclick_listeners := S (dblclick_listeners (shown a)) |} a)
          | Some c =>
              Return (set_shown
                {| chart := Some {| dataset := data;
                                    x_unit := x_unit c;
                                    x_callback := x_callback c;
                                    y_type := y_axis (state a);
                                    updates := S (updates c) |};
                   charts_constructed := charts_constructed (shown a);
                   dblclick_listeners := dblclick_listeners (shown a) |} a)
          end
      end
  end.

(** [updateChart()] as the last statement of an event handler: an exception
    ends the handler, what was written before stays. *)
Definition render (a : app) : app :=
  match updateChart a with
  | Return a' => a'
  | Throw _ => a
  end.

(** [el?.classList.toggle('review-control-hidden', hide)]. *)
Definition toggle_hidden (present hide old : bool) : bool :=
  if present then hide else old.

(** The [onchange] handlers; a handler exists once [bindControls] has run
    and if its control exists. *)
Definition timeSel_onchange (value : string) (a : app) : app :=
  if bound a && timeSel doc then
    let a := set_state (set_timeMode value (state a)) a in
    let a := set_groups
      {| yearCtrl_hidden :=
           toggle_hidden (yearCtrl doc) (negb (value =? "year")%string)
             (yearCtrl_hidden (groups a));
         halvCtrl_hidden :=
           toggle_hidden (halvCtrl doc) (negb (value =? "halving")%string)
             (halvCtrl_hidden (groups a));
         custCtrl_hidden :=
           toggle_hidden (custCtrl doc) (negb (value =? "custom")%string)
             (custCtrl_hidden (groups a)) |} a in
    render a
  else a.

Definition yearSel_onchange (value : string) (a : app) : app :=
  if bound a && yearSel doc
  then render (set_state (set_year (Number value) (state a)) a)
  else a.

Definition halvingSel_onchange (value : string) (a : app) : app :=
  if bound a && halvingSel doc
  then render (set_state (set_halvingCycle value (state a)) a)
  else a.

Definition logToggle_onchange (checked : bool) (a : app) : app :=
  if bound a && logToggle doc
  then render (set_state (set_logScale checked (state a)) a)
  else a.

Definition startInput_onchange (value : string) (a : app) : app :=
  if bound a && startInput doc
  then render (set_state (Gold.set_customStart (Some value) (state a)) a)
  else a.

Definition endInput_onchange (value : string) (a : app) : app :=
  if bound a && endInput doc
  then render (set_state (Gold.set_customEnd (Some value) (state a)) a)
  else a.

(** The [dblclick] listeners of the canvas: each one resets the zoom and
    repaints. *)
Definition canvas_dblclick (a : app) : app :=
  match chart (shown a) with
  | Some c =>
      set_shown
        {| chart := Some {| dataset := dataset c; x_unit := x_unit c;
                            x_callback := x_callback c; y_type := y_type c;
                            updates := (updates c
                                        + dblclick_listeners (shown a))%nat |};
           charts_constructed := charts_constructed (shown a);
           dblclick_listeners := dblclick_listeners (shown a) |} a
  | None => a
  end.

(** [loadReviewBtcVsGold()], whole. *)
Definition loadReviewBtcVsGold (net : string -> Net.fetch_result) (a : app)
  : outcome Datatypes.unit * app :=
  if negb (Gold.initialized (page a)) then
    match Gold.ensureLoaded Date_parse JSON_parse net (page a) with
    | (Throw e, pg) => (Throw e, set_page pg a)
    | (Return _, pg) =>
        let a := set_page pg a in
        let a := populateYearSelect a in
        let a := bindControls a in
        let a := set_page {| Gold.goldData := Gold.goldData (page a);
                             Gold.initialized := true;
                             Gold.requests := Gold.requests (page a) |} a in
        match updateChart a with
        | Return a' => (Return tt, a')
        | Throw e => (Throw e, a)
        end
    end
  else
    match updateChart a with
    | Return a' => (Return tt, a')
    | Throw e => (Throw e, a)
    end.

(** What can happen to the page: a call of [window.loadReviewBtcVsGold]
    against some network, a change of a control, a double click. *)
Inductive event : Type :=
| load (net : string -> Net.fetch_result)
| change_timeMode (value : string)
| change_year (value : string)
| change_halving (value : string)
| change_log (checked : bool)
| change_start (value : string)
| change_end (value : string)
| dblclick.

Definition step (a : app) (ev : event) : app :=
  match ev with
  | load net => snd (loadReviewBtcVsGold net a)
  | change_timeMode v => timeSel_onchange v a
  | change_year v => yearSel_onchange v a
  | change_halving v => halvingSel_onchange v a
  | change_log b => logToggle_onchange b a
  | change_start v => startInput_onchange v a
  | change_end v => endInput_onchange v a
  | dblclick => canvas_dblclick a
  end.

(** The page after a sequence of events, each handled to its end before the
    next one starts. *)
Definition run (evs : list event) (a : app) : app := fold_left step evs a.

End Host.

End GoldView.

(** ** The page of the fiat module *)

Module FiatView.

Import JS.

Record chart_instance : Type := {
  labels : list Date.t;             (* data.labels *)
  values : list number;             (* data.datasets[0].data *)
  label : string;                   (* data.datasets[0].label *)
  y_type : string;                  (* scales.y.type *)
  updates : nat
}.

Record view : Type := {
  chartInstance : option chart_instance;
  charts_constructed : nat;
  dblclick_listeners : nat
}.

Record app : Type := { page : Fiat.page; shown : view }.

Definition init_app : app :=
  {| page := Fiat.init_page;
     shown := {| chartInstance := None; charts_constructed := 0;
                 dblclick_listeners := 0 |} |}.

(** [dataCache[reviewChartState.fiat]]: [None] for [null] and for a name
    that is no key of the cache. *)
Definition cache_entry (fiat : string) (c : Fiat.cache) : option Fiat.series :=
  if (fiat =? "usd")%string then Fiat.usd c
  else if (fiat =? "eur")%string then Fiat.eur c
  else if (fiat =? "jpy")%string then Fiat.jpy c
  else None.

Section Host.

Variable Date_parse : string -> Date.t.
Variable JSON_parse : string -> option Net.json_point.
(** [s.toUpperCase()]. *)
Variable toUpperCase : string -> string.
(** Whether [REVIEW_BTC_VS_FIAT_CANVAS] exists. *)
Variable canvas : bool.

Definition y_axis (st : Fiat.state) : string :=
  if Fiat.logScale st then "logarithmic" else "linear".

(** [updateChart()], with [reviewChartState] as an argument.  On an empty
    cache slot [filterData] returns [null] or fails on [null.filter], and
    [data.map] fails on [null]: a [TypeError] in every mode. *)
Definition updateChart (st : Fiat.state) (a : app) : outcome app :=
  if negb canvas then Return a else
  match cache_entry (Fiat.fiat st) (Fiat.dataCache (page a)) with
  | None => Throw TypeError
  | Some raw =>
      data <- Fiat.filterData Date_parse raw st ;;
      let labels_ := map Fiat.date data in
      let values_ := map Fiat.value data in
      let label_ := ("BTC vs " ++ toUpperCase (Fiat.fiat st))%string in
      match chartInstance (shown a) with
      | None =>
          Return {| page := page a;
                    shown :=
                      {| chartInstance :=
                           Some {| labels := labels_; values := values_;
                                   label := label_; y_type := y_axis st;
                                   updates := 0 |};
                         charts_constructed := S (charts_constructed (shown a));
                         dblclick_listeners := S (dblclick_listeners (shown a)) |} |}
      | Some c =>
          Return {| page := page a;
                    shown :=
                      {| chartInstance :=
                           Some {| labels := labels_; values := values_;
                                   label := label_; y_type := y_axis st;
                                   updates := S (updates c) |};
                         charts_constructed := charts_constructed (shown a);
                         dblclick_listeners := dblclick_listeners (shown a) |} |}
      end
  end.

(** [loadReviewBtcVsFiat()], whole.  [reviewChartState] is private to the
    module and nothing in it writes a field, so the state is the initial
    one at every call. *)
Definition loadReviewBtcVsFiat (net : string -> Net.fetch_result) (a : app)
  : outcome unit * app :=
  if negb (Fiat.initialized (page a)) then
    match Fiat.ensureDataLoaded Date_parse JSON_parse net (page a) with
    | (Throw e, pg) => (Throw e, {| page := pg; shown := shown a |})
    | (Return _, pg) =>
        let a := {| page := {| Fiat.dataCache := Fiat.dataCache pg;
                               Fiat.initialized := true;
                               Fiat.requests := Fiat.requests pg |};
                    shown := shown a |} in
        match updateChart Fiat.reviewChartState a with
        | Return a' => (Return tt, a')
        | Throw e => (Throw e, a)
        end
    end
  else
    match updateChart Fiat.reviewChartState a with
    | Return a' => (Return tt, a')
    | Throw e => (Throw e, a)
    end.

(** The page after a sequence of calls, one network per call. *)
Definition run (nets : list (string -> Net.fetch_result)) (a : app) : app :=
  fold_left (fun a net => snd (loadReviewBtcVsFiat net a)) nets a.

End Host.

End FiatView.

(** ** Sample data *)

Module Samples.

Import JS.

Definition gold_point (date : string) (v : Z) : Gold.point :=
  {| Gold.x := Date.parse_iso date; Gold.y := num_of_Z v |}.

(** Four daily closes around the third halving, and one point carrying a
    time of day. *)
Definition gold_series : Gold.series :=
  [ gold_point "2020-05-10" 5;
    gold_point "2020-05-11" 5;
    {| Gold.x := Some 1589198400001; Gold.y := num_of_Z 6 |};
    gold_point "2020-05-12" 5;
    gold_point "2024-04-20" 27 ].

Definition custom_state (a b : option string) : Gold.state :=
  {| Gold.timeMode := "custom"; Gold.year := None; Gold.halvingCycle := None;
     Gold.logScale := true; Gold.customStart := a; Gold.customEnd := b |}.

Definition halving_state (cycle : option string) : Gold.state :=
  {| Gold.timeMode := "halving"; Gold.year := None;
     Gold.halvingCycle := cycle; Gold.logScale := true;
     Gold.customStart := None; Gold.customEnd := None |}.

(** A reader for record lines of the exact shape
    [{"date":"YYYY-MM-DD","value":N}] with [N] a natural number; it stands
    for [JSON.parse] in the examples. *)
Definition dq : string := String (ascii_of_nat 34) EmptyString.
Definition lf : string := String (ascii_of_nat 10) EmptyString.

Definition record_line (date : string) (v : string) : string :=
  ("{" ++ dq ++ "date" ++ dq ++ ":" ++ dq ++ date ++ dq ++ ","
   ++ dq ++ "value" ++ dq ++ ":" ++ v ++ "}")%string.

Definition parse_record (l : string) : option Net.json_point :=
  let n := String.length l in
  let date := substring 9 10 l in
  let v := substring 29 (n - 30) l in
  if (30 <? n)%nat && (l =? record_line date v)%string then
    match Date.digits 0 v with
    | Some z => Some {| Net.date := date; Net.value := num_of_Z z |}
    | None => None
    end
  else None.

(** A two-line series file, with a trailing line feed. *)
Definition payload : string :=
  (record_line "2020-05-10" "5" ++ lf ++ record_line "2020-05-11" "6" ++ lf)%string.

(** The network serving [payload] for every path, and the network down. *)
Definition net_up (path : string) : Net.fetch_result := Net.Response true payload.
Definition net_down (path : string) : Net.fetch_result := Net.Response false "".

(** The gold page after one failed retrieval. *)
Definition gold_failed_page : Gold.page :=
  {| Gold.goldData := None; Gold.initialized := false;
     Gold.requests := [Gold.DATA_PATH] |}.

Definition fiat_custom_state : Fiat.state :=
  {| Fiat.assetClass := "fiat"; Fiat.fiat := "usd"; Fiat.timeMode := "custom";
     Fiat.year := None; Fiat.halvingCycle := None; Fiat.logScale := true |}.

Definition fiat_series : Fiat.series :=
  [ {| Fiat.date := Date.parse_iso "2020-05-10"; Fiat.value := num_of_Z 8700 |};
    {| Fiat.date := Date.parse_iso "2020-05-11"; Fiat.value := num_of_Z 8600 |} ].

End Samples.

(** ** Sample pages *)

Module Scenarios.

Import JS.

(** A page with every element the gold module looks up. *)
Definition all_elements : GoldView.elements :=
  {| GoldView.canvas := true; GoldView.timeSel := true; GoldView.yearSel := true;
     GoldView.halvingSel := true; GoldView.logToggle := true;
     GoldView.yearCtrl := true; GoldView.halvCtrl := true;
     GoldView.custCtrl := true; GoldView.startInput := true;
     GoldView.endInput := true |}.

(** [Number] on strings of decimal digits (the empty string gives 0);
    anything else is NaN here. *)
Definition Number_of (s : string) : number :=
  match Date.digits 0 s with
  | Some z => num_of_Z z
  | None => NaN
  end.

Definition all_hidden : GoldView.visibility :=
  {| GoldView.yearCtrl_hidden := true; GoldView.halvCtrl_hidden := true;
     GoldView.custCtrl_hidden := true |}.

Definition gold_run (evs : list GoldView.event) (a : GoldView.app)
  : GoldView.app :=
  GoldView.run Date.parse_iso Samples.parse_record Number_of all_elements evs a.

(** The gold page after a first load from the sample network. *)
Definition gold_loaded : GoldView.app :=
  gold_run [GoldView.load Samples.net_up] (GoldView.init_app all_hidden).

(** The two points of the sample payload. *)
Definition payload_series : Gold.series :=
  [ Samples.gold_point "2020-05-10" 5; Samples.gold_point "2020-05-11" 6 ].

(** The chart of [gold_loaded]: built in mode [all]. *)
Definition first_chart : GoldView.chart_instance :=
  {| GoldView.dataset := payload_series; GoldView.x_unit := Gold.quarter;
     GoldView.x_callback := Some Gold.quarter_and_year;
     GoldView.y_type := "logarithmic"; GoldView.updates := 0 |}.

(** Narrowing to one day in mode [custom]. *)
Definition narrowing : list GoldView.event :=
  [ GoldView.change_timeMode "custom"; GoldView.change_start "2020-05-11";
    GoldView.change_end "2020-05-11" ].

Definition upper (s : string) : string :=
  if (s =? "usd")%string then "USD" else s.

(** A network that serves the USD file only, and the fiat page after a call
    against it. *)
Definition net_usd_only (path : string) : Net.fetch_result :=
  if (path =? Fiat.USD_PATH)%string then Net.Response true Samples.payload
  else Net.Response false "".

Definition fiat_after_usd : Fiat.page :=
  snd (Fiat.ensureDataLoaded Date.parse_iso Samples.parse_record net_usd_only
         Fiat.init_page).

End Scenarios.

(** ** Notions used in the statements *)

(** A date lies on the UTC calendar day that starts at time [t]. *)
Definition on_utc_day (t : Z) (d : Date.t) : bool :=
  match d with
  | Some v => Date.Day v =? Date.Day t
  | None => false
  end.

(** The test applied by the custom branch of the gold filter to each point,
    for the two parsed bounds. *)
Definition custom_window (a b : Date.t) (p : Gold.point) : bool :=
  let '(start, end_) := Gold.clampDateOrder a b in
  Date.geb (Gold.x p) start
  && Date.leb (Gold.x p) (Date.of_number (Date.plus end_ (86400000 - 1))).

(** The three sources of the fiat module, their cache slots, their files,
    and the number of retrievals issued so far for a source. *)
Inductive fiat_source : Type := USD | EUR | JPY.

Definition fiat_cached (src : fiat_source) (pg : Fiat.page)
  : option Fiat.series :=
  match src with
  | USD => Fiat.usd (Fiat.dataCache pg)
  | EUR => Fiat.eur (Fiat.dataCache pg)
  | JPY => Fiat.jpy (Fiat.dataCache pg)
  end.

Definition fiat_path (src : fiat_source) : string :=
  match src with
  | USD => Fiat.USD_PATH
  | EUR => Fiat.EUR_PATH
  | JPY => Fiat.JPY_PATH
  end.

Definition fiat_retrievals (src : fiat_source) (pg : Fiat.page) : nat :=
  List.length (filter (String.eqb (fiat_path src)) (Fiat.requests pg)).

(** The control of the deepest level a route specifies, on a page that
    offers the controls of [Router.controls_of]. *)
Definition deepest_control (r : Router.route) : Router.element :=
  last (Router.controls_of r) (Router.control [] "" "").

(** The history grows by appending: [w'] has the pushes of [w] and possibly
    more. *)
Definition history_extends (w w' : Router.browser) : Prop :=
  exists more, Router.history w' = (Router.history w ++ more)%list.

(** A date is a valid instant between [lo] and [hi], both included; no
    upper bound when [hi] is [None]. *)
Definition within (lo : Z) (hi : option Z) (d : Date.t) : bool :=
  match d with
  | Some v =>
      (lo <=? v) && match hi with Some h => v <=? h | None => true end
  | None => false
  end.

(** Well-formedness of the gold page: the series is cached exactly when the
    module is initialised, the handlers exist exactly then, a cached series
    is not empty, and the chart, when there is one, is the only one ever
    built and shows a non-empty selection of the cached series. *)
Definition page_ok (a : GoldView.app) : Prop :=
  (Gold.initialized (GoldView.page a) = true
   <-> Gold.goldData (GoldView.page a) <> None)
  /\ GoldView.bound a = Gold.initialized (GoldView.page a)
  /\ (forall d, Gold.goldData (GoldView.page a) = Some d -> d <> [])
  /\ match GoldView.chart (GoldView.shown a) with
     | None =>
         GoldView.charts_constructed (GoldView.shown a) = 0%nat
         /\ GoldView.dblclick_listeners (GoldView.shown a) = 0%nat
     | Some c =>
         GoldView.charts_constructed (GoldView.shown a) = 1%nat
         /\ GoldView.dblclick_listeners (GoldView.shown a) = 1%nat
         /\ GoldView.dataset c <> []
         /\ exists d keep,
              Gold.goldData (GoldView.page a) = Some d
              /\ GoldView.dataset c = filter keep d
     end.

(** What a call of [updateChart] at the end of a handler leaves in the
    module variable [chart]: nothing new (no canvas, no series, an empty
    slice, or the filter threw), the first chart, or the chart updated. *)
Inductive painted (Date_parse : string -> Date.t) (doc : GoldView.elements)
    (a : GoldView.app) : GoldView.view -> Prop :=
| painted_nothing :
    GoldView.canvas doc = false
    \/ Gold.goldData (GoldView.page a) = None
    \/ (exists d, Gold.goldData (GoldView.page a) = Some d
                  /\ (Gold.filterData Date_parse d (GoldView.state a) = JS.Return []
                      \/ exists e, Gold.filterData Date_parse d (GoldView.state a)
                                   = JS.Throw e)) ->
    painted Date_parse doc a (GoldView.shown a)
| painted_first (d data : Gold.series) :
    GoldView.canvas doc = true ->
    Gold.goldData (GoldView.page a) = Some d ->
    Gold.filterData Date_parse d (GoldView.state a) = JS.Return data ->
    data <> [] ->
    GoldView.chart (GoldView.shown a) = None ->
    painted Date_parse doc a
      {| GoldView.chart :=
           Some {| GoldView.dataset := data;
                   GoldView.x_unit :=
                     Gold.unit (Gold.getTimeScaleConfig (GoldView.state a) data);
                   GoldView.x_callback :=
                     Gold.callback (Gold.getTimeScaleConfig (GoldView.state a) data);
                   GoldView.y_type := GoldView.y_axis (GoldView.state a);
                   GoldView.updates := 0 |};
         GoldView.charts_constructed :=
           S (GoldView.charts_constructed (GoldView.shown a));
         GoldView.dblclick_listeners :=
           S (GoldView.dblclick_listeners (GoldView.shown a)) |}
| painted_again (d data : Gold.series) (c : GoldView.chart_instance) :
    GoldView.canvas doc = true ->
    Gold.goldData (GoldView.page a) = Some d ->
    Gold.filterData Date_parse d (GoldView.state a) = JS.Return data ->
    data <> [] ->
    GoldView.chart (GoldView.shown a) = Some c ->
    painted Date_parse doc a
      {| GoldView.chart :=
           Some {| GoldView.dataset := data;
                   GoldView.x_unit := GoldView.x_unit c;
                   GoldView.x_callback := GoldView.x_callback c;
                   GoldView.y_type := GoldView.y_axis (GoldView.state a);
                   GoldView.updates := S (GoldView.updates c) |};
         GoldView.charts_constructed :=
           GoldView.charts_constructed (GoldView.shown a);
         GoldView.dblclick_listeners :=
           GoldView.dblclick_listeners (GoldView.shown a) |}.

(** Well-formedness of the fiat page: an initialised module has its three
    series cached, and the chart, when there is one, is the only one ever
    built, belongs to an initialised module and plots the whole cached USD
    series on a logarithmic axis. *)
Definition fiat_page_ok (toUpperCase : string -> string) (a : FiatView.app)
  : Prop :=
  (Fiat.initialized (FiatView.page a) = true ->
   forall src, fiat_cached src (FiatView.page a) <> None)
  /\ match FiatView.chartInstance (FiatView.shown a) with
     | None =>
         FiatView.charts_constructed (FiatView.shown a) = 0%nat
         /\ FiatView.dblclick_listeners (FiatView.shown a) = 0%nat
     | Some c =>
         FiatView.charts_constructed (FiatView.shown a) = 1%nat
         /\ FiatView.dblclick_listeners (FiatView.shown a) = 1%nat
         /\ Fiat.initialized (FiatView.page a) = true
         /\ exists d,
              Fiat.usd (Fiat.dataCache (FiatView.page a)) = Some d
              /\ FiatView.labels c = map Fiat.date d
              /\ FiatView.values c = map Fiat.value d
              /\ FiatView.label c = ("BTC vs " ++ toUpperCase "usd")%string
              /\ FiatView.y_type c = "logarithmic"
     end.

(** What can happen to the router: a click of the user on an element, a
    [popstate] event, the [DOMContentLoaded] event, and the pending timers
    firing. *)
Inductive router_event : Type :=
| user_click (target : Router.element)
| popstate (state : option string)
| DOMContentLoaded (pathname : string)
| timers_fire.

Definition router_step (doc : Router.document) (showSubTab_is_function : bool)
    (w : Router.browser) (ev : router_event) : Router.browser :=
  match ev with
  | user_click target => Router.click target w
  | popstate state => Router.on_popstate doc state w
  | DOMContentLoaded pathname => Router.on_DOMContentLoaded doc pathname w
  | timers_fire => Router.run_timers doc showSubTab_is_function w
  end.

Definition router_run (doc : Router.document) (showSubTab_is_function : bool)
    (evs : list router_event) (w : Router.browser) : Router.browser :=
  fold_left (router_step doc showSubTab_is_function) evs w.

(** A history entry that [popstate] can replay: its address is its path
    behind a slash, and [routeTo] finds a route for its path. *)
Definition replayable (e : Router.history_entry) : Prop :=
  Router.url e = ("/" ++ Router.state_path e)%string
  /\ exists r, JS.get (Router.clean (Router.state_path e)) Router.ROUTES = Some r.

Definition all_replayable (w : Router.browser) : Prop :=
  Forall replayable (Router.history w).

(** The control groups that exist, by the mode that shows them, and those
    of them that do not carry the hidden class. *)
Definition present_groups (doc : GoldView.elements) : list string :=
  ((if GoldView.yearCtrl doc then ["year"] else [])
   ++ (if GoldView.halvCtrl doc then ["halving"] else [])
   ++ (if GoldView.custCtrl doc then ["custom"] else []))%list.

Definition visible_groups (doc : GoldView.elements) (a : GoldView.app)
  : list string :=
  ((if GoldView.yearCtrl doc && negb (GoldView.yearCtrl_hidden (GoldView.groups a))
    then ["year"] else [])
   ++ (if GoldView.halvCtrl doc && negb (GoldView.halvCtrl_hidden (GoldView.groups a))
       then ["halving"] else [])
   ++ (if GoldView.custCtrl doc && negb (GoldView.custCtrl_hidden (GoldView.groups a))
       then ["custom"] else []))%list.

(** The hidden classes agree with the time mode, on the groups that exist. *)
Definition groups_match (doc : GoldView.elements) (a : GoldView.app) : Prop :=
  (GoldView.yearCtrl doc = true ->
   GoldView.yearCtrl_hidden (GoldView.groups a)
   = negb (Gold.timeMode (GoldView.state a) =? "year")%string)
  /\ (GoldView.halvCtrl doc = true ->
      GoldView.halvCtrl_hidden (GoldView.groups a)
      = negb (Gold.timeMode (GoldView.state a) =? "halving")%string)
  /\ (GoldView.custCtrl doc = true ->
      GoldView.custCtrl_hidden (GoldView.groups a)
      = negb (Gold.timeMode (GoldView.state a) =? "custom")%string).

(** Two consecutive options of the year selector: both years, the first
    one later. *)
Definition strictly_newer (a b : option Z) : Prop :=
  match a, b with
  | Some u, Some v => v < u
  | _, _ => False
  end.

(** The order asked of the sort by the comparator [newest_first]. *)
Definition not_older (a b : option Z) : Prop := GoldView.newest_first a b <= 0.

(** The year of [diffYears], in milliseconds: 365 days. *)
Definition msPerYear : Z := 1000 * 60 * 60 * 24 * 365.

(** * Properties *)

(** ** Dates and numbers *)

Example parse_genesis : Date.parse_iso "2009-01-03" = Some 1230940800000.
Proof. reflexivity. Qed.

Example year_genesis : Date.YearFromTime 1230940800000 = 2009.
Proof. reflexivity. Qed.

Example year_before_epoch : Date.YearFromTime (-1) = 1969.
Proof. reflexivity. Qed.

Example year_end_of_1999 :
  Date.YearFromTime 946684799999 = 1999 /\ Date.YearFromTime 946684800000 = 2000.
Proof. split; reflexivity. Qed.

Example parse_leap_day :
  Date.parse_iso "2024-02-29" = Some 1709164800000 /\ Date.parse_iso "2023-02-29" = None.
Proof. split; reflexivity. Qed.

Example num_100 : JS.num_of_Z 100 = S754_finite false 7036874417766400 (-46).
Proof. reflexivity. Qed.
Example performance_100_150 :
  JS.mul (JS.div (JS.sub (JS.num_of_Z 150) (JS.num_of_Z 100)) (JS.num_of_Z 100))
    (JS.num_of_Z 100)
  = JS.num_of_Z 50.
Proof. reflexivity. Qed.

Example payload_lines :
  List.length (JS.split_lines (JS.trim Samples.payload)) = 2%nat
  /\ JS.split_lines "" = [""]
  /\ Samples.parse_record "" = None.
Proof. repeat split. Qed.

Example clean_paths :
  Router.clean "/" = "" /\ Router.clean "//" = ""
  /\ Router.clean "/metrics/price/" = "metrics/price"
  /\ Router.clean "metrics/price" = "metrics/price".
Proof. repeat split. Qed.

(** ** The filter of the gold module *)

(** Decides the comparisons of [timeMode] with the literal mode names once
    the mode is known. *)
Ltac decide_modes :=
  repeat match goal with
  | |- context [String.eqb ?a ?b] =>
      let v := eval vm_compute in (String.eqb a b) in
      match v with
      | true => change (String.eqb a b) with true
      | false => change (String.eqb a b) with false
      end
  end;
  cbn [andb].

Section GoldFilter.

Import JS.

Variable Date_parse : string -> Date.t.

Local Abbreviation filterData := (Gold.filterData Date_parse).

Lemma day_window (t v : Z) :
  t mod Date.msPerDay = 0 ->
  (Date.Day v =? Date.Day t) = (t <=? v) && (v <=? t + (86400000 - 1)).
Proof.
  unfold Date.Day, Date.msPerDay. intros Ht.
  pose proof (Z.div_mod t 86400000 ltac:(lia)) as Et.
  pose proof (Z.div_mod v 86400000 ltac:(lia)) as Ev.
  pose proof (Z.mod_pos_bound v 86400000 ltac:(lia)) as Bv.
  rewrite Ht in Et.
  destruct (Z.eqb_spec (v / 86400000) (t / 86400000));
    destruct (Z.leb_spec t v); destruct (Z.leb_spec v (t + (86400000 - 1)));
    simpl; try reflexivity; exfalso; nia.
Qed.

(** C4. The filter returns its input unchanged in mode [all], in mode [year]
    with no year selected, in mode [halving] with no cycle selected, and in
    mode [custom] as long as one of the two bounds is missing.  "Unset" is
    read as falsy: [null], and also the empty string of a cleared input. *)
Theorem filterData_identity (data : Gold.series) (st : Gold.state) :
  Gold.timeMode st = "all"
  \/ (Gold.timeMode st = "year"
      /\ truthy_opt truthy_number (Gold.year st) = false)
  \/ (Gold.timeMode st = "halving"
      /\ truthy_opt truthy_string (Gold.halvingCycle st) = false)
  \/ (Gold.timeMode st = "custom"
      /\ (truthy_opt truthy_string (Gold.customStart st) = false
          \/ truthy_opt truthy_string (Gold.customEnd st) = false)) ->
  filterData data st = Return data.
Proof.
  unfold Gold.filterData.
  intros [H | [[H U] | [[H U] | [H [U | U]]]]]; rewrite H; simpl;
    rewrite ?U, ?andb_false_r; reflexivity.
Qed.

Lemma custom_window_swap (a b : Date.t) (p : Gold.point) :
  custom_window a b p = custom_window b a p.
Proof.
  unfold custom_window, Gold.clampDateOrder, Date.gtb.
  destruct a as [ta|], b as [tb|]; simpl.
  - destruct (Z.ltb_spec tb ta), (Z.ltb_spec ta tb); try reflexivity; try lia.
    replace tb with ta by lia. reflexivity.
  - destruct (Gold.x p) as [v|]; simpl; [|reflexivity].
    apply andb_false_r.
  - destruct (Gold.x p) as [v|]; simpl; [|reflexivity].
    symmetry. apply andb_false_r.
  - reflexivity.
Qed.

Lemma custom_filter_window (a b : Date.t) (out : Gold.series) :
  (let '(start, end_) := Gold.clampDateOrder a b in
   filter (fun p =>
     Date.geb (Gold.x p) start
     && Date.leb (Gold.x p) (Date.of_number (Date.plus end_ (86400000 - 1))))
     out)
  = filter (custom_window a b) out.
Proof.
  unfold custom_window. destruct (Gold.clampDateOrder a b). reflexivity.
Qed.

Lemma filterData_both_bounds (data : Gold.series) (st : Gold.state) (cs ce : string) :
  Gold.timeMode st = "custom" ->
  Gold.customStart st = Some cs -> Gold.customEnd st = Some ce ->
  cs <> "" -> ce <> "" ->
  filterData data st
  = Return (filter (custom_window (Date_parse cs) (Date_parse ce)) data).
Proof.
  intros H Hs He Ns Ne. unfold Gold.filterData. rewrite H, Hs, He.
  decide_modes. cbn [JS.bind].
  destruct cs; [congruence|]. destruct ce; [congruence|].
  cbn [andb truthy_opt truthy_string].
  rewrite custom_filter_window. reflexivity.
Qed.

(** C6. Exchanging the two custom bounds does not change the result of the
    filter, whatever the series, the rest of the state and the bounds (set,
    unset, or not even dates). *)
Theorem filterData_swap_bounds (data : Gold.series) (st : Gold.state)
    (a b : option string) :
  filterData data (Gold.set_customStart a (Gold.set_customEnd b st))
  = filterData data (Gold.set_customStart b (Gold.set_customEnd a st)).
Proof.
  unfold Gold.filterData.
  cbn [Gold.set_customStart Gold.set_customEnd Gold.timeMode Gold.year
       Gold.halvingCycle Gold.customStart Gold.customEnd].
  match goal with |- JS.bind ?m _ = _ => destruct m as [out|e] end;
    [|reflexivity].
  cbn [JS.bind]. f_equal.
  destruct (Gold.timeMode st =? "custom")%string; [|reflexivity].
  destruct a as [[|ca sa]|], b as [[|cb sb]|];
    cbn [andb truthy_opt truthy_string]; try reflexivity.
  rewrite !custom_filter_window.
  apply filter_ext. intros p. apply custom_window_swap.
Qed.

(** C5. With both custom bounds set to the same day [D] (a date the host
    reads as midnight UTC, the whole day being representable as time values),
    the filter keeps exactly the points of that calendar day. *)
Theorem filterData_single_day (data : Gold.series) (st : Gold.state)
    (D : string) (t : Z) :
  Gold.timeMode st = "custom" ->
  Gold.customStart st = Some D -> Gold.customEnd st = Some D ->
  D <> "" ->
  Date_parse D = Some t ->
  t mod Date.msPerDay = 0 ->
  Z.abs (t + (86400000 - 1)) <= Date.maxTime ->
  filterData data st = Return (filter (fun p => on_utc_day t (Gold.x p)) data).
Proof.
  intros H Hs He N P M B.
  rewrite (filterData_both_bounds data st D D H Hs He N N).
  f_equal. apply filter_ext. intros p.
  unfold custom_window, Gold.clampDateOrder, Date.gtb. rewrite P.
  rewrite Z.ltb_irrefl.
  cbn [Date.plus option_map Date.of_number]. unfold Date.TimeClip.
  destruct (Z.leb_spec (Z.abs (t + (86400000 - 1))) Date.maxTime); [|lia].
  unfold on_utc_day, Date.geb, Date.leb.
  destruct (Gold.x p) as [v|]; [|reflexivity].
  symmetry. apply day_window. exact M.
Qed.

(** C2 (as amended). In mode [halving], a non-empty cycle id that is not a
    key of [HALVING_RANGES] makes the filter throw a [TypeError] on every
    series (the destructuring of [undefined]); the empty id counts as unset
    and leaves the series unchanged. *)
Theorem filterData_unknown_cycle (data : Gold.series) (st : Gold.state)
    (id : string) :
  Gold.timeMode st = "halving" ->
  Gold.halvingCycle st = Some id ->
  get id Gold.HALVING_RANGES = None ->
  (id <> "" -> filterData data st = Throw TypeError)
  /\ (id = "" -> filterData data st = Return data).
Proof.
  intros H Hc G. unfold Gold.filterData. rewrite H, Hc. decide_modes. split.
  - intros N. destruct id; [congruence|].
    cbn [truthy_opt truthy_string]. rewrite G. reflexivity.
  - intros ->. reflexivity.
Qed.

End GoldFilter.

(** The identity cases at work: the initial state is in mode [all]. *)
Lemma filterData_identity_witness :
  (Gold.timeMode Gold.reviewGoldState = "all"
   \/ (Gold.timeMode Gold.reviewGoldState = "year"
       /\ JS.truthy_opt JS.truthy_number (Gold.year Gold.reviewGoldState) = false)
   \/ (Gold.timeMode Gold.reviewGoldState = "halving"
       /\ JS.truthy_opt JS.truthy_string
            (Gold.halvingCycle Gold.reviewGoldState) = false)
   \/ (Gold.timeMode Gold.reviewGoldState = "custom"
       /\ (JS.truthy_opt JS.truthy_string
             (Gold.customStart Gold.reviewGoldState) = false
           \/ JS.truthy_opt JS.truthy_string
                (Gold.customEnd Gold.reviewGoldState) = false)))
  /\ Gold.filterData Date.parse_iso Samples.gold_series Gold.reviewGoldState
     = JS.Return Samples.gold_series.
Proof.
  split.
  - left. reflexivity.
  - apply (filterData_identity Date.parse_iso Samples.gold_series
             Gold.reviewGoldState).
    left. reflexivity.
Defined.

(** The single day 2020-05-11 keeps the daily close and the intraday point
    of that day, two points out of five. *)
Lemma filterData_single_day_witness :
  (Gold.timeMode (Samples.custom_state (Some "2020-05-11") (Some "2020-05-11"))
   = "custom"
   /\ "2020-05-11" <> ""
   /\ Date.parse_iso "2020-05-11" = Some 1589155200000
   /\ 1589155200000 mod Date.msPerDay = 0
   /\ Z.abs (1589155200000 + (86400000 - 1)) <= Date.maxTime)
  /\ Gold.filterData Date.parse_iso Samples.gold_series
       (Samples.custom_state (Some "2020-05-11") (Some "2020-05-11"))
     = JS.Return [ Samples.gold_point "2020-05-11" 5;
                   {| Gold.x := Some 1589198400001; Gold.y := JS.num_of_Z 6 |} ].
Proof.
  split.
  - repeat split; try reflexivity; [discriminate | unfold Date.maxTime; lia].
  - rewrite (filterData_single_day Date.parse_iso Samples.gold_series
               (Samples.custom_state (Some "2020-05-11") (Some "2020-05-11"))
               "2020-05-11" 1589155200000);
      [ reflexivity | reflexivity | reflexivity | reflexivity | discriminate
      | reflexivity | reflexivity | unfold Date.maxTime; lia ].
Defined.

(** C2, as the specification words it, fails: with the cycle id
    ["2028_2032"], which the table does not have, the filter throws instead
    of returning the series. *)
Lemma filterData_unknown_cycle_throws :
  JS.get "2028_2032" Gold.HALVING_RANGES = None
  /\ Gold.filterData Date.parse_iso Samples.gold_series
       (Samples.halving_state (Some "2028_2032"))
     = JS.Throw JS.TypeError
  /\ Gold.filterData Date.parse_iso Samples.gold_series
       (Samples.halving_state (Some "2028_2032"))
     <> JS.Return Samples.gold_series.
Proof.
  split; [reflexivity|]. split; [reflexivity|]. discriminate.
Qed.

Lemma filterData_unknown_cycle_witness :
  (Gold.timeMode (Samples.halving_state (Some "2028_2032")) = "halving"
   /\ Gold.halvingCycle (Samples.halving_state (Some "2028_2032"))
      = Some "2028_2032"
   /\ JS.get "2028_2032" Gold.HALVING_RANGES = None
   /\ "2028_2032" <> "")
  /\ Gold.filterData Date.parse_iso Samples.gold_series
       (Samples.halving_state (Some "2028_2032"))
     = JS.Throw JS.TypeError.
Proof.
  split.
  - repeat split; try reflexivity. discriminate.
  - apply (filterData_unknown_cycle Date.parse_iso Samples.gold_series
             (Samples.halving_state (Some "2028_2032")) "2028_2032");
      try reflexivity.
    discriminate.
Defined.

(** ** The other branches of the gold filter, on the sample series *)

(** The cycle 2020-2024 keeps the points from its first day to the midnight
    of its last day, both included. *)
Example halving_2020_2024 :
  Gold.filterData Date.parse_iso Samples.gold_series
    (Samples.halving_state (Some "2020_2024"))
  = JS.Return (tl Samples.gold_series).
Proof. reflexivity. Qed.

Example year_2020 :
  Gold.filterData Date.parse_iso Samples.gold_series
    {| Gold.timeMode := "year"; Gold.year := Some (JS.num_of_Z 2020);
       Gold.halvingCycle := None; Gold.logScale := true;
       Gold.customStart := None; Gold.customEnd := None |}
  = JS.Return (firstn 4 Samples.gold_series).
Proof. reflexivity. Qed.

(** ** The performance overlay of the gold module *)

Section GoldPerformance.

Import JS.

Variable Date_parse : string -> Date.t.

Lemma sub_self (n : number) :
  is_finite n = true -> truthy_number n = true -> sub n n = S754_zero false.
Proof.
  destruct n as [s| s| |s m e]; try discriminate. intros _ _.
  unfold sub, SFsub. rewrite Z.sub_diag. reflexivity.
Qed.

Lemma zero_performance (n : number) :
  is_finite n = true -> truthy_number n = true ->
  is_zero (mul (div (sub n n) n) (num_of_Z 100)).
Proof.
  intros F T. rewrite (sub_self n F T).
  destruct n as [s| s| |s m e]; try discriminate.
  exists s. destruct s; reflexivity.
Qed.

Lemma calculatePerformance_ends (first last : Gold.point) (mid : Gold.series) :
  Gold.calculatePerformance (first :: mid ++ [last])
  = Some (mul (div (sub (Gold.y last) (Gold.y first)) (Gold.y first))
            (num_of_Z 100)).
Proof.
  unfold Gold.calculatePerformance.
  change (first :: mid ++ [last])%list with ((first :: mid) ++ [last])%list.
  rewrite last_last. reflexivity.
Qed.

Lemma afterDraw_filtered (goldData : Gold.series) (st : Gold.state)
    (data : Gold.series) :
  Gold.filterData Date_parse goldData st = Return data ->
  Gold.afterDraw Date_parse goldData st
  = Return (option_map
              (fun pf => {| Gold.sign := if geb pf (num_of_Z 0) then "+" else "";
                            Gold.perf := pf;
                            Gold.fillStyle := if geb pf (num_of_Z 0)
                                              then "#16c784" else "#ea3943" |})
              (Gold.calculatePerformance data)).
Proof.
  intros E. unfold Gold.afterDraw. rewrite E. cbn [JS.bind].
  destruct data as [|p0 rest]; reflexivity.
Qed.

(** C7 (as amended). The performance is
    [(last.y - first.y) / first.y * 100] on the first and the last element of
    the slice, whatever the timestamps; it is 50 on the values 100 and 150;
    it is a zero on a single point whose value is finite and not zero; it is
    [null] on the empty slice, and then [afterDraw] paints nothing.  What
    [afterDraw] paints is the performance of the filtered slice. *)
Theorem calculatePerformance_spec :
  (forall (first last : Gold.point) (mid : Gold.series),
      Gold.calculatePerformance (first :: mid ++ [last])
      = Some (mul (div (sub (Gold.y last) (Gold.y first)) (Gold.y first))
                (num_of_Z 100)))
  /\ (forall a b : Date.t,
         Gold.calculatePerformance
           [ {| Gold.x := a; Gold.y := num_of_Z 100 |};
             {| Gold.x := b; Gold.y := num_of_Z 150 |} ]
         = Some (num_of_Z 50))
  /\ (forall p : Gold.point,
         is_finite (Gold.y p) = true -> truthy_number (Gold.y p) = true ->
         exists r, Gold.calculatePerformance [p] = Some r /\ is_zero r)
  /\ Gold.calculatePerformance [] = None
  /\ (forall (goldData : Gold.series) (st : Gold.state),
         Gold.filterData Date_parse goldData st = Return [] ->
         Gold.afterDraw Date_parse goldData st = Return None)
  /\ (forall (goldData : Gold.series) (st : Gold.state) (data : Gold.series),
         Gold.filterData Date_parse goldData st = Return data ->
         data <> [] ->
         exists o, Gold.afterDraw Date_parse goldData st = Return (Some o)
                   /\ Gold.calculatePerformance data = Some (Gold.perf o)).
Proof.
  split; [exact calculatePerformance_ends|].
  split; [intros a b; reflexivity|].
  split.
  { intros p F T. eexists. split; [reflexivity|].
    cbn [last]. apply zero_performance; assumption. }
  split; [reflexivity|].
  split.
  { intros goldData st E. rewrite (afterDraw_filtered _ _ _ E). reflexivity. }
  intros goldData st data E N. rewrite (afterDraw_filtered _ _ _ E).
  destruct data as [|p0 rest]; [congruence|].
  eexists. split; reflexivity.
Qed.

End GoldPerformance.

(** A single point of value 5 has performance zero. *)
Lemma calculatePerformance_spec_witness :
  (JS.is_finite (Gold.y (Samples.gold_point "2020-05-11" 5)) = true
   /\ JS.truthy_number (Gold.y (Samples.gold_point "2020-05-11" 5)) = true)
  /\ exists r,
       Gold.calculatePerformance [Samples.gold_point "2020-05-11" 5] = Some r
       /\ JS.is_zero r.
Proof.
  split.
  - split; reflexivity.
  - apply (proj1 (proj2 (proj2 (calculatePerformance_spec Date.parse_iso)))
             (Samples.gold_point "2020-05-11" 5)); reflexivity.
Defined.

(** C7, as the specification words it, fails on a single point of value 0:
    the quotient is 0/0, the performance is NaN, and the overlay is painted
    with it. *)
Lemma calculatePerformance_zero_value :
  Gold.calculatePerformance [Samples.gold_point "2009-01-03" 0] = Some JS.NaN
  /\ ~ JS.is_zero JS.NaN
  /\ Gold.afterDraw Date.parse_iso [Samples.gold_point "2009-01-03" 0]
       Gold.reviewGoldState
     = JS.Return (Some {| Gold.sign := ""; Gold.perf := JS.NaN;
                          Gold.fillStyle := "#ea3943" |}).
Proof.
  split; [reflexivity|]. split; [|reflexivity].
  intros [s E]. discriminate E.
Qed.

(** ** The time scale of the gold module *)

Section GoldTimeScale.

Lemma years_lt_span (a b n : Z) :
  Gold.years_lt (Gold.diffYears (Some a) (Some b)) n
  = (b - a <? n * msPerYear).
Proof.
  unfold Gold.years_lt, Gold.diffYears, Qle_bool, msPerYear. simpl.
  destruct (Z.leb_spec (n * 31536000000) ((b - a) * 1 * 1));
    destruct (Z.ltb_spec (b - a) (n * 31536000000)); simpl;
    try reflexivity; lia.
Qed.

(** C8. In mode [custom] the time unit follows the span between the first
    and the last point of the series it is given (a year being 365 days):
    [month] below one year, [quarter] from one year to below five, [year]
    from five years on.  On the empty series the unit is [month] and no tick
    formatter is set, in every mode. *)
Theorem getTimeScaleConfig_custom :
  (forall st : Gold.state,
      Gold.getTimeScaleConfig st []
      = {| Gold.unit := Gold.month; Gold.callback := None |})
  /\ (forall (st : Gold.state) (p0 : Gold.point) (rest : Gold.series) (a b : Z),
         Gold.timeMode st = "custom" ->
         Gold.x p0 = Some a ->
         Gold.x (last (p0 :: rest) p0) = Some b ->
         let cfg := Gold.getTimeScaleConfig st (p0 :: rest) in
         (b - a < msPerYear -> Gold.unit cfg = Gold.month)
         /\ (msPerYear <= b - a < 5 * msPerYear -> Gold.unit cfg = Gold.quarter)
         /\ (5 * msPerYear <= b - a -> Gold.unit cfg = Gold.year_unit)).
Proof.
  split; [reflexivity|].
  intros st p0 rest a b H Ha Hb cfg. subst cfg.
  unfold Gold.getTimeScaleConfig. rewrite H, Ha, Hb. decide_modes.
  rewrite !years_lt_span. unfold msPerYear.
  destruct (Z.ltb_spec (b - a) (1 * (1000 * 60 * 60 * 24 * 365)));
    destruct (Z.ltb_spec (b - a) (5 * (1000 * 60 * 60 * 24 * 365)));
    cbn [Gold.unit]; repeat split; intros; try reflexivity; lia.
Qed.

End GoldTimeScale.

(** The sample series spans a little less than four years: quarters. *)
Lemma getTimeScaleConfig_custom_witness :
  (Gold.timeMode (Samples.custom_state None None) = "custom"
   /\ Gold.x (Samples.gold_point "2020-05-10" 5) = Some 1589068800000
   /\ Gold.x (last Samples.gold_series (Samples.gold_point "2020-05-10" 5))
      = Some 1713571200000
   /\ msPerYear <= 1713571200000 - 1589068800000 < 5 * msPerYear)
  /\ Gold.unit (Gold.getTimeScaleConfig (Samples.custom_state None None)
                  Samples.gold_series)
     = Gold.quarter.
Proof.
  split.
  - repeat split; try reflexivity; unfold msPerYear; lia.
  - apply (proj2 getTimeScaleConfig_custom (Samples.custom_state None None)
             (Samples.gold_point "2020-05-10" 5) (tl Samples.gold_series)
             1589068800000 1713571200000);
      try reflexivity; unfold msPerYear; lia.
Defined.

(** ** The series store of the gold module *)

Section GoldStore.

Import JS.

Variable Date_parse : string -> Date.t.
Variable JSON_parse : string -> option Net.json_point.

Local Abbreviation loadJSONL := (Gold.loadJSONL Date_parse JSON_parse).
Local Abbreviation ensureLoaded := (Gold.ensureLoaded Date_parse JSON_parse).
Local Abbreviation loadReviewBtcVsGold :=
  (Gold.loadReviewBtcVsGold Date_parse JSON_parse).

(** Every call of [loadJSONL] issues exactly one retrieval and touches
    nothing else. *)
Lemma loadJSONL_page (net : string -> Net.fetch_result) (path : string)
    (pg : Gold.page) :
  snd (loadJSONL net path pg)
  = {| Gold.goldData := Gold.goldData pg;
       Gold.initialized := Gold.initialized pg;
       Gold.requests := (Gold.requests pg ++ [path])%list |}.
Proof.
  unfold Gold.loadJSONL, then_, Gold.fetch.
  destruct (net path) as [|ok text]; [reflexivity|].
  destruct ok; reflexivity.
Qed.

(** A rejected [fetch] and a non-success response both make [loadJSONL]
    throw. *)
Lemma loadJSONL_failure (net : string -> Net.fetch_result) (path : string)
    (pg : Gold.page) :
  (net path = Net.Rejected ->
   fst (loadJSONL net path pg) = Throw NetworkError)
  /\ (forall text, net path = Net.Response false text ->
      fst (loadJSONL net path pg) = Throw (Error path)).
Proof.
  unfold Gold.loadJSONL, then_, Gold.fetch.
  split; [intros E | intros text E]; rewrite E; reflexivity.
Qed.

Lemma ensureLoaded_cached (net : string -> Net.fetch_result) (pg : Gold.page)
    (d : Gold.series) :
  Gold.goldData pg = Some d -> ensureLoaded net pg = (Return tt, pg).
Proof. intros E. unfold Gold.ensureLoaded. rewrite E. reflexivity. Qed.

Lemma ensureLoaded_uncached (net : string -> Net.fetch_result) (pg : Gold.page) :
  Gold.goldData pg = None ->
  ensureLoaded net pg
  = match fst (loadJSONL net Gold.DATA_PATH pg) with
    | Return d =>
        (Return tt,
         {| Gold.goldData := Some d; Gold.initialized := Gold.initialized pg;
            Gold.requests := (Gold.requests pg ++ [Gold.DATA_PATH])%list |})
    | Throw e =>
        (Throw e,
         {| Gold.goldData := None; Gold.initialized := Gold.initialized pg;
            Gold.requests := (Gold.requests pg ++ [Gold.DATA_PATH])%list |})
    end.
Proof.
  intros E. unfold Gold.ensureLoaded. rewrite E. unfold then_ at 1.
  pose proof (loadJSONL_page net Gold.DATA_PATH pg) as P.
  destruct (loadJSONL net Gold.DATA_PATH pg) as [[d|e] pg']; simpl in P;
    subst pg'; cbn [fst]; [reflexivity|].
  rewrite E. reflexivity.
Qed.

(** C3. Loading is idempotent and retried only after a failure.
    - Once the cache holds a series, [ensureLoaded] returns at once: no
      retrieval, state unchanged.
    - A call that returns normally leaves the cache populated, so every
      later call is of the first kind.
    - On an empty cache, a rejected [fetch] or a non-success response makes
      the call throw.
    - A call that throws has issued one retrieval, leaves the cache empty
      and the [initialized] flag as it was, and the next call issues the
      retrieval again, whatever the network then answers.
    - The same holds one level up: [loadReviewBtcVsGold] throws when
      [ensureLoaded] does, stays uninitialised, and retries the next time. *)
Theorem ensureLoaded_idempotent_retry :
  (forall net (pg : Gold.page) (d : Gold.series),
      Gold.goldData pg = Some d -> ensureLoaded net pg = (Return tt, pg))
  /\ (forall net (pg pg' : Gold.page),
         ensureLoaded net pg = (Return tt, pg') ->
         exists d, Gold.goldData pg' = Some d
                   /\ forall net', ensureLoaded net' pg' = (Return tt, pg'))
  /\ (forall net (pg : Gold.page),
         Gold.goldData pg = None ->
         (net Gold.DATA_PATH = Net.Rejected ->
          fst (ensureLoaded net pg) = Throw NetworkError)
         /\ (forall text, net Gold.DATA_PATH = Net.Response false text ->
             fst (ensureLoaded net pg) = Throw (Error Gold.DATA_PATH)))
  /\ (forall net (pg pg' : Gold.page) (e : error),
         ensureLoaded net pg = (Throw e, pg') ->
         Gold.goldData pg' = None
         /\ Gold.initialized pg' = Gold.initialized pg
         /\ Gold.requests pg' = (Gold.requests pg ++ [Gold.DATA_PATH])%list
         /\ forall net',
              Gold.requests (snd (ensureLoaded net' pg'))
              = (Gold.requests pg' ++ [Gold.DATA_PATH])%list)
  /\ (forall net (pg pg' : Gold.page) (e : error),
         Gold.initialized pg = false ->
         ensureLoaded net pg = (Throw e, pg') ->
         loadReviewBtcVsGold net pg = (Throw e, pg')
         /\ forall net',
              Gold.requests (snd (loadReviewBtcVsGold net' pg'))
              = (Gold.requests pg' ++ [Gold.DATA_PATH])%list).
Proof.
  assert (retry : forall net (pg pg' : Gold.page) (e : error),
             ensureLoaded net pg = (Throw e, pg') ->
             Gold.goldData pg' = None
             /\ Gold.initialized pg' = Gold.initialized pg
             /\ Gold.requests pg' = (Gold.requests pg ++ [Gold.DATA_PATH])%list
             /\ forall net',
                  Gold.requests (snd (ensureLoaded net' pg'))
                  = (Gold.requests pg' ++ [Gold.DATA_PATH])%list).
  { intros net pg pg' e E.
    destruct (Gold.goldData pg) as [d|] eqn:C.
    { rewrite (ensureLoaded_cached net pg d C) in E. discriminate. }
    rewrite (ensureLoaded_uncached net pg C) in E.
    destruct (fst (loadJSONL net Gold.DATA_PATH pg)); inversion E; subst.
    repeat split. intros net'.
    rewrite ensureLoaded_uncached by reflexivity.
    destruct (fst (loadJSONL net' Gold.DATA_PATH _)); reflexivity. }
  split; [exact ensureLoaded_cached|].
  split.
  { intros net pg pg' E.
    destruct (Gold.goldData pg) as [d|] eqn:C.
    - rewrite (ensureLoaded_cached net pg d C) in E. inversion E; subst pg'.
      exists d. split; [exact C|].
      intros net'. exact (ensureLoaded_cached net' pg d C).
    - rewrite (ensureLoaded_uncached net pg C) in E.
      destruct (fst (loadJSONL net Gold.DATA_PATH pg)) as [d|e];
        inversion E; subst.
      exists d. split; [reflexivity|].
      intros net'. apply (ensureLoaded_cached net' _ d). reflexivity. }
  split.
  { intros net pg C.
    destruct (loadJSONL_failure net Gold.DATA_PATH pg) as [R F].
    rewrite (ensureLoaded_uncached net pg C).
    split; [intros E; rewrite (R E) | intros text E; rewrite (F text E)];
      reflexivity. }
  split; [exact retry|].
  intros net pg pg' e I E.
  destruct (retry net pg pg' e E) as (C & I' & _ & again).
  split.
  - unfold Gold.loadReviewBtcVsGold. rewrite I. cbn [negb].
    unfold then_. rewrite E. reflexivity.
  - intros net'. unfold Gold.loadReviewBtcVsGold.
    rewrite I', I. cbn [negb]. unfold then_.
    specialize (again net').
    destruct (ensureLoaded net' pg') as [[[]|e'] pg'']; exact again.
Qed.

End GoldStore.

(** With the network down the first call throws and leaves the cache empty
    after one retrieval; the next call, with the network up, retrieves
    again. *)
Lemma ensureLoaded_idempotent_retry_witness :
  Gold.ensureLoaded Date.parse_iso Samples.parse_record Samples.net_down
    Gold.init_page
  = (JS.Throw (JS.Error Gold.DATA_PATH), Samples.gold_failed_page)
  /\ (Gold.goldData Samples.gold_failed_page = None
      /\ Gold.initialized Samples.gold_failed_page
         = Gold.initialized Gold.init_page
      /\ Gold.requests Samples.gold_failed_page
         = (Gold.requests Gold.init_page ++ [Gold.DATA_PATH])%list
      /\ forall net',
           Gold.requests
             (snd (Gold.ensureLoaded Date.parse_iso Samples.parse_record net'
                     Samples.gold_failed_page))
           = (Gold.requests Samples.gold_failed_page ++ [Gold.DATA_PATH])%list).
Proof.
  split.
  - reflexivity.
  - apply (proj1 (proj2 (proj2 (proj2
             (ensureLoaded_idempotent_retry Date.parse_iso Samples.parse_record))))
             Samples.net_down Gold.init_page Samples.gold_failed_page
             (JS.Error Gold.DATA_PATH)).
    reflexivity.
Defined.

(** With the network up the call succeeds; from then on no call retrieves
    anything, even with the network down. *)
Example ensureLoaded_then_cached :
  let first := Gold.ensureLoaded Date.parse_iso Samples.parse_record
                 Samples.net_up Gold.init_page in
  fst first = JS.Return tt
  /\ Gold.requests (snd first) = [Gold.DATA_PATH]
  /\ Gold.ensureLoaded Date.parse_iso Samples.parse_record Samples.net_down
       (snd first)
     = (JS.Return tt, snd first).
Proof. repeat split. Qed.

(** ** The series store of the fiat module *)

Section FiatStore.

Import JS.

Variable Date_parse : string -> Date.t.
Variable JSON_parse : string -> option Net.json_point.

Local Abbreviation loadJSONL := (Fiat.loadJSONL Date_parse JSON_parse).
Local Abbreviation ensureDataLoaded :=
  (Fiat.ensureDataLoaded Date_parse JSON_parse).

(** What a retrieval of [path] yields does not depend on the page. *)
Local Abbreviation loaded net path := (fst (loadJSONL net path Fiat.init_page)).

Lemma fiat_loadJSONL_eq (net : string -> Net.fetch_result) (path : string)
    (pg : Fiat.page) :
  loadJSONL net path pg
  = (loaded net path,
     {| Fiat.dataCache := Fiat.dataCache pg;
        Fiat.initialized := Fiat.initialized pg;
        Fiat.requests := (Fiat.requests pg ++ [path])%list |}).
Proof.
  unfold Fiat.loadJSONL, then_, Fiat.fetch.
  destruct (net path) as [|ok text]; [reflexivity|].
  destruct ok; reflexivity.
Qed.

Lemma ensure_usd_eq net (pg : Fiat.page) :
  Fiat.ensure_usd Date_parse JSON_parse net pg
  = match Fiat.usd (Fiat.dataCache pg) with
    | Some _ => (Return tt, pg)
    | None =>
        let rq := (Fiat.requests pg ++ [Fiat.USD_PATH])%list in
        match loaded net Fiat.USD_PATH with
        | Return d =>
            (Return tt,
             {| Fiat.dataCache :=
                  {| Fiat.usd := Some d; Fiat.eur := Fiat.eur (Fiat.dataCache pg);
                     Fiat.jpy := Fiat.jpy (Fiat.dataCache pg) |};
                Fiat.initialized := Fiat.initialized pg; Fiat.requests := rq |})
        | Throw e =>
            (Throw e,
             {| Fiat.dataCache := Fiat.dataCache pg;
                Fiat.initialized := Fiat.initialized pg; Fiat.requests := rq |})
        end
    end.
Proof.
  unfold Fiat.ensure_usd. destruct (Fiat.usd (Fiat.dataCache pg)); [reflexivity|].
  unfold then_. rewrite fiat_loadJSONL_eq.
  destruct (loaded net Fiat.USD_PATH); reflexivity.
Qed.

Lemma ensure_eur_eq net (pg : Fiat.page) :
  Fiat.ensure_eur Date_parse JSON_parse net pg
  = match Fiat.eur (Fiat.dataCache pg) with
    | Some _ => (Return tt, pg)
    | None =>
        let rq := (Fiat.requests pg ++ [Fiat.EUR_PATH])%list in
        match loaded net Fiat.EUR_PATH with
        | Return d =>
            (Return tt,
             {| Fiat.dataCache :=
                  {| Fiat.usd := Fiat.usd (Fiat.dataCache pg); Fiat.eur := Some d;
                     Fiat.jpy := Fiat.jpy (Fiat.dataCache pg) |};
                Fiat.initialized := Fiat.initialized pg; Fiat.requests := rq |})
        | Throw e =>
            (Throw e,
             {| Fiat.dataCache := Fiat.dataCache pg;
                Fiat.initialized := Fiat.initialized pg; Fiat.requests := rq |})
        end
    end.
Proof.
  unfold Fiat.ensure_eur. destruct (Fiat.eur (Fiat.dataCache pg)); [reflexivity|].
  unfold then_. rewrite fiat_loadJSONL_eq.
  destruct (loaded net Fiat.EUR_PATH); reflexivity.
Qed.

Lemma ensure_jpy_eq net (pg : Fiat.page) :
  Fiat.ensure_jpy Date_parse JSON_parse net pg
  = match Fiat.jpy (Fiat.dataCache pg) with
    | Some _ => (Return tt, pg)
    | None =>
        let rq := (Fiat.requests pg ++ [Fiat.JPY_PATH])%list in
        match loaded net Fiat.JPY_PATH with
        | Return d =>
            (Return tt,
             {| Fiat.dataCache :=
                  {| Fiat.usd := Fiat.usd (Fiat.dataCache pg);
                     Fiat.eur := Fiat.eur (Fiat.dataCache pg); Fiat.jpy := Some d |};
                Fiat.initialized := Fiat.initialized pg; Fiat.requests := rq |})
        | Throw e =>
            (Throw e,
             {| Fiat.dataCache := Fiat.dataCache pg;
                Fiat.initialized := Fiat.initialized pg; Fiat.requests := rq |})
        end
    end.
Proof.
  unfold Fiat.ensure_jpy. destruct (Fiat.jpy (Fiat.dataCache pg)); [reflexivity|].
  unfold then_. rewrite fiat_loadJSONL_eq.
  destruct (loaded net Fiat.JPY_PATH); reflexivity.
Qed.

Lemma fiat_path_eqb (a b : fiat_source) :
  (fiat_path a =? fiat_path b)%string
  = match a, b with
    | USD, USD | EUR, EUR | JPY, JPY => true
    | _, _ => false
    end.
Proof. destruct a, b; reflexivity. Qed.

(** One guarded load of [ensureDataLoaded], evaluated. *)
Ltac fiat_step :=
  first [ rewrite ensure_usd_eq | rewrite ensure_eur_eq | rewrite ensure_jpy_eq ];
  cbn [Fiat.usd Fiat.eur Fiat.jpy Fiat.dataCache Fiat.initialized
       Fiat.requests];
  try match goal with
      | |- context [match fst (Fiat.loadJSONL _ _ ?n ?p Fiat.init_page)
                    with _ => _ end] =>
          destruct (fst (Fiat.loadJSONL Date_parse JSON_parse n p Fiat.init_page))
      end;
  cbn zeta.

Ltac fiat_run :=
  unfold Fiat.ensureDataLoaded, then_; repeat fiat_step.

Ltac fiat_count :=
  change Fiat.USD_PATH with (fiat_path USD);
  change Fiat.EUR_PATH with (fiat_path EUR);
  change Fiat.JPY_PATH with (fiat_path JPY);
  unfold fiat_retrievals; cbn [Fiat.requests];
  rewrite ?filter_app, ?length_app; cbn [filter];
  rewrite ?fiat_path_eqb; cbn [List.length].

(** X22. Companion of C3 for the three fiat sources.
    - A source that is cached stays cached with the same series and is not
      retrieved again, whatever happens to the other sources.
    - A call that returns normally leaves every source cached.
    - A call that throws leaves some source uncached after exactly one
      retrieval of it, and the next call retrieves that source again. *)
Theorem fiat_ensureDataLoaded_contract :
  (forall net (pg : Fiat.page) (src : fiat_source) (d : Fiat.series),
      fiat_cached src pg = Some d ->
      fiat_cached src (snd (ensureDataLoaded net pg)) = Some d
      /\ fiat_retrievals src (snd (ensureDataLoaded net pg))
         = fiat_retrievals src pg)
  /\ (forall net (pg pg' : Fiat.page),
         ensureDataLoaded net pg = (Return tt, pg') ->
         forall src, fiat_cached src pg' <> None)
  /\ (forall net (pg pg' : Fiat.page) (e : error),
         ensureDataLoaded net pg = (Throw e, pg') ->
         exists src,
           fiat_cached src pg' = None
           /\ fiat_retrievals src pg' = S (fiat_retrievals src pg)
           /\ forall net',
                fiat_retrievals src (snd (ensureDataLoaded net' pg'))
                = S (fiat_retrievals src pg')).
Proof.
  split; [|split].
  - intros net [[u e j] i rq] src d C.
    destruct u, e, j, src;
      cbn [fiat_cached Fiat.dataCache Fiat.usd Fiat.eur Fiat.jpy] in C;
      try discriminate C; fiat_run;
      cbn [snd fiat_cached Fiat.dataCache Fiat.usd Fiat.eur Fiat.jpy];
      (split; [exact C | fiat_count; lia]).
  - intros net [[u e j] i rq] pg' E src. revert E.
    destruct u, e, j; fiat_run; intros E; inversion E; subst;
      destruct src; discriminate.
  - intros net [[u e j] i rq] pg' err E. revert E.
    destruct u, e, j; fiat_run; intros E; inversion E; subst; clear E.
    all: first
      [ exists USD; split; [reflexivity|]; split; [fiat_count; lia|];
        intros net'; fiat_run; cbn [snd]; fiat_count; lia
      | exists EUR; split; [reflexivity|]; split; [fiat_count; lia|];
        intros net'; fiat_run; cbn [snd]; fiat_count; lia
      | exists JPY; split; [reflexivity|]; split; [fiat_count; lia|];
        intros net'; fiat_run; cbn [snd]; fiat_count; lia ].
Qed.

End FiatStore.

(** ** The filter of the fiat module *)

Section FiatFilter.

Import JS.

Variable Date_parse : string -> Date.t.

(** C10. The fiat filter has no custom branch: in mode [custom] it returns
    the series it is given, for every state.  The state record of this
    module ([Fiat.state]) has the six fields of the source and no custom
    bound, so no bound can reach the filter. *)
Theorem fiat_filterData_custom (raw : Fiat.series) (st : Fiat.state) :
  Fiat.timeMode st = "custom" ->
  Fiat.filterData Date_parse raw st = Return raw.
Proof.
  intros H. unfold Fiat.filterData. rewrite H. decide_modes. reflexivity.
Qed.

End FiatFilter.

Lemma fiat_filterData_custom_witness :
  Fiat.timeMode Samples.fiat_custom_state = "custom"
  /\ Fiat.filterData Date.parse_iso Samples.fiat_series Samples.fiat_custom_state
     = JS.Return Samples.fiat_series.
Proof.
  split.
  - reflexivity.
  - apply (fiat_filterData_custom Date.parse_iso Samples.fiat_series
             Samples.fiat_custom_state).
    reflexivity.
Defined.

(** In contrast, the gold filter in mode [custom] with both bounds set does
    cut the series. *)
Example gold_custom_mode_cuts :
  Gold.filterData Date.parse_iso Samples.gold_series
    (Samples.custom_state (Some "2020-05-12") (Some "2020-05-10"))
  = JS.Return (firstn 4 Samples.gold_series).
Proof. reflexivity. Qed.

(** ** The route table *)

Section Routes.

Import Router.

(** The entry pushed for [path]. *)
Local Abbreviation pushed path := {| state_path := path; url := "/" ++ path |}.

(** Facts checked entry by entry on the table. *)
Lemma routes_checked :
  Forall (fun e =>
            reverse_lookup_triple (snd e) = Some e
            /\ reverse_lookup (snd e) = Some e
            /\ history (click (deepest_control (snd e)) fresh) = [pushed (fst e)]
            /\ JS.get (fst e) ROUTES = Some (snd e)
            /\ clean (fst e) = fst e)
         ROUTES.
Proof.
  unfold ROUTES at 1.
  repeat (apply Forall_cons; [repeat split; vm_compute; reflexivity|]).
  apply Forall_nil.
Qed.

(** C9. Round trip of the route table.  For every entry [(path, r)] of
    [ROUTES]: the first entry whose triple equals that of [r] is [(path, r)]
    itself; so is the entry found by the click listener of the deepest level
    of [r]; a user click on that level's control, with the router idle,
    pushes exactly [path]; and looking [path] up gives back [r]. *)
Theorem reverse_lookup_round_trip (path : string) (r : route) :
  In (path, r) ROUTES ->
  reverse_lookup_triple r = Some (path, r)
  /\ reverse_lookup r = Some (path, r)
  /\ history (click (deepest_control r) fresh) = [pushed path]
  /\ JS.get path ROUTES = Some r.
Proof.
  intros I.
  pose proof (proj1 (Forall_forall _ _) routes_checked (path, r) I) as C.
  cbn [fst snd] in C. tauto.
Qed.

End Routes.

Lemma reverse_lookup_round_trip_witness :
  In ("metrics/tx-amount/24h",
      Router.deep "metrics" "METRICS_BTC_TX_AMOUNT" "METRICS_BTC_TX_AMOUNT_24H")
     Router.ROUTES
  /\ Router.reverse_lookup
       (Router.deep "metrics" "METRICS_BTC_TX_AMOUNT" "METRICS_BTC_TX_AMOUNT_24H")
     = Some ("metrics/tx-amount/24h",
             Router.deep "metrics" "METRICS_BTC_TX_AMOUNT"
               "METRICS_BTC_TX_AMOUNT_24H").
Proof.
  assert (I : In ("metrics/tx-amount/24h",
                  Router.deep "metrics" "METRICS_BTC_TX_AMOUNT"
                    "METRICS_BTC_TX_AMOUNT_24H") Router.ROUTES).
  { unfold Router.ROUTES. repeat (first [left; reflexivity | right]). }
  split.
  - exact I.
  - exact (proj1 (proj2 (reverse_lookup_round_trip _ _ I))).
Defined.

(** ** Applying a path *)

Section ApplyPath.

Import Router.

Variable doc : document.
Variable showSubTab_is_function : bool.

Local Abbreviation pushed path := {| state_path := path; url := "/" ++ path |}.
Local Abbreviation routeTo := (Router.routeTo doc).
Local Abbreviation run_callback :=
  (Router.run_callback doc showSubTab_is_function).
Local Abbreviation applyPath := (Router.applyPath doc showSubTab_is_function).

Lemma extends_same (w w' : browser) :
  history w' = history w -> history_extends w w'.
Proof. intros E. exists []. rewrite E. symmetry. apply app_nil_r. Qed.

Lemma extends_trans (a b c : browser) :
  history_extends a b -> history_extends b c -> history_extends a c.
Proof.
  intros [m1 E1] [m2 E2]. exists (m1 ++ m2)%list.
  rewrite E2, E1. symmetry. apply app_assoc.
Qed.

Lemma push_entry_extends (entry : option (string * route)) (w : browser) :
  history_extends w (push_entry entry w).
Proof.
  destruct entry as [[p r]|]; [|apply extends_same; reflexivity].
  eexists. reflexivity.
Qed.

Lemma on_tab_click_extends (t : element) (w : browser) :
  history_extends w (on_tab_click t w).
Proof.
  unfold on_tab_click. destruct (closest _ t);
    [apply push_entry_extends | apply extends_same; reflexivity].
Qed.

Lemma on_subtab_click_extends (t : element) (w : browser) :
  history_extends w (on_subtab_click t w).
Proof.
  unfold on_subtab_click. destruct (closest _ t);
    [apply push_entry_extends | apply extends_same; reflexivity].
Qed.

Lemma on_subsubtab_click_extends (t : element) (w : browser) :
  history_extends w (on_subsubtab_click t w).
Proof.
  unfold on_subsubtab_click. destruct (closest _ t); [|apply extends_same; reflexivity].
  destruct (ROUTER_ACTIVE w); [apply extends_same; reflexivity | apply push_entry_extends].
Qed.

Lemma click_extends (t : element) (w : browser) :
  history_extends w (click t w).
Proof.
  unfold click.
  eapply extends_trans; [|apply on_subsubtab_click_extends].
  eapply extends_trans; [|apply on_subtab_click_extends].
  eapply extends_trans; [|apply on_tab_click_extends].
  apply extends_same. reflexivity.
Qed.

Lemma run_callback_extends (cb : callback) (w : browser) :
  history_extends w (run_callback cb w).
Proof.
  destruct cb as [s|ss]; unfold Router.run_callback.
  - destruct (querySelector _ doc); [|apply extends_same; reflexivity].
    destruct showSubTab_is_function; [|apply extends_same; reflexivity].
    apply extends_same. reflexivity.
  - destruct (querySelector _ doc).
    + destruct (click_extends e w) as [m E]. exists m. exact E.
    + apply extends_same. reflexivity.
Qed.

Lemma run_queue_extends (q : list (Z * callback)) (w : browser) :
  history_extends w (fold_left (fun w t => run_callback (snd t) w) q w).
Proof.
  revert w. induction q as [|t q IH]; intros w; [apply extends_same; reflexivity|].
  cbn [fold_left].
  eapply extends_trans; [apply run_callback_extends | apply IH].
Qed.

Lemma run_timers_extends (w : browser) :
  history_extends w (run_timers doc showSubTab_is_function w).
Proof.
  unfold run_timers.
  destruct (run_queue_extends (timers w)
              {| ROUTER_ACTIVE := ROUTER_ACTIVE w; history := history w;
                 timers := []; ui := ui w |}) as [m E].
  exists m. exact E.
Qed.

(** While the router is applying a path the sub-subtab listener does
    nothing: this is the only listener that reads the flag. *)
Lemma on_subsubtab_click_suppressed (t : element) (w : browser) :
  ROUTER_ACTIVE w = true -> on_subsubtab_click t w = w.
Proof.
  intros A. unfold on_subsubtab_click. rewrite A.
  destruct (closest _ t); reflexivity.
Qed.

Lemma strict_eq_true (a b : value) : strict_eq a b = true -> a = b.
Proof.
  destruct a, b; try discriminate; try reflexivity.
  cbn [strict_eq]. intros E. apply String.eqb_eq in E. congruence.
Qed.

(** The click on the main tab control, under the flag, pushes the first
    path of that tab. *)
Lemma on_tab_click_pushes (mainBtn : element) (r : route) (path : string)
    (w : browser) :
  In (path, r) ROUTES ->
  sel_tab (tab r) (self mainBtn) = true ->
  exists p r',
    find_tab (str (tab r)) = Some (p, r')
    /\ history (on_tab_click mainBtn w) = (history w ++ [pushed p])%list.
Proof.
  intros I S. unfold sel_tab in S. apply andb_true_iff in S as [C D].
  apply strict_eq_true in D.
  unfold on_tab_click, closest. cbn [closest_in]. unfold sel_tabButton.
  rewrite C. cbn [self]. rewrite D.
  destruct (find_tab (str (tab r))) as [[p r']|] eqn:F.
  - exists p, r'. split; reflexivity.
  - exfalso. unfold find_tab in F.
    pose proof (find_none _ _ F (path, r) I) as N. cbn [snd strict_eq] in N.
    rewrite String.eqb_refl in N. discriminate.
Qed.

(** C1 fails on the code.  For every entry [(path, r)] of [ROUTES] and every
    page that has the main tab control of [r], applying [path] pushes a
    history entry: the click on the main tab control reaches the main tab
    listener, which does not read the flag and pushes the first path of the
    table with that tab. *)
Theorem applyPath_pushes_history (path : string) (r : route) (w : browser) :
  In (path, r) ROUTES ->
  querySelector (sel_tab (tab r)) doc <> None ->
  exists p r' more,
    find_tab (str (tab r)) = Some (p, r')
    /\ history (applyPath path w) = (history w ++ pushed p :: more)%list.
Proof.
  intros I Q.
  pose proof (proj1 (Forall_forall _ _) routes_checked (path, r) I) as C.
  cbn [fst snd] in C. destruct C as (_ & _ & _ & G & K).
  destruct (querySelector (sel_tab (tab r)) doc) as [mainBtn|] eqn:E;
    [clear Q | congruence].
  pose proof (find_some _ _ E) as [_ S].
  destruct (on_tab_click_pushes mainBtn r path
              (call_ui (clicked mainBtn) (set_ROUTER_ACTIVE true w)) I S)
    as (p & r' & F & H).
  cbn [call_ui set_ROUTER_ACTIVE history] in H.
  exists p, r'.
  assert (X : history_extends
                (on_tab_click mainBtn
                   (call_ui (clicked mainBtn) (set_ROUTER_ACTIVE true w)))
                (applyPath path w)).
  { unfold Router.applyPath, Router.routeTo. rewrite K, G, E.
    eapply extends_trans; [|apply run_timers_extends].
    unfold click.
    set (w1 := on_tab_click mainBtn _).
    assert (X2 : history_extends w1
                   (on_subsubtab_click mainBtn (on_subtab_click mainBtn w1))).
    { eapply extends_trans;
        [apply on_subtab_click_extends | apply on_subsubtab_click_extends]. }
    destruct X2 as [m X2].
    destruct (truthy (subtab r)), (truthy (subsubtab r));
      exists m; exact X2. }
  destruct X as [m X]. exists m. split; [exact F|].
  rewrite X, H. rewrite <- app_assoc. reflexivity.
Qed.

End ApplyPath.

(** Applying [/metrics/tx-amount/24h] on the dashboard page pushes
    [/metrics/price], the first path of the metrics tab. *)
Lemma applyPath_pushes_history_witness :
  (In ("metrics/tx-amount/24h",
       Router.deep "metrics" "METRICS_BTC_TX_AMOUNT" "METRICS_BTC_TX_AMOUNT_24H")
      Router.ROUTES
   /\ Router.querySelector (Router.sel_tab "metrics") Router.dashboard <> None)
  /\ exists p r' more,
       Router.find_tab (Router.str "metrics") = Some (p, r')
       /\ Router.history
            (Router.applyPath Router.dashboard true "metrics/tx-amount/24h"
               Router.fresh)
          = (Router.history Router.fresh
             ++ {| Router.state_path := p; Router.url := "/" ++ p |} :: more)%list.
Proof.
  assert (I : In ("metrics/tx-amount/24h",
                  Router.deep "metrics" "METRICS_BTC_TX_AMOUNT"
                    "METRICS_BTC_TX_AMOUNT_24H") Router.ROUTES).
  { unfold Router.ROUTES. repeat (first [left; reflexivity | right]). }
  assert (Q : Router.querySelector (Router.sel_tab "metrics") Router.dashboard
              <> None).
  { vm_compute. discriminate. }
  split.
  - split; [exact I | exact Q].
  - exact (applyPath_pushes_history Router.dashboard true
             "metrics/tx-amount/24h"
             (Router.deep "metrics" "METRICS_BTC_TX_AMOUNT"
                "METRICS_BTC_TX_AMOUNT_24H") Router.fresh I Q).
Defined.

(** The same application, evaluated: the history of a fresh browser ends up
    holding one entry, for [/metrics/price]; the flag is back to false; the
    main tab and the sub-subtab controls were clicked and [showSubTab] was
    called. *)
Example applyPath_tx_amount_24h :
  let w := Router.applyPath Router.dashboard true "/metrics/tx-amount/24h"
             Router.fresh in
  Router.history w
  = [ {| Router.state_path := "metrics/price"; Router.url := "/metrics/price" |} ]
  /\ Router.ROUTER_ACTIVE w = false
  /\ Router.timers w = []
  /\ Router.ui w
     = [ Router.clicked (Router.control ["tabButton"] "tab" "metrics");
         Router.showSubTab
           (Router.control ["subTabButton"] "subtab" "METRICS_BTC_TX_AMOUNT");
         Router.clicked
           (Router.control ["subSubTabButton"] "subsubtab"
              "METRICS_BTC_TX_AMOUNT_24H") ].
Proof. repeat split. Qed.

(** A path outside the table changes nothing. *)
Example applyPath_unknown :
  Router.applyPath Router.dashboard true "foo/bar" Router.fresh = Router.fresh.
Proof. reflexivity. Qed.

(** Landing on [/review/btc-gold], or going back to it, rewrites the address
    to [/review/btc-fiat]. *)
Example landing_on_btc_gold :
  Router.history
    (Router.run_timers Router.dashboard true
       (Router.on_DOMContentLoaded Router.dashboard "/review/btc-gold"
          Router.fresh))
  = [ {| Router.state_path := "review/btc-fiat";
         Router.url := "/review/btc-fiat" |} ]
  /\ Router.history
       (Router.run_timers Router.dashboard true
          (Router.on_popstate Router.dashboard (Some "review/btc-gold")
             Router.fresh))
     = [ {| Router.state_path := "review/btc-fiat";
            Router.url := "/review/btc-fiat" |} ].
Proof. split; reflexivity. Qed.

(** * Further properties of the modules *)

(** ** The gold filter as a pointwise test *)

Section GoldFilterMore.

Import JS.

Variable Date_parse : string -> Date.t.

Local Abbreviation filterData := (Gold.filterData Date_parse).

Lemma filter_filter {A : Type} (f g : A -> bool) (l : list A) :
  filter f (filter g l) = filter (fun a => g a && f a) l.
Proof.
  induction l as [|a l IH]; [reflexivity|].
  cbn [filter]. destruct (g a); cbn [filter andb]; rewrite IH; reflexivity.
Qed.

Lemma filter_all {A : Type} (l : list A) : l = filter (fun _ => true) l.
Proof.
  induction l as [|a l IH]; [reflexivity|]. cbn [filter]. f_equal. exact IH.
Qed.

Lemma filter_idempotent {A : Type} (f : A -> bool) (l : list A) :
  filter f (filter f l) = filter f l.
Proof.
  rewrite filter_filter. apply filter_ext. intros a. destruct (f a); reflexivity.
Qed.

Lemma filterData_as_filter (data : Gold.series) (st : Gold.state)
    (out : Gold.series) :
  filterData data st = Return out ->
  exists keep : Gold.point -> bool,
    forall l : Gold.series, filterData l st = Return (filter keep l).
Proof.
  unfold Gold.filterData.
  destruct ((Gold.timeMode st =? "year")%string
            && truthy_opt truthy_number (Gold.year st));
    destruct ((Gold.timeMode st =? "halving")%string
              && truthy_opt truthy_string (Gold.halvingCycle st));
    destruct (Gold.halvingCycle st) as [cycle|];
    try destruct (get cycle Gold.HALVING_RANGES) as [[s e]|];
    cbn [JS.bind]; try discriminate; intros _;
    destruct ((Gold.timeMode st =? "custom")%string
              && truthy_opt truthy_string (Gold.customStart st)
              && truthy_opt truthy_string (Gold.customEnd st));
    destruct (Gold.customStart st) as [cs|];
    destruct (Gold.customEnd st) as [ce|];
    try destruct (Gold.clampDateOrder (Date_parse cs) (Date_parse ce));
    first
      [ exists (fun _ => true); intros l; f_equal; apply filter_all
      | eexists; intros l; rewrite ?filter_filter; reflexivity ].
Qed.

(** X1. Whenever the filter returns for a state, it acts as one test applied
    to each point on its own: for that state it returns, on every series,
    the points passing the test, in their order.  So the slice is never
    longer than the series, holds only points of the series, and whether the
    filter throws does not depend on the series. *)
Theorem filterData_pointwise (data : Gold.series) (st : Gold.state)
    (out : Gold.series) :
  filterData data st = Return out ->
  exists keep : Gold.point -> bool,
    (forall l : Gold.series, filterData l st = Return (filter keep l))
    /\ out = filter keep data
    /\ (List.length out <= List.length data)%nat
    /\ (forall p, In p out -> In p data).
Proof.
  intros E. destruct (filterData_as_filter data st out E) as [keep K].
  exists keep. rewrite K in E. inversion E; subst out.
  split; [exact K|]. split; [reflexivity|]. split.
  - apply filter_length_le.
  - intros p I. apply filter_In in I. exact (proj1 I).
Qed.

(** X2. Filtering is idempotent: a slice the filter returned passes through
    the filter unchanged, for the same state. *)
Theorem filterData_idempotent (data : Gold.series) (st : Gold.state)
    (out : Gold.series) :
  filterData data st = Return out -> filterData out st = Return out.
Proof.
  intros E. destruct (filterData_as_filter data st out E) as [keep K].
  rewrite K in E. inversion E; subst out.
  rewrite K, filter_idempotent. reflexivity.
Qed.

(** X3. The filter fails in exactly one situation: mode [halving] with a
    non-empty cycle id that is no key of [HALVING_RANGES]; the exception is
    then a [TypeError], whatever the series. *)
Theorem filterData_throws_iff (data : Gold.series) (st : Gold.state)
    (e : error) :
  filterData data st = Throw e
  <-> (e = TypeError
       /\ Gold.timeMode st = "halving"
       /\ exists id, Gold.halvingCycle st = Some id /\ id <> ""
                     /\ get id Gold.HALVING_RANGES = None).
Proof.
  unfold Gold.filterData. split.
  - destruct (Gold.timeMode st =? "halving")%string eqn:M;
      cbn [andb JS.bind]; [|discriminate].
    apply String.eqb_eq in M.
    destruct (Gold.halvingCycle st) as [[|c id]|];
      cbn [truthy_opt truthy_string JS.bind]; try discriminate.
    destruct (get (String c id) Gold.HALVING_RANGES) as [[s en]|] eqn:G;
      cbn [JS.bind]; [discriminate|].
    intros E. inversion E; subst e.
    split; [reflexivity|]. split; [exact M|].
    exists (String c id). repeat split; [discriminate | exact G].
  - intros (-> & M & id & C & N & G). rewrite M, C.
    destruct id as [|c id]; [congruence|].
    decide_modes. cbn [truthy_opt truthy_string]. rewrite G. reflexivity.
Qed.

(** X4. A named range is a closed interval of instants.  In mode [halving],
    for a cycle of the table whose start (and end, when it has one) the host
    reads as dates, the filter keeps exactly the points with a valid date
    from the start instant to the end instant, both included; a cycle
    without end has no upper bound. *)
Theorem filterData_halving_window (data : Gold.series) (st : Gold.state)
    (id s : string) (e : option string) (ts : Z) (te : option Z) :
  Gold.timeMode st = "halving" ->
  Gold.halvingCycle st = Some id ->
  get id Gold.HALVING_RANGES = Some (s, e) ->
  Date_parse s = Some ts ->
  option_map Date_parse e = option_map Some te ->
  e <> Some "" ->
  filterData data st = Return (filter (fun p => within ts te (Gold.x p)) data).
Proof.
  intros M C G S E N. unfold Gold.filterData. rewrite M, C.
  assert (I : id <> "") by (intros ->; discriminate G).
  destruct id as [|c id]; [congruence|].
  decide_modes. cbn [truthy_opt truthy_string]. rewrite G, S.
  cbn [JS.bind]. f_equal. apply filter_ext. intros p.
  unfold within, Date.geb, Date.leb.
  destruct e as [[|c' es]|], te as [h|]; try discriminate E;
    try congruence; cbn [truthy_opt truthy_string option_map] in *.
  - inversion E as [E']. rewrite E'.
    destruct (Gold.x p); reflexivity.
  - destruct (Gold.x p); reflexivity.
Qed.

(** X5. A custom range is the closed interval from the earlier bound to the
    last millisecond of the day of the later bound.  In mode [custom], with
    two non-empty bounds the host reads as the instants [a] and [b], in
    either order, and the extended end representable, the filter keeps
    exactly the points with a valid date in that interval. *)
Theorem filterData_custom_window (data : Gold.series) (st : Gold.state)
    (cs ce : string) (a b : Z) :
  Gold.timeMode st = "custom" ->
  Gold.customStart st = Some cs -> Gold.customEnd st = Some ce ->
  cs <> "" -> ce <> "" ->
  Date_parse cs = Some a -> Date_parse ce = Some b ->
  Z.abs (Z.max a b + (86400000 - 1)) <= Date.maxTime ->
  filterData data st
  = Return (filter (fun p =>
              within (Z.min a b) (Some (Z.max a b + (86400000 - 1))) (Gold.x p))
              data).
Proof.
  intros M Cs Ce Ns Ne Pa Pb B.
  rewrite (filterData_both_bounds Date_parse data st cs ce M Cs Ce Ns Ne).
  f_equal. apply filter_ext. intros p.
  unfold custom_window, Gold.clampDateOrder, Date.gtb. rewrite Pa, Pb.
  destruct (Z.ltb_spec b a) as [L|L].
  - rewrite (Z.max_l a b), (Z.min_r a b) in * by lia.
    cbn [Date.plus option_map Date.of_number]. unfold Date.TimeClip.
    destruct (Z.leb_spec (Z.abs (a + (86400000 - 1))) Date.maxTime); [|lia].
    unfold within, Date.geb, Date.leb. destruct (Gold.x p); reflexivity.
  - rewrite (Z.max_r a b), (Z.min_l a b) in * by lia.
    cbn [Date.plus option_map Date.of_number]. unfold Date.TimeClip.
    destruct (Z.leb_spec (Z.abs (b + (86400000 - 1))) Date.maxTime); [|lia].
    unfold within, Date.geb, Date.leb. destruct (Gold.x p); reflexivity.
Qed.

Lemma filter_none {A : Type} (f : A -> bool) (l : list A) :
  (forall a, f a = false) -> filter f l = [].
Proof.
  intros F. induction l as [|a l IH]; [reflexivity|].
  cbn [filter]. rewrite F. exact IH.
Qed.

(** X6. Degenerate custom bounds empty the slice.  In mode [custom] with two
    non-empty bounds, if the host reads one of them as an invalid date, or
    if the end of the later day is beyond the representable time values,
    the filter returns the empty series: no exception, and not the whole
    series. *)
Theorem filterData_custom_degenerate (data : Gold.series) (st : Gold.state)
    (cs ce : string) :
  Gold.timeMode st = "custom" ->
  Gold.customStart st = Some cs -> Gold.customEnd st = Some ce ->
  cs <> "" -> ce <> "" ->
  Date_parse cs = None \/ Date_parse ce = None
  \/ (exists a b, Date_parse cs = Some a /\ Date_parse ce = Some b
                  /\ Date.maxTime < Z.abs (Z.max a b + (86400000 - 1))) ->
  filterData data st = Return [].
Proof.
  intros M Cs Ce Ns Ne D.
  rewrite (filterData_both_bounds Date_parse data st cs ce M Cs Ce Ns Ne).
  f_equal. apply filter_none. intros p.
  unfold custom_window, Gold.clampDateOrder, Date.gtb.
  destruct D as [Pa | [Pb | (a & b & Pa & Pb & B)]].
  - rewrite Pa. cbn [Date.geb]. destruct (Gold.x p); reflexivity.
  - rewrite Pb. destruct (Date_parse cs);
      cbn [Date.plus option_map Date.of_number Date.leb];
      destruct (Gold.x p); cbn [Date.geb Date.leb]; try reflexivity;
      apply andb_false_r.
  - rewrite Pa, Pb.
    destruct (Z.ltb_spec b a) as [L|L].
    + rewrite (Z.max_l a b) in B by lia.
      cbn [Date.plus option_map Date.of_number]. unfold Date.TimeClip.
      destruct (Z.leb_spec (Z.abs (a + (86400000 - 1))) Date.maxTime); [lia|].
      destruct (Gold.x p); cbn [Date.geb Date.leb]; try reflexivity;
        apply andb_false_r.
    + rewrite (Z.max_r a b) in B by lia.
      cbn [Date.plus option_map Date.of_number]. unfold Date.TimeClip.
      destruct (Z.leb_spec (Z.abs (b + (86400000 - 1))) Date.maxTime); [lia|].
      destruct (Gold.x p); cbn [Date.geb Date.leb]; try reflexivity;
        apply andb_false_r.
Qed.

End GoldFilterMore.

(** ** What [loadJSONL] makes of a payload *)

Section GoldPayload.

Import JS.

Variable Date_parse : string -> Date.t.
Variable JSON_parse : string -> option Net.json_point.

Local Abbreviation loadJSONL := (Gold.loadJSONL Date_parse JSON_parse).
Local Abbreviation parse_line := (Gold.parse_line JSON_parse).
Local Abbreviation point_of jp :=
  {| Gold.x := Date_parse (Net.date jp); Gold.y := Net.value jp |}.

Lemma split_lines_nonempty (s : string) : split_lines s <> [].
Proof.
  induction s as [|c s IH]; cbn [split_lines]; [discriminate|].
  destruct (split_lines s) as [|l ls]; [congruence|].
  destruct (is_newline c); discriminate.
Qed.



Lemma loadJSONL_ok (net : string -> Net.fetch_result) (path text : string)
    (pg : Gold.page) :
  net path = Net.Response true text ->
  fst (loadJSONL net path pg)
  = (jps <- map_throwing parse_line (split_lines (trim text)) ;;
     Return (map (fun jp => point_of jp) jps)).
Proof.
  intros E. unfold Gold.loadJSONL, then_, Gold.fetch. rewrite E. reflexivity.
Qed.


Lemma loadJSONL_nonempty (net : string -> Net.fetch_result) (path : string)
    (pg : Gold.page) (pts : Gold.series) :
  fst (loadJSONL net path pg) = Return pts -> pts <> [].
Proof.
  unfold Gold.loadJSONL, then_, Gold.fetch.
  destruct (net path) as [|ok text]; [discriminate|].
  destruct ok; [|discriminate]. cbn [negb fst sync].
  destruct (map_throwing parse_line (split_lines (trim text))) as [jps|e] eqn:M;
    cbn [JS.bind]; [|discriminate].
  intros E. inversion E; subst pts. clear E.
  pose proof (split_lines_nonempty (trim text)) as N.
  destruct (split_lines (trim text)) as [|l lines]; [congruence|].
  cbn [map_throwing] in M.
  destruct (parse_line l) as [jp|]; cbn [JS.bind] in M; [|discriminate].
  destruct (map_throwing parse_line lines); cbn [JS.bind] in M;
    inversion M; discriminate.
Qed.

(** X8. No load yields an empty series.  A series returned by [loadJSONL]
    has at least one point; and a success response whose body is empty or
    blank makes the load throw, as soon as the host rejects the empty string
    as JSON (which [JSON.parse] does). *)
Theorem loadJSONL_never_empty (net : string -> Net.fetch_result)
    (path : string) (pg : Gold.page) :
  (forall pts, fst (loadJSONL net path pg) = Return pts -> pts <> [])
  /\ (forall text,
         net path = Net.Response true text ->
         trim text = "" -> JSON_parse "" = None ->
         fst (loadJSONL net path pg) = Throw SyntaxError).
Proof.
  split.
  - intros pts. apply loadJSONL_nonempty.
  - intros text E T P. rewrite (loadJSONL_ok net path text pg E), T.
    cbn [split_lines map_throwing]. unfold Gold.parse_line. rewrite P.
    reflexivity.
Qed.

End GoldPayload.


Lemma loadJSONL_never_empty_witness :
  ((fun _ : string => Net.Response true " ") "p" = Net.Response true " "
   /\ JS.trim " " = "" /\ Samples.parse_record "" = None)
  /\ fst (Gold.loadJSONL Date.parse_iso Samples.parse_record
            (fun _ => Net.Response true " ") "p" Gold.init_page)
     = JS.Throw JS.SyntaxError.
Proof.
  split.
  - repeat split.
  - apply (proj2 (loadJSONL_never_empty Date.parse_iso Samples.parse_record
                    (fun _ => Net.Response true " ") "p" Gold.init_page) " ");
      reflexivity.
Defined.

(** ** The chart of the gold page *)

Section GoldPage.

Import JS.
Import GoldView.

Variable Date_parse : string -> Date.t.
Variable JSON_parse : string -> option Net.json_point.
Variable Number : string -> number.
Variable doc : elements.

Local Abbreviation filterData := (Gold.filterData Date_parse).
Local Abbreviation updateChart := (GoldView.updateChart Date_parse doc).
Local Abbreviation render := (GoldView.render Date_parse doc).
Local Abbreviation step := (GoldView.step Date_parse JSON_parse Number doc).
Local Abbreviation run := (GoldView.run Date_parse JSON_parse Number doc).
Local Abbreviation loadReviewBtcVsGold :=
  (GoldView.loadReviewBtcVsGold Date_parse JSON_parse doc).
Local Abbreviation painted := (painted Date_parse doc).

Lemma set_shown_same (a : app) : set_shown (shown a) a = a.
Proof. destruct a; reflexivity. Qed.

Lemma updateChart_painted (a : app) :
  match updateChart a with
  | Return a' => exists v, painted a v /\ a' = set_shown v a
  | Throw e =>
      canvas doc = true
      /\ exists d, Gold.goldData (page a) = Some d
                   /\ filterData d (state a) = Throw e
  end.
Proof.
  unfold GoldView.updateChart.
  destruct (canvas doc) eqn:C; cbn [negb].
  2:{ exists (shown a). split; [|symmetry; apply set_shown_same].
      apply painted_nothing. left. exact C. }
  destruct (Gold.goldData (page a)) as [d|] eqn:G.
  2:{ exists (shown a). split; [|symmetry; apply set_shown_same].
      apply painted_nothing. right. left. exact G. }
  destruct (filterData d (state a)) as [data|e] eqn:F; cbn [JS.bind].
  2:{ split; [reflexivity|]. exists d. split; [reflexivity | exact F]. }
  destruct data as [|p data].
  { exists (shown a). split; [|symmetry; apply set_shown_same].
    apply painted_nothing. right. right. exists d.
    split; [exact G | left; exact F]. }
  destruct (chart (shown a)) as [c|] eqn:H.
  - eexists. split; [|reflexivity].
    apply (painted_again Date_parse doc a d (p :: data) c);
      try assumption; discriminate.
  - eexists. split; [|reflexivity].
    apply (painted_first Date_parse doc a d (p :: data));
      try assumption; discriminate.
Qed.

Lemma render_painted (a : app) :
  exists v, painted a v /\ render a = set_shown v a.
Proof.
  unfold GoldView.render. pose proof (updateChart_painted a) as P.
  destruct (updateChart a) as [a'|e]; [exact P|].
  destruct P as (C & d & G & F).
  exists (shown a). split; [|symmetry; apply set_shown_same].
  apply painted_nothing. right. right. exists d.
  split; [exact G | right; exists e; exact F].
Qed.

(** [page_ok] reads the store, the handler flag and the chart only. *)
Lemma page_ok_ext (a b : app) :
  page a = page b -> bound a = bound b -> shown a = shown b ->
  page_ok a -> page_ok b.
Proof.
  unfold page_ok. intros P B S. rewrite P, B, S. tauto.
Qed.

Lemma painted_ok (a : app) (v : view) :
  page_ok a -> painted a v -> page_ok (set_shown v a).
Proof.
  intros O P. destruct P as [N | d data C G F NE H | d data c C G F NE H].
  - rewrite set_shown_same. exact O.
  - destruct O as (I & B & D & K). rewrite H in K. destruct K as [K1 K2].
    unfold page_ok. cbn [set_shown page bound shown chart charts_constructed
                          dblclick_listeners dataset].
    repeat split; try tauto; try congruence.
    destruct (filterData_as_filter Date_parse d (state a) data F) as [keep K].
    exists d, keep. split; [exact G|]. rewrite K in F. congruence.
  - destruct O as (I & B & D & K). rewrite H in K.
    destruct K as (K1 & K2 & _).
    unfold page_ok. cbn [set_shown page bound shown chart charts_constructed
                          dblclick_listeners dataset].
    repeat split; try tauto; try congruence.
    destruct (filterData_as_filter Date_parse d (state a) data F) as [keep K].
    exists d, keep. split; [exact G|]. rewrite K in F. congruence.
Qed.

Lemma render_ok (a : app) : page_ok a -> page_ok (render a).
Proof.
  intros O. destruct (render_painted a) as (v & P & ->).
  apply painted_ok; assumption.
Qed.

Lemma updateChart_ok (a : app) :
  page_ok a ->
  page_ok (snd (match updateChart a with
                | Return a' => (Return tt, a')
                | Throw e => (Throw e, a)
                end)).
Proof.
  intros O. pose proof (updateChart_painted a) as P.
  destruct (updateChart a) as [a'|e]; cbn [snd]; [|exact O].
  destruct P as (v & P & ->). apply painted_ok; assumption.
Qed.

Lemma populateYearSelect_same (a : app) :
  page (populateYearSelect doc a) = page a
  /\ bound (populateYearSelect doc a) = bound a
  /\ shown (populateYearSelect doc a) = shown a
  /\ state (populateYearSelect doc a) = state a
  /\ groups (populateYearSelect doc a) = groups a.
Proof.
  unfold populateYearSelect.
  destruct (Gold.goldData (page a)) as [[|p d]|]; try (repeat split; fail).
  destruct (yearSel doc); repeat split.
Qed.

Lemma load_ok (net : string -> Net.fetch_result) (a : app) :
  page_ok a -> page_ok (snd (loadReviewBtcVsGold net a)).
Proof.
  intros O. unfold GoldView.loadReviewBtcVsGold.
  destruct (Gold.initialized (page a)) eqn:I; cbn [negb].
  { apply updateChart_ok. exact O. }
  assert (G : Gold.goldData (page a) = None).
  { destruct O as (E & _). destruct (Gold.goldData (page a)); [|reflexivity].
    assert (X : Gold.initialized (page a) = true) by (apply E; discriminate).
    congruence. }
  assert (H : chart (shown a) = None).
  { destruct O as (_ & _ & _ & K). destruct (chart (shown a)); [|reflexivity].
    destruct K as (_ & _ & _ & d & keep & K & _). congruence. }
  rewrite (ensureLoaded_uncached Date_parse JSON_parse net (page a) G).
  destruct (fst (Gold.loadJSONL Date_parse JSON_parse net Gold.DATA_PATH (page a)))
    as [d|e] eqn:L; cbn [snd].
  - apply updateChart_ok.
    pose proof (loadJSONL_nonempty Date_parse JSON_parse net _ _ d L) as NE.
    destruct (populateYearSelect_same
                (set_page {| Gold.goldData := Some d;
                             Gold.initialized := Gold.initialized (page a);
                             Gold.requests :=
                               (Gold.requests (page a) ++ [Gold.DATA_PATH])%list |} a))
      as (P1 & P2 & P3 & _).
    destruct O as (_ & _ & _ & K). rewrite H in K.
    unfold page_ok, bindControls.
    cbn [set_page set_bound page bound shown Gold.goldData Gold.initialized].
    rewrite P3, P1. cbn [set_page page shown Gold.goldData]. rewrite H.
    repeat split; try tauto; try discriminate;
      try (intros d' E; inversion E; subst d'; exact NE).
  - destruct O as (_ & B & _ & K). rewrite H in K.
    unfold page_ok. cbn [set_page page bound shown Gold.goldData Gold.initialized].
    rewrite H, I, B. repeat split; try tauto; try discriminate.
Qed.

Lemma step_ok (a : app) (ev : event) : page_ok a -> page_ok (step a ev).
Proof.
  intros O. destruct ev; cbn [GoldView.step].
  - apply load_ok. exact O.
  - unfold timeSel_onchange. destruct (bound a && timeSel doc); [|exact O].
    apply render_ok. revert O. apply page_ok_ext; reflexivity.
  - unfold yearSel_onchange. destruct (bound a && yearSel doc); [|exact O].
    apply render_ok. revert O. apply page_ok_ext; reflexivity.
  - unfold halvingSel_onchange. destruct (bound a && halvingSel doc); [|exact O].
    apply render_ok. revert O. apply page_ok_ext; reflexivity.
  - unfold logToggle_onchange. destruct (bound a && logToggle doc); [|exact O].
    apply render_ok. revert O. apply page_ok_ext; reflexivity.
  - unfold startInput_onchange. destruct (bound a && startInput doc); [|exact O].
    apply render_ok. revert O. apply page_ok_ext; reflexivity.
  - unfold endInput_onchange. destruct (bound a && endInput doc); [|exact O].
    apply render_ok. revert O. apply page_ok_ext; reflexivity.
  - unfold canvas_dblclick. destruct (chart (shown a)) as [c|] eqn:H; [|exact O].
    destruct O as (I & B & D & K). rewrite H in K.
    unfold page_ok. cbn [set_shown page bound shown chart charts_constructed
                          dblclick_listeners dataset].
    tauto.
Qed.

Lemma run_ok (evs : list event) (a : app) : page_ok a -> page_ok (run evs a).
Proof.
  revert a. induction evs as [|ev evs IH]; intros a O; [exact O|].
  change (page_ok (run evs (step a ev))). apply IH. apply step_ok. exact O.
Qed.

Lemma init_ok (v0 : visibility) : page_ok (init_app v0).
Proof.
  unfold page_ok. cbn. repeat split; try discriminate; try tauto.
Qed.

(** X9. One chart for the lifetime of the page.  After any sequence of
    loads, control changes and double clicks, [new Chart] has run at most
    once, the canvas carries as many [dblclick] listeners as charts were
    built, and the module holds a chart exactly when one was built. *)
Theorem single_chart (evs : list event) (v0 : visibility) :
  let a := run evs (init_app v0) in
  (charts_constructed (shown a) <= 1)%nat
  /\ dblclick_listeners (shown a) = charts_constructed (shown a)
  /\ (chart (shown a) = None <-> charts_constructed (shown a) = 0%nat).
Proof.
  intros a. destruct (run_ok evs _ (init_ok v0)) as (_ & _ & _ & K).
  fold a in K. destruct (chart (shown a)) as [c|].
  - destruct K as (K1 & K2 & _). rewrite K1, K2.
    split; [lia|]. split; [reflexivity|]. split; discriminate.
  - destruct K as (K1 & K2). rewrite K1, K2.
    split; [lia|]. split; [reflexivity|]. split; reflexivity.
Qed.


Lemma render_fields (a : app) :
  page (render a) = page a /\ state (render a) = state a
  /\ groups (render a) = groups a /\ bound (render a) = bound a.
Proof.
  destruct (render_painted a) as (v & _ & ->). repeat split.
Qed.

Lemma updateChart_fields (a : app) :
  let a' := snd (match updateChart a with
                 | Return a' => (Return tt, a')
                 | Throw e => (Throw e, a)
                 end) in
  page a' = page a /\ state a' = state a /\ groups a' = groups a
  /\ exists v, painted a v /\ shown a' = v.
Proof.
  pose proof (updateChart_painted a) as P.
  destruct (updateChart a) as [a'|e]; cbn [snd].
  - destruct P as (v & P & ->). repeat split. exists v. split; [exact P | reflexivity].
  - destruct P as (C & d & G & F). repeat split.
    exists (shown a). split; [|reflexivity].
    apply painted_nothing. right. right. exists d.
    split; [exact G | right; exists e; exact F].
Qed.

(** The state before [updateChart] in a first, successful load. *)
Local Abbreviation loaded_app a pg :=
  (set_page {| Gold.goldData := Gold.goldData (page (bindControls (populateYearSelect doc (set_page pg a))));
               Gold.initialized := true;
               Gold.requests := Gold.requests (page (bindControls (populateYearSelect doc (set_page pg a)))) |}
     (bindControls (populateYearSelect doc (set_page pg a)))).

Lemma load_fields (net : string -> Net.fetch_result) (a : app) :
  state (snd (loadReviewBtcVsGold net a)) = state a
  /\ groups (snd (loadReviewBtcVsGold net a)) = groups a
  /\ (Gold.initialized (page a) = true ->
      page (snd (loadReviewBtcVsGold net a)) = page a)
  /\ (shown (snd (loadReviewBtcVsGold net a)) = shown a
      \/ exists a2, painted a2 (shown (snd (loadReviewBtcVsGold net a)))
                    /\ shown a2 = shown a /\ state a2 = state a).
Proof.
  unfold GoldView.loadReviewBtcVsGold.
  destruct (Gold.initialized (page a)) eqn:I; cbn [negb].
  - destruct (updateChart_fields a) as (P & S & G & v & Pv & E).
    split; [exact S|]. split; [exact G|]. split; [intros _; exact P|].
    right. exists a. rewrite E. repeat split. exact Pv.
  - destruct (Gold.ensureLoaded Date_parse JSON_parse net (page a)) as [[[]|e] pg].
    + destruct (updateChart_fields (loaded_app a pg)) as (P & S & G & v & Pv & E).
      destruct (populateYearSelect_same (set_page pg a)) as (_ & _ & Q3 & Q4 & Q5).
      rewrite S, G. cbn [set_page bindControls set_bound state groups].
      rewrite Q4, Q5.
      split; [reflexivity|]. split; [reflexivity|]. split; [discriminate|].
      right. exists (loaded_app a pg). rewrite E.
      cbn [set_page bindControls set_bound state shown].
      rewrite Q3, Q4. repeat split. exact Pv.
    + cbn [snd set_page state groups shown].
      split; [reflexivity|]. split; [reflexivity|]. split; [discriminate|].
      left. reflexivity.
Qed.

(** Every event but a handled change of the time mode leaves the state
    fields it does not name, and the groups, alone; what it leaves in the
    chart is what [updateChart] paints on a page with the same chart. *)
Lemma step_shown (a : app) (ev : event) :
  shown (step a ev) = shown a
  \/ (exists a2, painted a2 (shown (step a ev)) /\ shown a2 = shown a)
  \/ (ev = dblclick
      /\ exists c, chart (shown a) = Some c
                   /\ shown (step a ev)
                      = {| chart := Some {| dataset := dataset c; x_unit := x_unit c;
                                            x_callback := x_callback c;
                                            y_type := y_type c;
                                            updates := (updates c
                                                        + dblclick_listeners (shown a))%nat |};
                           charts_constructed := charts_constructed (shown a);
                           dblclick_listeners := dblclick_listeners (shown a) |}).
Proof.
  destruct ev; cbn [GoldView.step].
  - destruct (load_fields net a) as (_ & _ & _ & [E | (a2 & P & S & _)]);
      [left; exact E | right; left; exists a2; split; assumption].
  - unfold timeSel_onchange. destruct (bound a && timeSel doc); [|left; reflexivity].
    right. left. eexists. destruct (render_painted
      (set_groups
         {| yearCtrl_hidden :=
              toggle_hidden (yearCtrl doc) (negb (value =? "year")%string)
                (yearCtrl_hidden (groups (set_state (set_timeMode value (state a)) a)));
            halvCtrl_hidden :=
              toggle_hidden (halvCtrl doc) (negb (value =? "halving")%string)
                (halvCtrl_hidden (groups (set_state (set_timeMode value (state a)) a)));
            custCtrl_hidden :=
              toggle_hidden (custCtrl doc) (negb (value =? "custom")%string)
                (custCtrl_hidden (groups (set_state (set_timeMode value (state a)) a))) |}
         (set_state (set_timeMode value (state a)) a))) as (v & P & E).
    rewrite E. cbn [set_shown shown]. split; [exact P | reflexivity].
  - unfold yearSel_onchange. destruct (bound a && yearSel doc); [|left; reflexivity].
    right. left. eexists.
    destruct (render_painted (set_state (set_year (Number value) (state a)) a))
      as (v & P & E).
    rewrite E. cbn [set_shown shown]. split; [exact P | reflexivity].
  - unfold halvingSel_onchange. destruct (bound a && halvingSel doc); [|left; reflexivity].
    right. left. eexists.
    destruct (render_painted (set_state (set_halvingCycle value (state a)) a))
      as (v & P & E).
    rewrite E. cbn [set_shown shown]. split; [exact P | reflexivity].
  - unfold logToggle_onchange. destruct (bound a && logToggle doc); [|left; reflexivity].
    right. left. eexists.
    destruct (render_painted (set_state (set_logScale checked (state a)) a))
      as (v & P & E).
    rewrite E. cbn [set_shown shown]. split; [exact P | reflexivity].
  - unfold startInput_onchange. destruct (bound a && startInput doc); [|left; reflexivity].
    right. left. eexists.
    destruct (render_painted (set_state (Gold.set_customStart (Some value) (state a)) a))
      as (v & P & E).
    rewrite E. cbn [set_shown shown]. split; [exact P | reflexivity].
  - unfold endInput_onchange. destruct (bound a && endInput doc); [|left; reflexivity].
    right. left. eexists.
    destruct (render_painted (set_state (Gold.set_customEnd (Some value) (state a)) a))
      as (v & P & E).
    rewrite E. cbn [set_shown shown]. split; [exact P | reflexivity].
  - unfold canvas_dblclick. destruct (chart (shown a)) as [c|] eqn:H;
      [|left; reflexivity].
    right. right. split; [reflexivity|]. exists c. split; reflexivity.
Qed.

Lemma painted_keeps_x (a : app) (v : view) (c : chart_instance) :
  painted a v -> chart (shown a) = Some c ->
  exists c', chart v = Some c' /\ x_unit c' = x_unit c
             /\ x_callback c' = x_callback c.
Proof.
  intros P H. destruct P as [N | d data C G F NE H' | d data c0 C G F NE H'].
  - exists c. repeat split. exact H.
  - congruence.
  - rewrite H in H'. inversion H'; subst c0.
    eexists. cbn [chart x_unit x_callback]. repeat split.
Qed.

(** X11. The time axis is fixed by the first paint.  Once a chart exists,
    no sequence of loads, control changes and double clicks removes it or
    changes the unit and the tick formatter of its time axis: later calls
    of [updateChart] compute a new time scale and do not apply it. *)
Theorem x_axis_frozen (a : app) (c : chart_instance) (evs : list event) :
  chart (shown a) = Some c ->
  exists c', chart (shown (run evs a)) = Some c'
             /\ x_unit c' = x_unit c /\ x_callback c' = x_callback c.
Proof.
  revert a c. induction evs as [|ev evs IH]; intros a c H.
  - exists c. repeat split. exact H.
  - change (exists c', chart (shown (run evs (step a ev))) = Some c'
                       /\ x_unit c' = x_unit c /\ x_callback c' = x_callback c).
    assert (S : exists c1, chart (shown (step a ev)) = Some c1
                           /\ x_unit c1 = x_unit c
                           /\ x_callback c1 = x_callback c).
    { destruct (step_shown a ev) as [E | [(a2 & P & E) | (_ & c0 & H0 & E)]].
      - exists c. rewrite E. repeat split. exact H.
      - apply (painted_keeps_x a2); [exact P | congruence].
      - rewrite E. rewrite H in H0. inversion H0; subst c0.
        eexists. cbn [chart x_unit x_callback]. repeat split. }
    destruct S as (c1 & H1 & U1 & T1).
    destruct (IH (step a ev) c1 H1) as (c' & H' & U' & T').
    exists c'. repeat split; [exact H' | congruence | congruence].
Qed.




(** The writes of each event to [reviewGoldState] and to the hidden
    classes. *)
Lemma step_state_groups (a : app) (ev : event) :
  state (step a ev)
  = match ev with
    | change_timeMode v =>
        if bound a && timeSel doc then set_timeMode v (state a) else state a
    | change_year v =>
        if bound a && yearSel doc then set_year (Number v) (state a) else state a
    | change_halving v =>
        if bound a && halvingSel doc then set_halvingCycle v (state a)
        else state a
    | change_log b =>
        if bound a && logToggle doc then set_logScale b (state a) else state a
    | change_start v =>
        if bound a && startInput doc
        then Gold.set_customStart (Some v) (state a) else state a
    | change_end v =>
        if bound a && endInput doc
        then Gold.set_customEnd (Some v) (state a) else state a
    | _ => state a
    end
  /\ groups (step a ev)
     = match ev with
       | change_timeMode v =>
           if bound a && timeSel doc then
             {| yearCtrl_hidden :=
                  toggle_hidden (yearCtrl doc) (negb (v =? "year")%string)
                    (yearCtrl_hidden (groups a));
                halvCtrl_hidden :=
                  toggle_hidden (halvCtrl doc) (negb (v =? "halving")%string)
                    (halvCtrl_hidden (groups a));
                custCtrl_hidden :=
                  toggle_hidden (custCtrl doc) (negb (v =? "custom")%string)
                    (custCtrl_hidden (groups a)) |}
           else groups a
       | _ => groups a
       end.
Proof.
  destruct ev; cbn [GoldView.step].
  - destruct (load_fields net a) as (S & G & _). split; assumption.
  - unfold timeSel_onchange. destruct (bound a && timeSel doc);
      [|split; reflexivity].
    destruct (render_fields
      (set_groups
         {| yearCtrl_hidden :=
              toggle_hidden (yearCtrl doc) (negb (value =? "year")%string)
                (yearCtrl_hidden (groups (set_state (set_timeMode value (state a)) a)));
            halvCtrl_hidden :=
              toggle_hidden (halvCtrl doc) (negb (value =? "halving")%string)
                (halvCtrl_hidden (groups (set_state (set_timeMode value (state a)) a)));
            custCtrl_hidden :=
              toggle_hidden (custCtrl doc) (negb (value =? "custom")%string)
                (custCtrl_hidden (groups (set_state (set_timeMode value (state a)) a))) |}
         (set_state (set_timeMode value (state a)) a))) as (_ & S & G & _).
    rewrite S, G. split; reflexivity.
  - unfold yearSel_onchange. destruct (bound a && yearSel doc);
      [|split; reflexivity].
    destruct (render_fields (set_state (set_year (Number value) (state a)) a))
      as (_ & S & G & _).
    rewrite S, G. split; reflexivity.
  - unfold halvingSel_onchange. destruct (bound a && halvingSel doc);
      [|split; reflexivity].
    destruct (render_fields (set_state (set_halvingCycle value (state a)) a))
      as (_ & S & G & _).
    rewrite S, G. split; reflexivity.
  - unfold logToggle_onchange. destruct (bound a && logToggle doc);
      [|split; reflexivity].
    destruct (render_fields (set_state (set_logScale checked (state a)) a))
      as (_ & S & G & _).
    rewrite S, G. split; reflexivity.
  - unfold startInput_onchange. destruct (bound a && startInput doc);
      [|split; reflexivity].
    destruct (render_fields
                (set_state (Gold.set_customStart (Some value) (state a)) a))
      as (_ & S & G & _).
    rewrite S, G. split; reflexivity.
  - unfold endInput_onchange. destruct (bound a && endInput doc);
      [|split; reflexivity].
    destruct (render_fields
                (set_state (Gold.set_customEnd (Some value) (state a)) a))
      as (_ & S & G & _).
    rewrite S, G. split; reflexivity.
  - unfold canvas_dblclick. destruct (chart (shown a)); split; reflexivity.
Qed.

Lemma groups_match_step (a : app) (ev : event) :
  groups_match doc a -> groups_match doc (step a ev).
Proof.
  intros (Y & H & C). destruct (step_state_groups a ev) as [S G].
  unfold groups_match. rewrite S, G.
  destruct ev; try destruct (bound a && _);
    cbn [set_timeMode set_year set_halvingCycle set_logScale
         Gold.set_customStart Gold.set_customEnd Gold.timeMode
         yearCtrl_hidden halvCtrl_hidden custCtrl_hidden];
    try (repeat split; assumption).
  unfold toggle_hidden.
  repeat split; intros P; rewrite P; reflexivity.
Qed.

Lemma groups_match_established (a : app) (v : string) :
  bound a = true -> timeSel doc = true ->
  groups_match doc (step a (change_timeMode v)).
Proof.
  intros B T. destruct (step_state_groups a (change_timeMode v)) as [S G].
  unfold groups_match. rewrite S, G, B, T.
  cbn [andb set_timeMode Gold.timeMode yearCtrl_hidden halvCtrl_hidden
       custCtrl_hidden].
  unfold toggle_hidden. repeat split; intros P; rewrite P; reflexivity.
Qed.

Lemma groups_match_run (evs : list event) (a : app) :
  groups_match doc a -> groups_match doc (run evs a).
Proof.
  revert a. induction evs as [|ev evs IH]; intros a M; [exact M|].
  change (groups_match doc (run evs (step a ev))).
  apply IH. apply groups_match_step. exact M.
Qed.

Lemma groups_match_visible (a : app) :
  groups_match doc a ->
  visible_groups doc a
  = filter (String.eqb (Gold.timeMode (state a))) (present_groups doc)
  /\ (List.length (visible_groups doc a) <= 1)%nat.
Proof.
  intros (Y & H & C). unfold visible_groups, present_groups.
  assert (E1 : Gold.timeMode (state a) = "year" ->
               (Gold.timeMode (state a) =? "halving")%string = false
               /\ (Gold.timeMode (state a) =? "custom")%string = false)
    by (intros ->; split; reflexivity).
  assert (E2 : Gold.timeMode (state a) = "halving" ->
               (Gold.timeMode (state a) =? "custom")%string = false)
    by (intros ->; reflexivity).
  destruct (yearCtrl doc); [rewrite (Y eq_refl)|];
    destruct (halvCtrl doc); [rewrite (H eq_refl)| |rewrite (H eq_refl)|];
    destruct (custCtrl doc); try rewrite (C eq_refl);
    cbn [andb Datatypes.app filter]; rewrite ?negb_involutive;
    destruct (Gold.timeMode (state a) =? "year")%string eqn:M1;
    try (apply String.eqb_eq in M1; destruct (E1 M1) as [F1 F2];
         rewrite ?F1, ?F2);
    destruct (Gold.timeMode (state a) =? "halving")%string eqn:M2;
    try (apply String.eqb_eq in M2; rewrite ?(E2 M2));
    try discriminate;
    destruct (Gold.timeMode (state a) =? "custom")%string;
    try discriminate;
    cbn [andb Datatypes.app filter List.length]; split; try reflexivity; lia.
Qed.

(** X13. At most one control group is visible, the one of the time mode.
    From a handled change of the time mode on, and through any later
    sequence of events, the control groups without the hidden class are
    those existing groups whose mode is the current time mode: the year
    group in mode [year], the cycle group in mode [halving], the date group
    in mode [custom], none in mode [all] or any other. *)
Theorem visible_group_follows_mode (a : app) (v : string) (evs : list event) :
  bound a = true -> timeSel doc = true ->
  let a' := run evs (step a (change_timeMode v)) in
  visible_groups doc a'
  = filter (String.eqb (Gold.timeMode (state a'))) (present_groups doc)
  /\ (List.length (visible_groups doc a') <= 1)%nat.
Proof.
  intros B T a'. apply groups_match_visible.
  apply groups_match_run. apply groups_match_established; assumption.
Qed.

Lemma run_keeps_year (evs : list event) (a : app) :
  (forall v, ~ In (change_year v) evs) ->
  Gold.year (state (run evs a)) = Gold.year (state a).
Proof.
  revert a. induction evs as [|ev evs IH]; intros a N; [reflexivity|].
  change (Gold.year (state (run evs (step a ev))) = Gold.year (state a)).
  rewrite IH by (intros v I; apply (N v); right; exact I).
  rewrite (proj1 (step_state_groups a ev)).
  destruct ev; try destruct (bound a && _); try reflexivity.
  exfalso. apply (N value). left. reflexivity.
Qed.

Lemma run_keeps_halvingCycle (evs : list event) (a : app) :
  (forall v, ~ In (change_halving v) evs) ->
  Gold.halvingCycle (state (run evs a)) = Gold.halvingCycle (state a).
Proof.
  revert a. induction evs as [|ev evs IH]; intros a N; [reflexivity|].
  change (Gold.halvingCycle (state (run evs (step a ev)))
          = Gold.halvingCycle (state a)).
  rewrite IH by (intros v I; apply (N v); right; exact I).
  rewrite (proj1 (step_state_groups a ev)).
  destruct ev; try destruct (bound a && _); try reflexivity.
  exfalso. apply (N value). left. reflexivity.
Qed.

(** X14. Filling the year selector selects no year.  Until the user changes
    the year selector, [reviewGoldState.year] stays [null] through any
    sequence of other events (loads included, although they fill the
    selector), so mode [year] then shows the whole series; the same holds
    for the cycle selector and mode [halving]. *)
Theorem selectors_start_unset (evs : list event) (v0 : visibility) :
  let a := run evs (init_app v0) in
  ((forall v, ~ In (change_year v) evs) ->
   Gold.year (state a) = None
   /\ (Gold.timeMode (state a) = "year" ->
       forall data, filterData data (state a) = Return data))
  /\ ((forall v, ~ In (change_halving v) evs) ->
      Gold.halvingCycle (state a) = None
      /\ (Gold.timeMode (state a) = "halving" ->
          forall data, filterData data (state a) = Return data)).
Proof.
  intros a. split; intros N.
  - pose proof (run_keeps_year evs (init_app v0) N) as Y. fold a in Y.
    cbn in Y. split; [exact Y|].
    intros M data. unfold Gold.filterData. rewrite M, Y. reflexivity.
  - pose proof (run_keeps_halvingCycle evs (init_app v0) N) as Y. fold a in Y.
    cbn in Y. split; [exact Y|].
    intros M data. unfold Gold.filterData. rewrite M, Y. reflexivity.
Qed.

(** X15. The scale toggle never changes the points.  When a chart exists
    and the current filter gives a non-empty slice, a handled change of the
    log toggle leaves that slice in the chart, keeps the time axis, and sets
    the value axis to [logarithmic] or [linear] as the toggle says. *)
Theorem log_toggle_keeps_points (a : app) (checked : bool)
    (d data : Gold.series) (c : chart_instance) :
  bound a = true -> logToggle doc = true -> canvas doc = true ->
  Gold.goldData (page a) = Some d ->
  filterData d (state a) = Return data -> data <> [] ->
  chart (shown a) = Some c ->
  exists c',
    chart (shown (step a (change_log checked))) = Some c'
    /\ dataset c' = data
    /\ x_unit c' = x_unit c /\ x_callback c' = x_callback c
    /\ y_type c' = (if checked then "logarithmic" else "linear")
    /\ updates c' = S (updates c).
Proof.
  intros B L C G F NE H. cbn [GoldView.step]. unfold logToggle_onchange.
  rewrite B, L. cbn [andb]. unfold GoldView.render, GoldView.updateChart.
  rewrite C. cbn [negb set_state page state shown]. rewrite G.
  change (Gold.filterData Date_parse d (set_logScale checked (state a)))
    with (filterData d (state a)).
  rewrite F. cbn [JS.bind]. destruct data as [|p data]; [congruence|].
  rewrite H. eexists. cbn [set_shown shown chart dataset x_unit x_callback
                            y_type updates].
  repeat split.
Qed.

End GoldPage.

(** ** The year selector *)

Section YearSelect.

Import GoldView.

Lemma same_value_eq (a b : option Z) : same_value a b = true <-> a = b.
Proof.
  destruct a as [u|], b as [v|]; cbn [same_value]; split;
    try discriminate; try reflexivity.
  - intros E. apply Z.eqb_eq in E. congruence.
  - intros E. inversion E. apply Z.eqb_refl.
Qed.

Lemma seen_In (v : option Z) (seen : list (option Z)) :
  existsb (same_value v) seen = true <-> In v seen.
Proof.
  rewrite existsb_exists. split.
  - intros (w & I & E). apply same_value_eq in E. congruence.
  - intros I. exists v. split; [exact I | apply same_value_eq; reflexivity].
Qed.

Lemma distinct_In (v : option Z) (xs seen : list (option Z)) :
  In v (distinct seen xs) <-> In v xs /\ ~ In v seen.
Proof.
  revert seen. induction xs as [|w xs IH]; intros seen; cbn [distinct].
  - cbn [In]. tauto.
  - destruct (existsb (same_value w) seen) eqn:E.
    + apply seen_In in E. rewrite IH. cbn [In]. split.
      * intros [I N]. tauto.
      * intros [[->|I] N]; tauto.
    + assert (N : ~ In w seen).
      { intros I. apply seen_In in I. congruence. }
      cbn [In]. rewrite IH. cbn [In]. split.
      * intros [->|[I M]]; [tauto|]. split; [tauto|]. intros J. apply M. tauto.
      * intros [[->|I] M]; [tauto|].
        destruct (same_value w v) eqn:S.
        -- apply same_value_eq in S. tauto.
        -- right. split; [exact I|]. intros [->|J]; [|tauto].
           assert (X : same_value v v = true) by (apply same_value_eq; reflexivity).
           congruence.
Qed.

Lemma distinct_NoDup (xs seen : list (option Z)) : NoDup (distinct seen xs).
Proof.
  revert seen. induction xs as [|w xs IH]; intros seen; cbn [distinct].
  - constructor.
  - destruct (existsb (same_value w) seen); [apply IH|].
    constructor; [|apply IH].
    rewrite distinct_In. cbn [In]. tauto.
Qed.

Lemma insert_sorted_perm (cmp : option Z -> option Z -> Z) (v : option Z)
    (l : list (option Z)) :
  Permutation (v :: l) (insert_sorted cmp v l).
Proof.
  induction l as [|w l IH]; cbn [insert_sorted]; [apply Permutation_refl|].
  destruct (cmp v w <=? 0); [apply Permutation_refl|].
  eapply Permutation_trans; [apply perm_swap|].
  apply perm_skip. exact IH.
Qed.

Lemma sort_perm (cmp : option Z -> option Z -> Z) (l : list (option Z)) :
  Permutation l (sort cmp l).
Proof.
  induction l as [|v l IH]; [apply Permutation_refl|].
  unfold sort. cbn [fold_right].
  eapply Permutation_trans; [|apply insert_sorted_perm].
  apply perm_skip. exact IH.
Qed.

Lemma newest_first_total (a b : option Z) :
  ~ newest_first a b <= 0 -> not_older b a.
Proof.
  unfold not_older. destruct a as [u|], b as [v|]; cbn [newest_first]; lia.
Qed.

Lemma insert_sorted_HdRel (w v : option Z) (l : list (option Z)) :
  HdRel not_older w l -> not_older w v ->
  HdRel not_older w (insert_sorted newest_first v l).
Proof.
  intros H R. destruct l as [|u l]; cbn [insert_sorted].
  - constructor. exact R.
  - destruct (newest_first v u <=? 0); constructor; [exact R|].
    inversion H. assumption.
Qed.

Lemma insert_sorted_Sorted (v : option Z) (l : list (option Z)) :
  Sorted not_older l -> Sorted not_older (insert_sorted newest_first v l).
Proof.
  induction 1 as [|w l S IH H]; cbn [insert_sorted].
  - repeat constructor.
  - destruct (Z.leb_spec (newest_first v w) 0) as [L|L].
    + constructor; [constructor; assumption|]. constructor. exact L.
    + constructor; [exact IH|].
      apply insert_sorted_HdRel; [exact H|].
      apply newest_first_total. lia.
Qed.

Lemma sort_Sorted (l : list (option Z)) : Sorted not_older (sort newest_first l).
Proof.
  induction l as [|v l IH]; [constructor|].
  unfold sort. cbn [fold_right]. apply insert_sorted_Sorted. exact IH.
Qed.

Lemma Sorted_strict (l : list (option Z)) :
  Sorted not_older l -> NoDup l -> ~ In None l -> Sorted strictly_newer l.
Proof.
  induction 1 as [|w l S IH H]; intros D N; [constructor|].
  inversion D as [|? ? NI D']; subst.
  constructor.
  - apply IH; [exact D'|]. intros I. apply N. right. exact I.
  - destruct l as [|u l]; constructor.
    inversion H as [|? ? R]; subst. unfold not_older in R.
    destruct w as [a|]; [|exfalso; apply N; left; reflexivity].
    destruct u as [b|]; [|exfalso; apply N; right; left; reflexivity].
    cbn [newest_first] in R. cbn [strictly_newer].
    assert (a <> b) by (intros ->; apply NI; left; reflexivity). lia.
Qed.

(** X16. The year selector lists each year of the series once, newest
    first.  For a series whose dates are all valid, the options written by
    [populateYearSelect] are years in strictly descending order, and a year
    is among them exactly when some point of the series falls in it. *)
Theorem year_options_spec (goldData : Gold.series) :
  (forall p, In p goldData -> Gold.x p <> None) ->
  Sorted strictly_newer (year_options goldData)
  /\ forall y : Z,
       In (Some y) (year_options goldData)
       <-> exists p v, In p goldData /\ Gold.x p = Some v
                       /\ Date.YearFromTime v = y.
Proof.
  intros V. unfold year_options.
  assert (M : forall w, In w (sort newest_first (distinct [] (map year_of goldData)))
                        <-> In w (map year_of goldData)).
  { intros w. split; intros I.
    - apply (Permutation_in _ (Permutation_sym (sort_perm _ _))) in I.
      apply distinct_In in I. tauto.
    - apply (Permutation_in _ (sort_perm _ _)).
      apply distinct_In. split; [exact I | intros []]. }
  split.
  - apply Sorted_strict.
    + apply sort_Sorted.
    + apply (Permutation_NoDup (sort_perm _ _)). apply distinct_NoDup.
    + intros I. apply M in I. apply in_map_iff in I as (p & E & I).
      unfold year_of in E. specialize (V p I).
      destruct (Gold.x p); [discriminate | congruence].
  - intros y. rewrite M, in_map_iff. split.
    + intros (p & E & I). unfold year_of in E.
      destruct (Gold.x p) as [v|] eqn:X; [|discriminate].
      exists p, v. cbn [option_map] in E. inversion E. repeat split; assumption.
    + intros (p & v & I & X & Y). exists p. split; [|exact I].
      unfold year_of. rewrite X. cbn [option_map]. congruence.
Qed.

End YearSelect.

(** The sample series has points in 2020 and in 2024. *)
Lemma year_options_spec_witness :
  (forall p, In p Samples.gold_series -> Gold.x p <> None)
  /\ Sorted strictly_newer (GoldView.year_options Samples.gold_series)
  /\ GoldView.year_options Samples.gold_series = [Some 2024; Some 2020].
Proof.
  assert (V : forall p, In p Samples.gold_series -> Gold.x p <> None).
  { intros p I. vm_compute in I.
    repeat (destruct I as [<-|I]; [discriminate|]). destruct I. }
  split; [exact V|]. split.
  - exact (proj1 (year_options_spec Samples.gold_series V)).
  - reflexivity.
Defined.

(** ** The page of the fiat module *)

Section FiatPage.

Import JS.
Import FiatView.

Variable Date_parse : string -> Date.t.
Variable JSON_parse : string -> option Net.json_point.
Variable toUpperCase : string -> string.
Variable canvas : bool.

Local Abbreviation ensureDataLoaded :=
  (Fiat.ensureDataLoaded Date_parse JSON_parse).
Local Abbreviation updateChart :=
  (FiatView.updateChart Date_parse toUpperCase canvas).
Local Abbreviation loadReviewBtcVsFiat :=
  (FiatView.loadReviewBtcVsFiat Date_parse JSON_parse toUpperCase canvas).
Local Abbreviation run :=
  (FiatView.run Date_parse JSON_parse toUpperCase canvas).
Local Abbreviation page_ok := (fiat_page_ok toUpperCase).

Ltac ensure_step :=
  first [ rewrite (ensure_usd_eq Date_parse JSON_parse)
        | rewrite (ensure_eur_eq Date_parse JSON_parse)
        | rewrite (ensure_jpy_eq Date_parse JSON_parse) ];
  cbn [Fiat.usd Fiat.eur Fiat.jpy Fiat.dataCache Fiat.initialized
       Fiat.requests];
  try match goal with
      | |- context [match fst (Fiat.loadJSONL _ _ ?n ?p Fiat.init_page)
                    with _ => _ end] =>
          destruct (fst (Fiat.loadJSONL Date_parse JSON_parse n p Fiat.init_page))
      end;
  cbn zeta.

(** What [ensureDataLoaded] leaves: the flag as it was, and on a normal
    return the three series cached, those already cached untouched. *)
Lemma ensureDataLoaded_result (net : string -> Net.fetch_result)
    (pg pg' : Fiat.page) (r : outcome unit) :
  ensureDataLoaded net pg = (r, pg') ->
  Fiat.initialized pg' = Fiat.initialized pg
  /\ (forall d, Fiat.usd (Fiat.dataCache pg) = Some d ->
      Fiat.usd (Fiat.dataCache pg') = Some d)
  /\ (r = Return tt -> forall src, fiat_cached src pg' <> None).
Proof.
  destruct pg as [[u e j] i rq].
  destruct u, e, j; unfold Fiat.ensureDataLoaded, then_; repeat ensure_step;
    intros E; inversion E; subst; cbn [Fiat.initialized Fiat.dataCache Fiat.usd];
    (split; [reflexivity|]); (split; [intros d' X; first [exact X | discriminate X]|]);
    intros R; try discriminate R; intros src; destruct src; discriminate.
Qed.

Lemma updateChart_all (a : app) (d : Fiat.series) :
  canvas = true ->
  Fiat.usd (Fiat.dataCache (page a)) = Some d ->
  exists c,
    updateChart Fiat.reviewChartState a
    = Return {| page := page a;
                shown := {| chartInstance := Some c;
                            charts_constructed :=
                              match chartInstance (shown a) with
                              | None => S (charts_constructed (shown a))
                              | Some _ => charts_constructed (shown a)
                              end;
                            dblclick_listeners :=
                              match chartInstance (shown a) with
                              | None => S (dblclick_listeners (shown a))
                              | Some _ => dblclick_listeners (shown a)
                              end |} |}
    /\ labels c = map Fiat.date d /\ values c = map Fiat.value d
    /\ label c = ("BTC vs " ++ toUpperCase "usd")%string
    /\ y_type c = "logarithmic".
Proof.
  intros C U. unfold FiatView.updateChart. rewrite C.
  cbn [negb Fiat.reviewChartState Fiat.fiat].
  change (cache_entry "usd" (Fiat.dataCache (page a)))
    with (Fiat.usd (Fiat.dataCache (page a))).
  rewrite U.
  change (Fiat.filterData Date_parse d Fiat.reviewChartState) with (Return d).
  cbn [JS.bind].
  change (y_axis Fiat.reviewChartState) with "logarithmic".
  destruct (chartInstance (shown a)); eexists; (split; [reflexivity|]);
    repeat split.
Qed.

Lemma fiat_updateChart_ok (a : app) :
  page_ok a -> Fiat.initialized (page a) = true ->
  page_ok (snd (match updateChart Fiat.reviewChartState a with
                | Return a' => (Return tt, a')
                | Throw e => (Throw e, a)
                end)).
Proof.
  intros O I.
  assert (D : canvas = true \/ canvas = false) by (destruct canvas; tauto).
  destruct D as [C|C].
  2:{ unfold FiatView.updateChart. rewrite C. exact O. }
  destruct O as [A K]. pose proof (A I USD) as U. cbn [fiat_cached] in U.
  destruct (Fiat.usd (Fiat.dataCache (page a))) as [d|] eqn:Ud; [|congruence].
  destruct (updateChart_all a d C Ud) as (c & E & L & V & N & Y).
  rewrite E. cbn [snd]. unfold fiat_page_ok. cbn [page shown chartInstance
    charts_constructed dblclick_listeners].
  split; [exact A|].
  destruct (chartInstance (shown a)).
  - destruct K as (K1 & K2 & _). repeat split; try assumption.
    exists d. repeat split; assumption.
  - destruct K as (K1 & K2). rewrite K1, K2. repeat split; try assumption.
    exists d. repeat split; assumption.
Qed.

Lemma fiat_load_ok (net : string -> Net.fetch_result) (a : app) :
  page_ok a -> page_ok (snd (loadReviewBtcVsFiat net a)).
Proof.
  intros O. unfold FiatView.loadReviewBtcVsFiat.
  destruct (Fiat.initialized (page a)) eqn:I; cbn [negb].
  { apply fiat_updateChart_ok; assumption. }
  assert (H : chartInstance (shown a) = None).
  { destruct O as [_ K]. destruct (chartInstance (shown a)); [|reflexivity].
    destruct K as (_ & _ & T & _). congruence. }
  destruct (ensureDataLoaded net (page a)) as [r pg] eqn:E.
  destruct (ensureDataLoaded_result net (page a) pg r E) as (Ei & _ & All).
  destruct r as [[]|e].
  - apply fiat_updateChart_ok; [|reflexivity].
    destruct O as [_ K]. rewrite H in K.
    unfold fiat_page_ok. cbn [page shown]. rewrite H.
    split; [|exact K]. intros _ src.
    specialize (All eq_refl src). destruct src; exact All.
  - cbn [snd]. destruct O as [_ K]. rewrite H in K.
    unfold fiat_page_ok. cbn [page shown]. rewrite H, Ei, I.
    split; [discriminate | exact K].
Qed.

Lemma fiat_run_ok (nets : list (string -> Net.fetch_result)) (a : app) :
  page_ok a -> page_ok (run nets a).
Proof.
  revert a. induction nets as [|net nets IH]; intros a O; [exact O|].
  change (page_ok (run nets (snd (loadReviewBtcVsFiat net a)))).
  apply IH. apply fiat_load_ok. exact O.
Qed.

(** X17. The fiat chart always plots the whole USD series.  After any
    sequence of calls of [loadReviewBtcVsFiat], whatever the network did: an
    initialised module has all three series cached (so [updateChart] never
    meets an empty cache slot); at most one chart was built; and the chart,
    when there is one, has one label and one value per point of the cached
    USD series, in order, the data set label of USD and a logarithmic value
    axis, because nothing ever writes the module's state. *)
Theorem fiat_chart_whole_usd (nets : list (string -> Net.fetch_result)) :
  let a := run nets init_app in
  (Fiat.initialized (page a) = true ->
   forall src, fiat_cached src (page a) <> None)
  /\ (charts_constructed (shown a) <= 1)%nat
  /\ forall c, chartInstance (shown a) = Some c ->
       exists d,
         Fiat.usd (Fiat.dataCache (page a)) = Some d
         /\ labels c = map Fiat.date d /\ values c = map Fiat.value d
         /\ label c = ("BTC vs " ++ toUpperCase "usd")%string
         /\ y_type c = "logarithmic".
Proof.
  intros a.
  assert (O : page_ok init_app).
  { unfold fiat_page_ok. cbn. split; [discriminate | split; reflexivity]. }
  destruct (fiat_run_ok nets init_app O) as [A K]. fold a in A, K.
  split; [exact A|].
  destruct (chartInstance (shown a)) as [c|].
  - destruct K as (K1 & _ & _ & d & K). rewrite K1.
    split; [lia|]. intros c' E. inversion E; subst c'. exists d. exact K.
  - destruct K as (K1 & _). rewrite K1. split; [lia | discriminate].
Qed.

End FiatPage.

(** ** The router and the history *)

Section RouterMore.

Import Router.

Variable doc : document.
Variable showSubTab_is_function : bool.

Local Abbreviation routeTo := (Router.routeTo doc).
Local Abbreviation run_callback :=
  (Router.run_callback doc showSubTab_is_function).
Local Abbreviation run_timers := (Router.run_timers doc showSubTab_is_function).
Local Abbreviation applyPath := (Router.applyPath doc showSubTab_is_function).
Local Abbreviation step := (router_step doc showSubTab_is_function).
Local Abbreviation run := (router_run doc showSubTab_is_function).

Lemma table_entry_replayable (path : string) (r : route) :
  In (path, r) ROUTES ->
  replayable {| state_path := path; url := "/" ++ path |}.
Proof.
  intros I.
  pose proof (proj1 (Forall_forall _ _) routes_checked (path, r) I) as C.
  cbn [fst snd] in C. destruct C as (_ & _ & _ & G & K).
  split; [reflexivity|]. cbn [state_path]. rewrite K. exists r. exact G.
Qed.

Lemma push_entry_replayable (f : string * route -> bool) (w : browser) :
  all_replayable w -> all_replayable (push_entry (find f ROUTES) w).
Proof.
  intros A. destruct (find f ROUTES) as [[path r]|] eqn:F; [|exact A].
  apply find_some in F as [I _].
  unfold all_replayable. cbn [push_entry pushState history].
  apply Forall_app. split; [exact A|].
  constructor; [|constructor]. exact (table_entry_replayable path r I).
Qed.

Lemma click_replayable (t : element) (w : browser) :
  all_replayable w -> all_replayable (click t w).
Proof.
  intros A. unfold click.
  assert (A1 : all_replayable (on_tab_click t (call_ui (clicked t) w))).
  { unfold on_tab_click. destruct (closest _ t); [|exact A].
    unfold find_tab. apply push_entry_replayable. exact A. }
  assert (A2 : all_replayable
                 (on_subtab_click t (on_tab_click t (call_ui (clicked t) w)))).
  { unfold on_subtab_click at 1. destruct (closest _ t); [|exact A1].
    unfold find_subtab. apply push_entry_replayable. exact A1. }
  unfold on_subsubtab_click at 1. destruct (closest _ t); [|exact A2].
  destruct (ROUTER_ACTIVE _); [exact A2|].
  unfold find_subsubtab. apply push_entry_replayable. exact A2.
Qed.

Lemma routeTo_replayable (path : string) (w : browser) :
  all_replayable w -> all_replayable (routeTo path w).
Proof.
  intros A. unfold Router.routeTo.
  destruct (JS.get (clean path) ROUTES) as [r|]; [|exact A].
  destruct (querySelector _ doc) as [mainBtn|]; [|exact A].
  pose proof (click_replayable mainBtn (set_ROUTER_ACTIVE true w) A) as A1.
  destruct (truthy (subtab r)), (truthy (subsubtab r)); exact A1.
Qed.

Lemma run_callback_replayable (cb : callback) (w : browser) :
  all_replayable w -> all_replayable (run_callback cb w).
Proof.
  intros A. destruct cb as [s|ss]; unfold Router.run_callback.
  - destruct (querySelector _ doc); [|exact A].
    destruct showSubTab_is_function; exact A.
  - destruct (querySelector _ doc) as [btn|]; [|exact A].
    exact (click_replayable btn w A).
Qed.

Lemma run_queue_replayable (q : list (Z * callback)) (w : browser) :
  all_replayable w ->
  all_replayable (fold_left (fun w t => run_callback (snd t) w) q w).
Proof.
  revert w. induction q as [|t q IH]; intros w A; [exact A|].
  cbn [fold_left]. apply IH. apply run_callback_replayable. exact A.
Qed.

Lemma step_replayable (w : browser) (ev : router_event) :
  all_replayable w -> all_replayable (step w ev).
Proof.
  intros A. destruct ev as [t|st|pathname|]; cbn [router_step].
  - apply click_replayable. exact A.
  - destruct st as [path|]; [|exact A]. apply routeTo_replayable. exact A.
  - unfold on_DOMContentLoaded.
    destruct (JS.get (clean pathname) ROUTES); [|exact A].
    apply routeTo_replayable. exact A.
  - unfold Router.run_timers. apply run_queue_replayable. exact A.
Qed.

(** X18. Every history entry can be replayed.  Whatever the page and
    whatever the sequence of clicks, [popstate] and load events and timer
    runs, each entry the router has pushed carries the address [/path] of
    its own path, and [routeTo] finds a route for that path: going back to
    an entry never meets an unknown path. *)
Theorem history_replayable (evs : list router_event) :
  Forall replayable (history (run evs fresh)).
Proof.
  assert (G : forall w, all_replayable w -> all_replayable (run evs w)).
  { induction evs as [|ev evs IH]; intros w A; [exact A|].
    change (all_replayable (run evs (step w ev))).
    apply IH. apply step_replayable. exact A. }
  apply G. constructor.
Qed.

Lemma addresses_checked :
  Forall (fun e => clean ("/" ++ fst e) = fst e
                   /\ clean ("/" ++ fst e ++ "/") = fst e) ROUTES.
Proof.
  unfold ROUTES.
  repeat (apply Forall_cons; [split; vm_compute; reflexivity|]).
  apply Forall_nil.
Qed.

(** X19. Loading a pushed address applies its path.  For every entry
    [(path, r)] of the table, the [DOMContentLoaded] listener on the address
    [/path] the router pushes for it, with or without a closing slash, does
    exactly what [routeTo(path)] does. *)
Theorem pushed_address_reloads (path : string) (r : route) (w : browser) :
  In (path, r) ROUTES ->
  on_DOMContentLoaded doc ("/" ++ path) w = routeTo path w
  /\ on_DOMContentLoaded doc ("/" ++ path ++ "/") w = routeTo path w.
Proof.
  intros I.
  pose proof (proj1 (Forall_forall _ _) addresses_checked (path, r) I) as [C1 C2].
  pose proof (proj1 (Forall_forall _ _) routes_checked (path, r) I) as C.
  cbn [fst snd] in C, C1, C2. destruct C as (_ & _ & _ & G & _).
  unfold on_DOMContentLoaded. rewrite C1, C2, G. split; reflexivity.
Qed.

Lemma push_entry_flag (entry : option (string * route)) (w : browser) :
  ROUTER_ACTIVE (push_entry entry w) = ROUTER_ACTIVE w
  /\ timers (push_entry entry w) = timers w.
Proof. destruct entry as [[p r]|]; split; reflexivity. Qed.

Lemma click_flag (t : element) (w : browser) :
  ROUTER_ACTIVE (click t w) = ROUTER_ACTIVE w
  /\ timers (click t w) = timers w.
Proof.
  unfold click.
  assert (H1 : ROUTER_ACTIVE (on_tab_click t (call_ui (clicked t) w))
               = ROUTER_ACTIVE w
               /\ timers (on_tab_click t (call_ui (clicked t) w)) = timers w).
  { unfold on_tab_click. destruct (closest _ t); [|split; reflexivity].
    destruct (push_entry_flag (find_tab (data "tab" (self e)))
                (call_ui (clicked t) w)) as [A B].
    split; [rewrite A | rewrite B]; reflexivity. }
  set (w1 := on_tab_click t (call_ui (clicked t) w)) in *.
  assert (H2 : ROUTER_ACTIVE (on_subtab_click t w1) = ROUTER_ACTIVE w
               /\ timers (on_subtab_click t w1) = timers w).
  { unfold on_subtab_click. destruct (closest _ t); [|exact H1].
    destruct (push_entry_flag (find_subtab (data "subtab" (self e))) w1) as [A B].
    split; [rewrite A | rewrite B]; apply H1. }
  set (w2 := on_subtab_click t w1) in *.
  unfold on_subsubtab_click. destruct (closest _ t); [|exact H2].
  destruct (ROUTER_ACTIVE w2) eqn:F; [rewrite F; exact H2|].
  destruct (push_entry_flag (find_subsubtab (data "subsubtab" (self e))) w2)
    as [A B].
  split; [rewrite A, F | rewrite B]; apply H2.
Qed.

(** X20. While the flag is set, sub-subtab clicks of the user are lost.
    For an entry of the table: if the page lacks the main tab control of
    the entry, [routeTo] only sets the flag (no click, no timer, and nothing
    clears the flag again); if the control exists and the entry names a
    sub-subtab, the flag is set when [routeTo] returns, until the timers
    run.  In both cases a click on a sub-subtab control meanwhile is not
    recorded by the sub-subtab listener. *)
Theorem flag_swallows_subsubtab_clicks (path : string) (r : route)
    (w : browser) :
  In (path, r) ROUTES ->
  (querySelector (sel_tab (tab r)) doc = None ->
   routeTo path w = set_ROUTER_ACTIVE true w)
  /\ (querySelector (sel_tab (tab r)) doc = None
      \/ truthy (subsubtab r) = true ->
      ROUTER_ACTIVE (routeTo path w) = true
      /\ forall target,
           on_subsubtab_click target (routeTo path w) = routeTo path w).
Proof.
  intros I.
  pose proof (proj1 (Forall_forall _ _) routes_checked (path, r) I) as C.
  cbn [fst snd] in C. destruct C as (_ & _ & _ & G & K).
  assert (N : querySelector (sel_tab (tab r)) doc = None ->
              routeTo path w = set_ROUTER_ACTIVE true w).
  { intros Q. unfold Router.routeTo. rewrite K, G, Q. reflexivity. }
  split; [exact N|].
  intros D.
  assert (A : ROUTER_ACTIVE (routeTo path w) = true).
  { destruct (querySelector (sel_tab (tab r)) doc) as [mainBtn|] eqn:Q.
    - destruct D as [D|T]; [discriminate|].
      unfold Router.routeTo. rewrite K, G, Q, T.
      destruct (truthy (subtab r));
        cbn [setTimeout ROUTER_ACTIVE];
        rewrite (proj1 (click_flag mainBtn _)); reflexivity.
    - rewrite (N eq_refl). reflexivity. }
  split; [exact A|].
  intros target. apply on_subsubtab_click_suppressed. exact A.
Qed.

Lemma run_callback_flag (cb : callback) (w : browser) :
  timers (run_callback cb w) = timers w
  /\ (ROUTER_ACTIVE w = false -> ROUTER_ACTIVE (run_callback cb w) = false)
  /\ (forall ss, cb = activate_subsubtab ss ->
      ROUTER_ACTIVE (run_callback cb w) = false).
Proof.
  destruct cb as [s|ss]; unfold Router.run_callback.
  - destruct (querySelector _ doc); [destruct showSubTab_is_function|];
      cbn [call_ui timers ROUTER_ACTIVE]; repeat split; try tauto; discriminate.
  - destruct (querySelector _ doc) as [btn|];
      cbn [set_ROUTER_ACTIVE timers ROUTER_ACTIVE];
      repeat split; try reflexivity.
    exact (proj2 (click_flag btn w)).
Qed.

Lemma run_queue_flag (q : list (Z * callback)) (w : browser) :
  timers (fold_left (fun w t => run_callback (snd t) w) q w) = timers w
  /\ (ROUTER_ACTIVE w = false \/ (exists d ss, In (d, activate_subsubtab ss) q) ->
      ROUTER_ACTIVE (fold_left (fun w t => run_callback (snd t) w) q w) = false).
Proof.
  revert w. induction q as [|[d cb] q IH]; intros w; cbn [fold_left snd].
  - split; [reflexivity|]. intros [F|(d & ss & [])]. exact F.
  - destruct (run_callback_flag cb w) as (T & F & S).
    destruct (IH (run_callback cb w)) as [T' F']. split; [congruence|].
    intros [A|(d' & ss & [E|I])].
    + apply F'. left. apply F. exact A.
    + inversion E; subst. apply F'. left. apply (S ss). reflexivity.
    + apply F'. right. exists d', ss. exact I.
Qed.

Lemma insert_timer_In (d : Z) (cb : callback) (q : list (Z * callback)) :
  In (d, cb) (insert_timer d cb q).
Proof.
  induction q as [|[d' c'] q IH]; cbn [insert_timer]; [left; reflexivity|].
  destruct (d <? d'); [left; reflexivity | right; exact IH].
Qed.

(** X21. A whole application ends with the flag cleared.  For every entry
    of the table whose main tab control exists, and from any browser state,
    once [routeTo] has returned and the timers have run the flag is false
    and no timer is pending. *)
Theorem applyPath_clears_flag (path : string) (r : route) (w : browser) :
  In (path, r) ROUTES ->
  querySelector (sel_tab (tab r)) doc <> None ->
  ROUTER_ACTIVE (applyPath path w) = false
  /\ timers (applyPath path w) = [].
Proof.
  intros I Q.
  pose proof (proj1 (Forall_forall _ _) routes_checked (path, r) I) as C.
  cbn [fst snd] in C. destruct C as (_ & _ & _ & G & K).
  destruct (querySelector (sel_tab (tab r)) doc) as [mainBtn|] eqn:E;
    [clear Q | congruence].
  unfold Router.applyPath, Router.run_timers.
  match goal with
  | |- context [fold_left ?f ?q ?w0] =>
      destruct (run_queue_flag q w0) as [T F]
  end.
  split; [|exact T].
  apply F. unfold Router.routeTo. rewrite K, G, E.
  destruct (truthy (subsubtab r)) eqn:S.
  - right. exists 140, (to_string (subsubtab r)).
    cbn [setTimeout timers]. apply insert_timer_In.
  - left. reflexivity.
Qed.

End RouterMore.

(** ** The further properties at work *)

Lemma filterData_pointwise_witness :
  Gold.filterData Date.parse_iso Samples.gold_series
    (Samples.custom_state (Some "2020-05-12") (Some "2020-05-10"))
  = JS.Return (firstn 4 Samples.gold_series)
  /\ exists keep : Gold.point -> bool,
       (forall l, Gold.filterData Date.parse_iso l
                    (Samples.custom_state (Some "2020-05-12") (Some "2020-05-10"))
                  = JS.Return (filter keep l))
       /\ firstn 4 Samples.gold_series = filter keep Samples.gold_series
       /\ (List.length (firstn 4 Samples.gold_series)
           <= List.length Samples.gold_series)%nat
       /\ (forall p, In p (firstn 4 Samples.gold_series) ->
           In p Samples.gold_series).
Proof.
  split.
  - reflexivity.
  - apply (filterData_pointwise Date.parse_iso Samples.gold_series
             (Samples.custom_state (Some "2020-05-12") (Some "2020-05-10"))
             (firstn 4 Samples.gold_series)).
    reflexivity.
Defined.

Lemma filterData_idempotent_witness :
  Gold.filterData Date.parse_iso Samples.gold_series
    (Samples.halving_state (Some "2020_2024"))
  = JS.Return (tl Samples.gold_series)
  /\ Gold.filterData Date.parse_iso (tl Samples.gold_series)
       (Samples.halving_state (Some "2020_2024"))
     = JS.Return (tl Samples.gold_series).
Proof.
  split.
  - reflexivity.
  - apply (filterData_idempotent Date.parse_iso Samples.gold_series
             (Samples.halving_state (Some "2020_2024"))
             (tl Samples.gold_series)).
    reflexivity.
Defined.

(** The cycle 2020-2024 on the sample series: the point at the start
    instant and the point at the end instant are both kept. *)
Lemma filterData_halving_window_witness :
  (Gold.timeMode (Samples.halving_state (Some "2020_2024")) = "halving"
   /\ JS.get "2020_2024" Gold.HALVING_RANGES
      = Some ("2020-05-11", Some "2024-04-20")
   /\ Date.parse_iso "2020-05-11" = Some 1589155200000
   /\ option_map Date.parse_iso (Some "2024-04-20")
      = option_map Some (Some 1713571200000))
  /\ Gold.filterData Date.parse_iso Samples.gold_series
       (Samples.halving_state (Some "2020_2024"))
     = JS.Return (filter (fun p => within 1589155200000 (Some 1713571200000)
                                     (Gold.x p)) Samples.gold_series).
Proof.
  split.
  - repeat split.
  - apply (filterData_halving_window Date.parse_iso Samples.gold_series
             (Samples.halving_state (Some "2020_2024")) "2020_2024"
             "2020-05-11" (Some "2024-04-20") 1589155200000
             (Some 1713571200000)); try reflexivity.
    discriminate.
Defined.

Lemma filterData_custom_window_witness :
  (Gold.timeMode (Samples.custom_state (Some "2020-05-12") (Some "2020-05-10"))
   = "custom"
   /\ Date.parse_iso "2020-05-12" = Some 1589241600000
   /\ Date.parse_iso "2020-05-10" = Some 1589068800000
   /\ Z.abs (Z.max 1589241600000 1589068800000 + (86400000 - 1)) <= Date.maxTime)
  /\ Gold.filterData Date.parse_iso Samples.gold_series
       (Samples.custom_state (Some "2020-05-12") (Some "2020-05-10"))
     = JS.Return
         (filter (fun p =>
            within (Z.min 1589241600000 1589068800000)
              (Some (Z.max 1589241600000 1589068800000 + (86400000 - 1)))
              (Gold.x p)) Samples.gold_series).
Proof.
  split.
  - repeat split; try (unfold Date.maxTime; lia).
  - apply (filterData_custom_window Date.parse_iso Samples.gold_series
             (Samples.custom_state (Some "2020-05-12") (Some "2020-05-10"))
             "2020-05-12" "2020-05-10" 1589241600000 1589068800000);
      try reflexivity; try (unfold Date.maxTime; lia); discriminate.
Defined.

(** A start bound that is no date empties the slice. *)
Lemma filterData_custom_degenerate_witness :
  (Gold.timeMode (Samples.custom_state (Some "soon") (Some "2020-05-10"))
   = "custom"
   /\ Date.parse_iso "soon" = None)
  /\ Gold.filterData Date.parse_iso Samples.gold_series
       (Samples.custom_state (Some "soon") (Some "2020-05-10"))
     = JS.Return [].
Proof.
  split.
  - split; reflexivity.
  - apply (filterData_custom_degenerate Date.parse_iso Samples.gold_series
             (Samples.custom_state (Some "soon") (Some "2020-05-10"))
             "soon" "2020-05-10"); try reflexivity; try discriminate.
    left. reflexivity.
Defined.


(** Narrowing the loaded page to one day keeps the quarter axis of the first
    paint, although the time scale computed for the new slice is monthly. *)
Lemma x_axis_frozen_witness :
  GoldView.chart (GoldView.shown Scenarios.gold_loaded)
  = Some Scenarios.first_chart
  /\ Gold.unit
       (Gold.getTimeScaleConfig
          (GoldView.state (Scenarios.gold_run Scenarios.narrowing
                             Scenarios.gold_loaded))
          [Samples.gold_point "2020-05-11" 6])
     = Gold.month
  /\ exists c',
       GoldView.chart
         (GoldView.shown
            (GoldView.run Date.parse_iso Samples.parse_record
               Scenarios.Number_of Scenarios.all_elements Scenarios.narrowing
               Scenarios.gold_loaded)) = Some c'
       /\ GoldView.x_unit c' = GoldView.x_unit Scenarios.first_chart
       /\ GoldView.x_callback c' = GoldView.x_callback Scenarios.first_chart.
Proof.
  split; [reflexivity|]. split; [reflexivity|].
  apply (x_axis_frozen Date.parse_iso Samples.parse_record Scenarios.Number_of
           Scenarios.all_elements Scenarios.gold_loaded Scenarios.first_chart
           Scenarios.narrowing).
  reflexivity.
Defined.


Lemma visible_group_follows_mode_witness :
  (GoldView.bound Scenarios.gold_loaded = true
   /\ GoldView.timeSel Scenarios.all_elements = true)
  /\ visible_groups Scenarios.all_elements
       (GoldView.run Date.parse_iso Samples.parse_record Scenarios.Number_of
          Scenarios.all_elements [GoldView.change_year "2020"]
          (GoldView.step Date.parse_iso Samples.parse_record
             Scenarios.Number_of Scenarios.all_elements Scenarios.gold_loaded
             (GoldView.change_timeMode "custom")))
     = ["custom"].
Proof.
  split.
  - split; reflexivity.
  - rewrite (proj1 (visible_group_follows_mode Date.parse_iso
                      Samples.parse_record Scenarios.Number_of
                      Scenarios.all_elements Scenarios.gold_loaded "custom"
                      [GoldView.change_year "2020"] eq_refl eq_refl)).
    reflexivity.
Defined.

(** After a load, switching to mode [year] without touching the year
    selector leaves the year unset. *)
Lemma selectors_start_unset_witness :
  (forall v, ~ In (GoldView.change_year v)
                  [GoldView.load Samples.net_up; GoldView.change_timeMode "year"])
  /\ Gold.year
       (GoldView.state
          (GoldView.run Date.parse_iso Samples.parse_record Scenarios.Number_of
             Scenarios.all_elements
             [GoldView.load Samples.net_up; GoldView.change_timeMode "year"]
             (GoldView.init_app Scenarios.all_hidden))) = None.
Proof.
  assert (N : forall v, ~ In (GoldView.change_year v)
                [GoldView.load Samples.net_up; GoldView.change_timeMode "year"]).
  { intros v [E|[E|[]]]; discriminate E. }
  split; [exact N|].
  exact (proj1 (proj1 (selectors_start_unset Date.parse_iso Samples.parse_record
                         Scenarios.Number_of Scenarios.all_elements
                         [GoldView.load Samples.net_up;
                          GoldView.change_timeMode "year"]
                         Scenarios.all_hidden) N)).
Defined.

Lemma log_toggle_keeps_points_witness :
  (GoldView.bound Scenarios.gold_loaded = true
   /\ Gold.goldData (GoldView.page Scenarios.gold_loaded)
      = Some Scenarios.payload_series
   /\ Gold.filterData Date.parse_iso Scenarios.payload_series
        (GoldView.state Scenarios.gold_loaded)
      = JS.Return Scenarios.payload_series
   /\ GoldView.chart (GoldView.shown Scenarios.gold_loaded)
      = Some Scenarios.first_chart)
  /\ exists c',
       GoldView.chart
         (GoldView.shown
            (GoldView.step Date.parse_iso Samples.parse_record
               Scenarios.Number_of Scenarios.all_elements Scenarios.gold_loaded
               (GoldView.change_log false))) = Some c'
       /\ GoldView.dataset c' = Scenarios.payload_series
       /\ GoldView.x_unit c' = GoldView.x_unit Scenarios.first_chart
       /\ GoldView.x_callback c' = GoldView.x_callback Scenarios.first_chart
       /\ GoldView.y_type c' = "linear"
       /\ GoldView.updates c' = S (GoldView.updates Scenarios.first_chart).
Proof.
  split.
  - repeat split.
  - apply (log_toggle_keeps_points Date.parse_iso Samples.parse_record
             Scenarios.Number_of Scenarios.all_elements Scenarios.gold_loaded
             false Scenarios.payload_series Scenarios.payload_series
             Scenarios.first_chart); try reflexivity.
    discriminate.
Defined.

(** Three calls, the first and the last with the network down: one chart,
    showing the two points of the USD file. *)
Lemma fiat_chart_whole_usd_witness :
  FiatView.chartInstance
    (FiatView.shown
       (FiatView.run Date.parse_iso Samples.parse_record Scenarios.upper true
          [Samples.net_down; Samples.net_up; Samples.net_down]
          FiatView.init_app))
  = Some {| FiatView.labels := [Some 1589068800000; Some 1589155200000];
            FiatView.values := [JS.num_of_Z 5; JS.num_of_Z 6];
            FiatView.label := "BTC vs USD";
            FiatView.y_type := "logarithmic"; FiatView.updates := 1 |}
  /\ exists d,
       Fiat.usd
         (Fiat.dataCache
            (FiatView.page
               (FiatView.run Date.parse_iso Samples.parse_record
                  Scenarios.upper true
                  [Samples.net_down; Samples.net_up; Samples.net_down]
                  FiatView.init_app))) = Some d
       /\ [Some 1589068800000; Some 1589155200000] = map Fiat.date d
       /\ [JS.num_of_Z 5; JS.num_of_Z 6] = map Fiat.value d
       /\ "BTC vs USD" = ("BTC vs " ++ Scenarios.upper "usd")%string
       /\ "logarithmic" = "logarithmic".
Proof.
  split.
  - reflexivity.
  - exact (proj2 (proj2
      (fiat_chart_whole_usd Date.parse_iso Samples.parse_record Scenarios.upper
         true [Samples.net_down; Samples.net_up; Samples.net_down])) _ eq_refl).
Defined.

Lemma pushed_address_reloads_witness :
  In ("review/btc-gold", Router.leaf "review" "REVIEW_BTC_VS_GOLD") Router.ROUTES
  /\ Router.on_DOMContentLoaded Router.dashboard "/review/btc-gold/"
       Router.fresh
     = Router.routeTo Router.dashboard "review/btc-gold" Router.fresh.
Proof.
  assert (I : In ("review/btc-gold", Router.leaf "review" "REVIEW_BTC_VS_GOLD")
                 Router.ROUTES).
  { unfold Router.ROUTES. repeat (first [left; reflexivity | right]). }
  split; [exact I|].
  exact (proj2 (pushed_address_reloads Router.dashboard "review/btc-gold"
                  (Router.leaf "review" "REVIEW_BTC_VS_GOLD") Router.fresh I)).
Defined.

(** On a page without any control the home route leaves the flag set. *)
Lemma flag_swallows_subsubtab_clicks_witness :
  (In ("", {| Router.tab := "home"; Router.subtab := Router.null;
              Router.subsubtab := Router.undefined |}) Router.ROUTES
   /\ Router.querySelector (Router.sel_tab "home") [] = None)
  /\ Router.routeTo [] "" Router.fresh
     = Router.set_ROUTER_ACTIVE true Router.fresh.
Proof.
  assert (I : In ("", {| Router.tab := "home"; Router.subtab := Router.null;
                         Router.subsubtab := Router.undefined |}) Router.ROUTES).
  { left. reflexivity. }
  split.
  - split; [exact I | reflexivity].
  - exact (proj1 (flag_swallows_subsubtab_clicks [] ""
                    {| Router.tab := "home"; Router.subtab := Router.null;
                       Router.subsubtab := Router.undefined |} Router.fresh I)
             eq_refl).
Defined.

Lemma applyPath_clears_flag_witness :
  (In ("metrics/tx-amount/24h",
       Router.deep "metrics" "METRICS_BTC_TX_AMOUNT" "METRICS_BTC_TX_AMOUNT_24H")
      Router.ROUTES
   /\ Router.querySelector (Router.sel_tab "metrics") Router.dashboard <> None)
  /\ Router.ROUTER_ACTIVE
       (Router.applyPath Router.dashboard true "metrics/tx-amount/24h"
          (Router.set_ROUTER_ACTIVE true Router.fresh)) = false.
Proof.
  assert (I : In ("metrics/tx-amount/24h",
                  Router.deep "metrics" "METRICS_BTC_TX_AMOUNT"
                    "METRICS_BTC_TX_AMOUNT_24H") Router.ROUTES).
  { unfold Router.ROUTES. repeat (first [left; reflexivity | right]). }
  assert (Q : Router.querySelector (Router.sel_tab "metrics") Router.dashboard
              <> None).
  { vm_compute. discriminate. }
  split; [split; [exact I | exact Q]|].
  exact (proj1 (applyPath_clears_flag Router.dashboard true
                  "metrics/tx-amount/24h"
                  (Router.deep "metrics" "METRICS_BTC_TX_AMOUNT"
                     "METRICS_BTC_TX_AMOUNT_24H")
                  (Router.set_ROUTER_ACTIVE true Router.fresh) I Q)).
Defined.

(** With only the USD file served, the call throws at the EUR file; USD is
    cached and is not retrieved again by the next call. *)
Lemma fiat_ensureDataLoaded_contract_witness :
  (fst (Fiat.ensureDataLoaded Date.parse_iso Samples.parse_record
          Scenarios.net_usd_only Fiat.init_page)
   = JS.Throw (JS.Error ("Failed to load " ++ Fiat.EUR_PATH))
   /\ fiat_cached USD Scenarios.fiat_after_usd
      = Some [ {| Fiat.date := Some 1589068800000; Fiat.value := JS.num_of_Z 5 |};
               {| Fiat.date := Some 1589155200000; Fiat.value := JS.num_of_Z 6 |} ])
  /\ fiat_retrievals USD
       (snd (Fiat.ensureDataLoaded Date.parse_iso Samples.parse_record
               Samples.net_up Scenarios.fiat_after_usd))
     = fiat_retrievals USD Scenarios.fiat_after_usd.
Proof.
  assert (C : fiat_cached USD Scenarios.fiat_after_usd
              = Some [ {| Fiat.date := Some 1589068800000;
                          Fiat.value := JS.num_of_Z 5 |};
                       {| Fiat.date := Some 1589155200000;
                          Fiat.value := JS.num_of_Z 6 |} ])
    by (vm_compute; reflexivity).
  split.
  - split; [vm_compute; reflexivity | exact C].
  - exact (proj2 (proj1 (fiat_ensureDataLoaded_contract Date.parse_iso
                           Samples.parse_record)
                    Samples.net_up Scenarios.fiat_after_usd USD _ C)).
Defined.
